(** * Tenant resolution and per-tenant database routing

    A shallow embedding of [src/middleware/tenant.js] and
    [src/config/database.js] (the [DatabaseManager] singleton), with the
    properties of the tenant-routing subsystem stated and proved over it.

    JavaScript strings are embedded as [string] (host headers and tenant
    slugs are byte strings on the wire); [null]/[undefined] inputs are kept
    apart from strings by the small [jsval] type. *)

From Stdlib Require Import String Ascii List Bool Arith NArith Lia.
From Stdlib Require Import DecimalString DecimalNat.
Import ListNotations.
Local Open Scope string_scope.

(* ===================================================================== *)
(** * JavaScript values that reach this code *)
(* ===================================================================== *)

(** What a caller may hand over where the code expects a string. *)
Inductive jsval : Type :=
| Undefined
| Null
| Str (s : string).

(** [!v] is [negb (truthy v)]: [undefined], [null] and [''] are falsy. *)
Definition truthy (v : jsval) : bool :=
  match v with
  | Str s => negb (s =? "")
  | Undefined | Null => false
  end.

(** [a || b] of JavaScript. *)
Definition js_or (a b : jsval) : jsval := if truthy a then a else b.

(** Template-literal conversion, as in [`tenant_${tenantId}`]. *)
Definition to_string (v : jsval) : string :=
  match v with
  | Undefined => "undefined"
  | Null => "null"
  | Str s => s
  end.

(** SameValueZero on the values above: the key equality of a JS [Map]. *)
Definition same_value (a b : jsval) : bool :=
  match a, b with
  | Undefined, Undefined => true
  | Null, Null => true
  | Str s, Str t => s =? t
  | _, _ => false
  end.

(** [!x] for a value that is either [null] or a string. *)
Definition falsy_opt (o : option string) : bool :=
  match o with
  | None => true
  | Some s => s =? ""
  end.

(* ===================================================================== *)
(** * String primitives used by the resolver *)
(* ===================================================================== *)

Module Js.

(** [s.split(sep)] for a one-character separator: the pieces between the
    separators, never an empty array. *)
Fixpoint split (sep : ascii) (s : string) : list string :=
  match s with
  | EmptyString => [EmptyString]
  | String c s' =>
      if Ascii.eqb c sep then EmptyString :: split sep s'
      else match split sep s' with
           | piece :: pieces => String c piece :: pieces
           | [] => [String c EmptyString]
           end
  end.

(** [arr[0]] of an array of strings obtained from [split]. *)
Definition first (pieces : list string) : string := hd EmptyString pieces.

(** [s.startsWith(p)]. *)
Definition startsWith (s p : string) : bool := String.prefix p s.

End Js.

(* ===================================================================== *)
(** * The three host patterns *)
(* ===================================================================== *)

(** Every regular expression of [extractTenantFromHost] has the shape
    [/^([^.]+)LIT$/] with [LIT] a sequence of literal characters (an escaped
    dot followed by letters and escaped dots).  Such an expression is
    represented by [LIT]; [exec] below is the matcher for that shape. *)
Module Regex.

Record t : Type := Anchored { tail : string }.

(** The character class [[^.]]: any character but the dot. *)
Definition not_dot (c : ascii) : bool := negb (Ascii.eqb c ".").

(** Greedy search for capture group 1.  [taken] is what [[^.]+] has
    consumed so far and [rest] the unread input.  The quantifier first
    tries to consume one more character; when the continuation fails it
    backtracks and lets the group end here, which requires at least one
    consumed character and the remaining input to be exactly [LIT] (the
    literal tail followed by the end anchor). *)
Fixpoint group1 (lit taken rest : string) : option string :=
  let stop_here :=
    if negb (taken =? "") && (rest =? lit) then Some taken else None in
  match rest with
  | String c rest' =>
      if not_dot c then
        match group1 lit (taken ++ String c EmptyString) rest' with
        | Some m => Some m
        | None => stop_here
        end
      else stop_here
  | EmptyString => stop_here
  end.

(** [s.match(re)]: [Some m] is a match whose [match[1]] is [m]; [None] is
    the [null] of a failed match.  The expression is anchored at the start
    and carries no flag, so the search starts at index 0 only. *)
Definition exec (re : t) (s : string) : option string :=
  group1 (tail re) EmptyString s.

End Regex.

(* ===================================================================== *)
(** * Tenant Resolver: [extractTenantFromHost] *)
(* ===================================================================== *)

(** [/^([^.]+)\.localhost$/] and [/^([^.]+)\.lvh\.me$/] *)
Definition devPatterns : list Regex.t :=
  [ Regex.Anchored ".localhost"; Regex.Anchored ".lvh.me" ].

(** [/^([^.]+)\.myapp\.com$/] *)
Definition prodPattern : Regex.t := Regex.Anchored ".myapp.com".

(** The [for (const pattern of devPatterns)] loop, continued by [k] when no
    pattern returns. *)
Fixpoint check_patterns (patterns : list Regex.t) (cleanHost : string)
  (k : option string) : option string :=
  match patterns with
  | [] => k
  | pattern :: more =>
      match Regex.exec pattern cleanHost with
      | Some m1 =>
          if negb (m1 =? "www") then Some m1
          else check_patterns more cleanHost k
      | None => check_patterns more cleanHost k
      end
  end.

Definition extractTenantFromHost (host : jsval) : option string :=
  if negb (truthy host) then None
  else
    let cleanHost := Js.first (Js.split ":" (to_string host)) in
    check_patterns devPatterns cleanHost
      (match Regex.exec prodPattern cleanHost with
       | Some m1 => if negb (m1 =? "www") then Some m1 else None
       | None => None
       end).

(** The tenant identifier as the data model of the specification words it:
    lowercase letters, digits and hyphens, 3 to 30 characters.  Nothing in
    the resolver refers to it; it is stated here to be compared with what
    the resolver returns. *)
Definition slug_char (c : ascii) : bool :=
  let n := nat_of_ascii c in
  (Nat.leb 97 n && Nat.leb n 122) || (Nat.leb 48 n && Nat.leb n 57)
  || Nat.eqb n 45.

Fixpoint string_forall (p : ascii -> bool) (s : string) : bool :=
  match s with
  | EmptyString => true
  | String c s' => p c && string_forall p s'
  end.

Definition spec_tenant_identifier (s : string) : bool :=
  Nat.leb 3 (String.length s) && Nat.leb (String.length s) 30
  && string_forall slug_char s.

(** A host-name label: not empty, no dot and no colon in it. *)
Definition label_char (c : ascii) : bool :=
  negb (Ascii.eqb c ".") && negb (Ascii.eqb c ":").

Definition is_label (s : string) : bool :=
  negb (s =? "") && string_forall label_char s.

(** The text after the host name: nothing, or a colon and a port. *)
Definition port_suffix (s : string) : bool :=
  match s with
  | EmptyString => true
  | String c _ => Ascii.eqb c ":"
  end.

(** Dotted-decimal and colon-hexadecimal address literals are made of these
    characters only (digits, hexadecimal letters, dots, colons, brackets). *)
Definition ip_char (c : ascii) : bool :=
  let n := nat_of_ascii c in
  (Nat.leb 48 n && Nat.leb n 57) || (Nat.leb 97 n && Nat.leb n 102)
  || (Nat.leb 65 n && Nat.leb n 70)
  || Ascii.eqb c "." || Ascii.eqb c ":" || Ascii.eqb c "[" || Ascii.eqb c "]".

Definition is_ip_literal (s : string) : bool :=
  negb (s =? "") && string_forall ip_char s.

(* ===================================================================== *)
(** * The world around the registry *)
(* ===================================================================== *)

(** A mongoose connection object.  [conn_id] is the identity of the object
    (two connections to the same database are different handles);
    [conn_uri] is the connection string it was opened with. *)
Record Connection : Type := mkConnection {
  conn_id : nat;
  conn_uri : string
}.

(** The options literal handed to [mongoose.createConnection]. *)
Record ConnectOptions : Type := mkOptions {
  maxPoolSize : N;
  serverSelectionTimeoutMS : N;
  socketTimeoutMS : N
}.

Definition pool_options : ConnectOptions :=
  {| maxPoolSize := 10%N;
     serverSelectionTimeoutMS := 5000%N;
     socketTimeoutMS := 45000%N |}.

(** A thrown JavaScript [Error] (or a rejection coming out of the driver). *)
Record Error : Type := mkError { message : string }.

(** A document of the Tenant model, after [tenantSchema] (the schema is
    the second module kept in [models/tenant/JobDescription.js]): the two
    paths the middleware queries and reads, [subdomain] and [isActive], and
    [companyName]; the other paths of the schema play no part here.  The
    schema declares [subdomain] with [lowercase: true]: a value given for
    that path, in a document or in the filter of a query, is put through
    [toLowerCase] by Mongoose before it is used. *)
Record Tenant : Type := mkTenant {
  subdomain : string;
  isActive : bool;
  companyName : string
}.

(** Direction of an index key: [1] or [-1]. *)
Inductive IndexOrder : Type := Ascending | Descending.

(** What the code does to the outside, in the order it does it.  [Call] is
    a call marker in the manner of a test spy: it records that a method of
    the registry was entered and influences nothing. *)
Inductive Event : Type :=
| CreateConnection (uri : string) (opts : ConnectOptions)
| Close (c : Connection)
| FindOne (on : Connection) (subdomain : string) (isActive : bool)
| CreateIndex (on : Connection) (collection field : string) (o : IndexOrder)
| ConsoleLog (args : list string)
| ConsoleError (args : list string)
| Call (method : string) (arg : jsval).

(** Everything outside the [DatabaseManager] object.  [clock] counts the
    calls made into the driver so far; [fault n] tells whether the call
    number [n] rejects, and with which message.  [to_lower] is
    [String.prototype.toLowerCase] of the engine, taken as it is.  [trace]
    has the most recent event first. *)
Record World : Type := mkWorld {
  MONGODB_URI : jsval;
  MONGODB_OPTIONS : jsval;
  clock : nat;
  fault : nat -> option string;
  to_lower : string -> string;
  tenants : list Tenant;
  trace : list Event
}.

(* ===================================================================== *)
(** * An insertion-ordered map: the JavaScript [Map] *)
(* ===================================================================== *)

Module JsMap.
Section WithValue.
Context {V : Type}.

Definition t : Type := list (jsval * V).

Fixpoint get (m : t) (k : jsval) : option V :=
  match m with
  | [] => None
  | (k', v) :: m' => if same_value k' k then Some v else get m' k
  end.

Definition has (m : t) (k : jsval) : bool :=
  match get m k with Some _ => true | None => false end.

(** An existing key keeps its place; a new key goes to the end. *)
Fixpoint set (m : t) (k : jsval) (v : V) : t :=
  match m with
  | [] => [(k, v)]
  | (k', v') :: m' =>
      if same_value k' k then (k', v) :: m' else (k', v') :: set m' k v
  end.

Fixpoint delete (m : t) (k : jsval) : t :=
  match m with
  | [] => []
  | (k', v') :: m' =>
      if same_value k' k then m' else (k', v') :: delete m' k
  end.

Definition clear (m : t) : t := [].

Definition size (m : t) : nat := List.length m.

Definition values (m : t) : list V := List.map snd m.

End WithValue.
Arguments t V : clear implicits.
End JsMap.

(* ===================================================================== *)
(** * The registry object and the monad its methods run in *)
(* ===================================================================== *)

(** [class DatabaseManager]: the two fields set by the constructor. *)
Record DatabaseManager : Type := mkManager {
  connections : JsMap.t Connection;
  masterConnection : option Connection
}.

(** [new DatabaseManager()] *)
Definition new_DatabaseManager : DatabaseManager :=
  {| connections := []; masterConnection := None |}.

Record State : Type := mkState {
  dbManager : DatabaseManager;
  world : World
}.

(** How a call ends: with a value or with a thrown error.  Whatever was
    written to the state before a [throw] stays written. *)
Inductive Completion (A : Type) : Type :=
| Return (a : A)
| Throw (e : Error).
Arguments Return {A} a.
Arguments Throw {A} e.

Definition M (A : Type) : Type := State -> Completion A * State.

Definition ret {A} (a : A) : M A := fun st => (Return a, st).

Definition bind {A B} (m : M A) (k : A -> M B) : M B :=
  fun st =>
    match m st with
    | (Return a, st') => k a st'
    | (Throw e, st') => (Throw e, st')
    end.

Definition throw {A} (e : Error) : M A := fun st => (Throw e, st).

(** [try { body } catch (error) { handler }] *)
Definition try_catch {A} (body : M A) (handler : Error -> M A) : M A :=
  fun st =>
    match body st with
    | (Return a, st') => (Return a, st')
    | (Throw e, st') => handler e st'
    end.

Declare Scope js_scope.
Delimit Scope js_scope with js.
Notation "x <- m ;; k" := (bind m (fun x => k))
  (at level 61, m at next level, right associativity) : js_scope.
Notation "m ;; k" := (bind m (fun _ => k))
  (at level 61, right associativity) : js_scope.
Local Open Scope js_scope.

(** ** Field access *)

Definition this_connections : M (JsMap.t Connection) :=
  fun st => (Return (connections (dbManager st)), st).

Definition this_masterConnection : M (option Connection) :=
  fun st => (Return (masterConnection (dbManager st)), st).

Definition set_connections (m : JsMap.t Connection) : M unit :=
  fun st =>
    (Return tt,
     {| dbManager := {| connections := m;
                        masterConnection := masterConnection (dbManager st) |};
        world := world st |}).

Definition set_masterConnection (c : option Connection) : M unit :=
  fun st =>
    (Return tt,
     {| dbManager := {| connections := connections (dbManager st);
                        masterConnection := c |};
        world := world st |}).

Definition process_env (var : World -> jsval) : M jsval :=
  fun st => (Return (var (world st)), st).

(** ** Events *)

Definition record_event (w : World) (e : Event) : World :=
  {| MONGODB_URI := MONGODB_URI w;
     MONGODB_OPTIONS := MONGODB_OPTIONS w;
     clock := clock w;
     fault := fault w;
     to_lower := to_lower w;
     tenants := tenants w;
     trace := e :: trace w |}.

Definition tick (w : World) : World :=
  {| MONGODB_URI := MONGODB_URI w;
     MONGODB_OPTIONS := MONGODB_OPTIONS w;
     clock := S (clock w);
     fault := fault w;
     to_lower := to_lower w;
     tenants := tenants w;
     trace := trace w |}.

Definition emit (e : Event) : M unit :=
  fun st =>
    (Return tt,
     {| dbManager := dbManager st; world := record_event (world st) e |}).

Definition console_log (args : list string) : M unit := emit (ConsoleLog args).
Definition console_error (args : list string) : M unit :=
  emit (ConsoleError args).
Definition called (method : string) (arg : jsval) : M unit :=
  emit (Call method arg).

(** A call into the driver: it is recorded, takes the next number of the
    clock, and rejects when the world says so; otherwise it returns what
    [result] computes from the call number and the world. *)
Definition driver_call {A} (e : Event) (result : nat -> World -> A) : M A :=
  fun st =>
    let w := world st in
    let st' := {| dbManager := dbManager st;
                  world := tick (record_event w e) |} in
    match fault w (clock w) with
    | Some msg => (Throw {| message := msg |}, st')
    | None => (Return (result (clock w) w), st')
    end.

(** [await mongoose.createConnection(uri, options)]: a new handle, whose
    identity is the number of the call that made it. *)
Definition createConnection (uri : string) (opts : ConnectOptions)
  : M Connection :=
  driver_call (CreateConnection uri opts)
              (fun n _ => {| conn_id := n; conn_uri := uri |}).

(** [await connection.close()] *)
Definition close (c : Connection) : M unit :=
  driver_call (Close c) (fun _ _ => tt).

(** [await coll.createIndex(index)] *)
Definition createIndex (on : Connection) (collection field : string)
  (o : IndexOrder) : M unit :=
  driver_call (CreateIndex on collection field o) (fun _ _ => tt).

(** [await Tenant.findOne({ subdomain, isActive })] on the model bound to
    connection [on].  Mongoose casts the filter by the schema first, which
    for [subdomain] means the [lowercase] setter; the query then gives the
    first record of the tenant collection whose [subdomain] is the
    lower-cased value and whose [isActive] is the value given, or [null].
    [matches lowercase sub active t] tells whether record [t] satisfies the
    filter [{ subdomain: sub, isActive: active }] so cast. *)
Definition matches (lowercase : string -> string) (sub : string)
  (active : bool) (t : Tenant) : bool :=
  (subdomain t =? lowercase sub) && Bool.eqb (isActive t) active.

Definition findOne (on : Connection) (sub : string) (active : bool)
  : M (option Tenant) :=
  driver_call (FindOne on sub active)
              (fun _ w =>
                 List.find (matches (to_lower w) sub active) (tenants w)).

(* ===================================================================== *)
(** * Connection Pool Registry: the methods of [DatabaseManager] *)
(* ===================================================================== *)

Definition masterDbName : string := "master_tenant_db".

(** [`${process.env.MONGODB_URI}${dbName}?${process.env.MONGODB_OPTIONS}`] *)
Definition connection_string (uri : jsval) (dbName : string) (options : jsval)
  : string :=
  to_string uri ++ dbName ++ "?" ++ to_string options.

Definition initializeMasterDB : M Connection :=
  called "initializeMasterDB" Undefined ;;
  try_catch
    (uri <- process_env MONGODB_URI ;;
     options <- process_env MONGODB_OPTIONS ;;
     let connectionString := connection_string uri masterDbName options in
     connection <- createConnection connectionString pool_options ;;
     set_masterConnection (Some connection) ;;
     console_log ["✅ Master database connected: " ++ masterDbName] ;;
     (* [return this.masterConnection], the field assigned just above *)
     ret connection)
    (fun error =>
       console_error ["❌ Master database connection failed:"; message error] ;;
       throw error).

Definition getTenantDB (tenantId : jsval) : M Connection :=
  called "getTenantDB" tenantId ;;
  if negb (truthy tenantId) then
    throw {| message := "Tenant ID is required" |}
  else
    cache <- this_connections ;;
    (* [has] followed by [get] on the same key *)
    match JsMap.get cache tenantId with
    | Some connection => ret connection
    | None =>
        try_catch
          (let dbName := "tenant_" ++ to_string tenantId in
           uri <- process_env MONGODB_URI ;;
           options <- process_env MONGODB_OPTIONS ;;
           let connectionString := connection_string uri dbName options in
           connection <- createConnection connectionString pool_options ;;
           cache' <- this_connections ;;
           set_connections (JsMap.set cache' tenantId connection) ;;
           console_log ["✅ Tenant database connected: " ++ dbName] ;;
           ret connection)
          (fun error =>
             console_error
               ["❌ Tenant database connection failed for "
                  ++ to_string tenantId ++ ":";
                message error] ;;
             throw error)
    end.

(** The literal table of collections and their indexes. *)
Definition collections : list (string * list (string * IndexOrder)) :=
  [ ("users",
     [("email", Ascending); ("role", Ascending); ("isActive", Ascending);
      ("createdAt", Descending)]);
    ("requirements",
     [("createdBy", Ascending); ("assignedTo", Ascending);
      ("status", Ascending); ("dueDate", Ascending);
      ("createdAt", Descending)]);
    ("jobdescriptions",
     [("requirementId", Ascending); ("createdBy", Ascending);
      ("isActive", Ascending); ("shareableLink", Ascending);
      ("createdAt", Descending)]);
    ("applications",
     [("jobDescriptionId", Ascending); ("candidateId", Ascending);
      ("status", Ascending); ("appliedAt", Descending)]);
    ("candidates",
     [("email", Ascending); ("phone", Ascending); ("skills", Ascending);
      ("experience", Ascending); ("createdAt", Descending)]) ].

Fixpoint create_indexes (connection : Connection) (name : string)
  (indexes : list (string * IndexOrder)) : M unit :=
  match indexes with
  | [] => ret tt
  | (field, o) :: more =>
      createIndex connection name field o ;;
      create_indexes connection name more
  end.

Fixpoint for_collections (connection : Connection)
  (cs : list (string * list (string * IndexOrder))) : M unit :=
  match cs with
  | [] => ret tt
  | (name, indexes) :: more =>
      create_indexes connection name indexes ;;
      for_collections connection more
  end.

Definition initializeTenantCollections (connection : Connection) : M unit :=
  called "initializeTenantCollections" Undefined ;;
  try_catch
    (for_collections connection collections ;;
     console_log ["✅ Tenant collections and indexes initialized"])
    (fun error =>
       console_error
         ["❌ Failed to initialize tenant collections:"; message error] ;;
       throw error).

Definition createTenantDB (tenantId : jsval) : M Connection :=
  called "createTenantDB" tenantId ;;
  try_catch
    (connection <- getTenantDB tenantId ;;
     initializeTenantCollections connection ;;
     console_log
       ["✅ Tenant database created and initialized: tenant_"
          ++ to_string tenantId] ;;
     ret connection)
    (fun error =>
       console_error
         ["❌ Failed to create tenant database for "
            ++ to_string tenantId ++ ":";
          message error] ;;
       throw error).

Definition closeTenantConnection (tenantId : jsval) : M unit :=
  called "closeTenantConnection" tenantId ;;
  cache <- this_connections ;;
  match JsMap.get cache tenantId with
  | Some connection =>
      close connection ;;
      cache' <- this_connections ;;
      set_connections (JsMap.delete cache' tenantId) ;;
      console_log ["✅ Tenant connection closed: " ++ to_string tenantId]
  | None => ret tt
  end.

(** The [for (const [tenantId, connection] of this.connections)] loop over
    the entries in insertion order. *)
Fixpoint close_each (entries : JsMap.t Connection) : M unit :=
  match entries with
  | [] => ret tt
  | (tenantId, connection) :: more =>
      close connection ;;
      console_log ["✅ Closed tenant connection: " ++ to_string tenantId] ;;
      close_each more
  end.

Definition closeAllConnections : M unit :=
  called "closeAllConnections" Undefined ;;
  try_catch
    (cache <- this_connections ;;
     close_each cache ;;
     cache' <- this_connections ;;
     set_connections (JsMap.clear cache') ;;
     master <- this_masterConnection ;;
     match master with
     | Some m =>
         close m ;;
         console_log ["✅ Master connection closed"]
     | None => ret tt
     end)
    (fun error =>
       console_error ["❌ Error closing connections:"; message error]).

Definition getMasterConnection : M Connection :=
  called "getMasterConnection" Undefined ;;
  master <- this_masterConnection ;;
  match master with
  | None => throw {| message := "Master database not initialized" |}
  | Some m => ret m
  end.

(* ===================================================================== *)
(** * Request Context Binder: [tenantMiddleware] *)
(* ===================================================================== *)

(** The parts of the Express request the middleware reads ([req.get('host')],
    [req.headers.host], [req.path]) and the three it writes.  A field that
    is [null] or was never written is [None]. *)
Record Request : Type := mkRequest {
  req_get_host : jsval;
  req_headers_host : jsval;
  req_path : string;
  req_db : option Connection;
  req_tenant : option Tenant;
  req_tenantId : option string
}.

Definition write_db (req : Request) (db : Connection) : Request :=
  {| req_get_host := req_get_host req;
     req_headers_host := req_headers_host req;
     req_path := req_path req;
     req_db := Some db;
     req_tenant := req_tenant req;
     req_tenantId := req_tenantId req |}.

Definition write_tenant (req : Request) (t : option Tenant) : Request :=
  {| req_get_host := req_get_host req;
     req_headers_host := req_headers_host req;
     req_path := req_path req;
     req_db := req_db req;
     req_tenant := t;
     req_tenantId := req_tenantId req |}.

Definition write_tenantId (req : Request) (id : string) : Request :=
  {| req_get_host := req_get_host req;
     req_headers_host := req_headers_host req;
     req_path := req_path req;
     req_db := req_db req;
     req_tenant := req_tenant req;
     req_tenantId := Some id |}.

(** The object given to [res.json]. *)
Record Body : Type := mkBody {
  success : bool;
  body_message : string;
  code : string
}.

(** What the middleware did with the request: handed it on with [next()],
    in the state [req] it had then, or answered it with
    [res.status(status).json(body)]. *)
Inductive Outcome : Type :=
| Next (req : Request)
| Json (status : nat) (body : Body).

Definition tenant_not_found : Outcome :=
  Json 404 {| success := false;
              body_message := "Tenant not found or inactive";
              code := "TENANT_NOT_FOUND" |}.

Definition tenant_resolution_error : Outcome :=
  Json 500 {| success := false;
              body_message := "Internal server error in tenant resolution";
              code := "TENANT_RESOLUTION_ERROR" |}.

Definition admin_prefix : string := "/api/super-admin".

(** The [try] block of [tenantMiddleware]. *)
Definition tenantMiddleware_try (req : Request) : M Outcome :=
  let host := js_or (req_get_host req) (req_headers_host req) in
  let tenantSubdomain := extractTenantFromHost host in
  master <- this_masterConnection ;;
  match master with
  | None => initializeMasterDB ;; ret tt
  | Some _ => ret tt
  end ;;
  match falsy_opt tenantSubdomain || Js.startsWith (req_path req) admin_prefix,
        tenantSubdomain with
  | false, Some sub =>
      model_db <- getMasterConnection ;;
      tenant <- findOne model_db sub true ;;
      match tenant with
      | None => ret tenant_not_found
      | Some t =>
          tenantDB <- getTenantDB (Str (subdomain t)) ;;
          ret (Next (write_tenantId
                       (write_db (write_tenant req (Some t)) tenantDB)
                       (subdomain t)))
      end
  | _, _ =>
      db <- getMasterConnection ;;
      ret (Next (write_tenant (write_db req db) None))
  end.

(** [tenantMiddleware]: the [try] block under its [catch]. *)
Definition tenantMiddleware (req : Request) : M Outcome :=
  try_catch
    (tenantMiddleware_try req)
    (fun error =>
       console_error ["Tenant middleware error:"; message error] ;;
       ret tenant_resolution_error).

(* ===================================================================== *)
(** * Vocabulary of the statements *)
(* ===================================================================== *)

Definition no_colon (c : ascii) : bool := negb (Ascii.eqb c ":").

(** What [extractTenantFromHost] computes once the port is cut off. *)
Definition resolve (cleanHost : string) : option string :=
  check_patterns devPatterns cleanHost
    (match Regex.exec prodPattern cleanHost with
     | Some m1 => if negb (m1 =? "www") then Some m1 else None
     | None => None
     end).

(** The process right after [new DatabaseManager()], in world [w]. *)
Definition initial (w : World) : State :=
  {| dbManager := new_DatabaseManager; world := w |}.

(** [st] with one more event in its trace and nothing else changed. *)
Definition noted (st : State) (e : Event) : State :=
  {| dbManager := dbManager st; world := record_event (world st) e |}.

(** [st] with the tenant collection of the master database replaced. *)
Definition with_tenants (ts : list Tenant) (st : State) : State :=
  {| dbManager := dbManager st;
     world := {| MONGODB_URI := MONGODB_URI (world st);
                 MONGODB_OPTIONS := MONGODB_OPTIONS (world st);
                 clock := clock (world st);
                 fault := fault (world st);
                 to_lower := to_lower (world st);
                 tenants := ts;
                 trace := trace (world st) |} |}.

(** The driver call number [n] from now does not reject. *)
Definition call_ok (st : State) (n : nat) : Prop :=
  fault (world st) (clock (world st) + n) = None.

(** The next [n] driver calls do not reject. *)
Definition calls_ok (st : State) (n : nat) : Prop :=
  forall i, i < n -> call_ok st i.

(** The master handle is there, or the connection attempt that the
    middleware will make for it succeeds. *)
Definition master_ready (st : State) : Prop :=
  match masterConnection (dbManager st) with
  | Some _ => True
  | None => call_ok st 0
  end.

(** Number, counted from now, of the driver call that the middleware uses
    for the tenant lookup: the next one, or the one after the master
    connection attempt. *)
Definition lookup_call (st : State) : nat :=
  match masterConnection (dbManager st) with
  | Some _ => 0
  | None => 1
  end.

(** The events [st'] has on top of those of [st]. *)
Definition events_since (st st' : State) (evs : list Event) : Prop :=
  trace (world st') = (evs ++ trace (world st))%list.

Definition is_findOne (e : Event) : bool :=
  match e with FindOne _ _ _ => true | _ => false end.

Definition is_call_of (method : string) (e : Event) : bool :=
  match e with Call m _ => m =? method | _ => false end.

(** The trace left by the teardown loop over [entries] when every [close]
    succeeds (most recent event first). *)
Fixpoint closed_events (entries : JsMap.t Connection) : list Event :=
  match entries with
  | [] => []
  | (tenantId, connection) :: more =>
      List.app (closed_events more)
        [ConsoleLog ["✅ Closed tenant connection: " ++ to_string tenantId];
         Close connection]
  end.

(** Histories of the registry.  [history st last] holds when the process
    can be in state [st] after some sequence of calls to the methods of the
    singleton, [last] being the handle returned by the latest call of
    [initializeMasterDB] that succeeded ([None] when none has).  Between
    calls the world may change in any way.  The middleware and the
    controllers reach the registry through these methods only. *)
Inductive history : State -> option Connection -> Prop :=
| history_new (w : World) :
    history (initial w) None
| history_world st last (w : World) :
    history st last ->
    history {| dbManager := dbManager st; world := w |} last
| history_initialize_ok st last c st' :
    history st last ->
    initializeMasterDB st = (Return c, st') ->
    history st' (Some c)
| history_initialize_failed st last e st' :
    history st last ->
    initializeMasterDB st = (Throw e, st') ->
    history st' last
| history_getTenantDB st last tenantId :
    history st last ->
    history (snd (getTenantDB tenantId st)) last
| history_createTenantDB st last tenantId :
    history st last ->
    history (snd (createTenantDB tenantId st)) last
| history_closeTenantConnection st last tenantId :
    history st last ->
    history (snd (closeTenantConnection tenantId st)) last
| history_closeAllConnections st last :
    history st last ->
    history (snd (closeAllConnections st)) last
| history_getMasterConnection st last :
    history st last ->
    history (snd (getMasterConnection st)) last.

(** A computation that never writes the master-handle slot. *)
Definition keeps_master {A} (m : M A) : Prop :=
  forall st,
    masterConnection (dbManager (snd (m st))) = masterConnection (dbManager st).

(** The handle a cache miss of [getTenantDB] creates in state [st]. *)
Definition fresh_tenant_handle (tenantId : jsval) (st : State) : Connection :=
  {| conn_id := clock (world st);
     conn_uri := connection_string (MONGODB_URI (world st))
                   ("tenant_" ++ to_string tenantId)
                   (MONGODB_OPTIONS (world st)) |}.

(** The handle the middleware binds on the master-only path: the one in the
    slot, or the one its call of [initializeMasterDB] creates. *)
Definition master_handle_for (st : State) : Connection :=
  match masterConnection (dbManager st) with
  | Some m => m
  | None =>
      {| conn_id := clock (world st);
         conn_uri := connection_string (MONGODB_URI (world st)) masterDbName
                       (MONGODB_OPTIONS (world st)) |}
  end.

(** The host the middleware resolves: [req.get('host') || req.headers.host]. *)
Definition host_of (req : Request) : jsval :=
  js_or (req_get_host req) (req_headers_host req).

(** The two ways for the master database to hold no active tenant record
    with identifier [id]: no record with that identifier at all, or records
    with it that are all inactive. *)
Definition never_existed (id : string) (ts : list Tenant) : Prop :=
  forall t, In t ts -> subdomain t <> id.

Definition deactivated (id : string) (ts : list Tenant) : Prop :=
  (exists t, In t ts /\ subdomain t = id)
  /\ forall t, In t ts -> subdomain t = id -> isActive t = false.

(** ** Sample worlds and states *)

(** [toLowerCase] on text of the ASCII range, for the examples. *)
Definition ascii_lower (c : ascii) : ascii :=
  let n := nat_of_ascii c in
  if Nat.leb 65 n && Nat.leb n 90 then ascii_of_nat (n + 32) else c.

Fixpoint lower (s : string) : string :=
  match s with
  | EmptyString => EmptyString
  | String c s' => String (ascii_lower c) (lower s')
  end.

(** A driver that never rejects, and one that rejects call number [n]. *)
Definition never : nat -> option string := fun _ => None.

Definition rejects_at (n : nat) (msg : string) : nat -> option string :=
  fun i => if Nat.eqb i n then Some msg else None.

Definition sample_world (f : nat -> option string) (ts : list Tenant)
  : World :=
  {| MONGODB_URI := Str "mongodb://localhost:27017/";
     MONGODB_OPTIONS := Str "retryWrites=true";
     clock := 0;
     fault := f;
     to_lower := lower;
     tenants := ts;
     trace := [] |}.

Definition acme : Tenant :=
  {| subdomain := "acme"; isActive := true; companyName := "Acme Corp" |}.

Definition ghost_inactive : Tenant :=
  {| subdomain := "ghost"; isActive := false; companyName := "Ghost Ltd" |}.

(** The process after [initializeMasterDB()], [getTenantDB('acme')] and
    [getTenantDB('globex')] (driver calls 0, 1 and 2), in a world whose
    driver rejects as [f] says. *)
Definition serving (f : nat -> option string) : State :=
  snd (getTenantDB (Str "globex")
         (snd (getTenantDB (Str "acme")
                 (snd (initializeMasterDB (initial (sample_world f [acme]))))))).

Definition sample_request (host path : string) : Request :=
  {| req_get_host := Str host;
     req_headers_host := Str host;
     req_path := path;
     req_db := None;
     req_tenant := None;
     req_tenantId := None |}.

(* ===================================================================== *)
(** * Further vocabulary: the registry as a data structure *)
(* ===================================================================== *)

(** The three domains a tenant host may end with. *)
Definition tenant_domains : list string := ["localhost"; "lvh.me"; "myapp.com"].

(** The part of a host string the patterns are tried on. *)
Definition clean_host (s : string) : string := Js.first (Js.split ":" s).

(** No two entries of the list have the same key: what a JavaScript [Map]
    guarantees of its entries. *)
Fixpoint unique_keys {V} (m : JsMap.t V) : Prop :=
  match m with
  | [] => True
  | (k, _) :: m' => JsMap.get m' k = None /\ unique_keys m'
  end.

(** The environment of the process: [uri] and [options] are what
    [process.env.MONGODB_URI] and [process.env.MONGODB_OPTIONS] hold.  The
    program reads the two variables and never assigns them. *)
Definition configured (uri options : jsval) (w : World) : Prop :=
  MONGODB_URI w = uri /\ MONGODB_OPTIONS w = options.

(** A computation that leaves the environment as it found it. *)
Definition keeps_env {A} (m : M A) : Prop :=
  forall uri options st,
    configured uri options (world st) ->
    configured uri options (world (snd (m st))).

(** The histories of the registry in a process whose environment holds
    [uri] and [options] from start to end: the histories of [history] all
    of whose worlds are [configured]. *)
Inductive history_in (uri options : jsval)
  : State -> option Connection -> Prop :=
| history_in_new (w : World) :
    configured uri options w ->
    history_in uri options (initial w) None
| history_in_world st last (w : World) :
    history_in uri options st last ->
    configured uri options w ->
    history_in uri options {| dbManager := dbManager st; world := w |} last
| history_in_initialize_ok st last c st' :
    history_in uri options st last ->
    initializeMasterDB st = (Return c, st') ->
    history_in uri options st' (Some c)
| history_in_initialize_failed st last e st' :
    history_in uri options st last ->
    initializeMasterDB st = (Throw e, st') ->
    history_in uri options st' last
| history_in_getTenantDB st last tenantId :
    history_in uri options st last ->
    history_in uri options (snd (getTenantDB tenantId st)) last
| history_in_createTenantDB st last tenantId :
    history_in uri options st last ->
    history_in uri options (snd (createTenantDB tenantId st)) last
| history_in_closeTenantConnection st last tenantId :
    history_in uri options st last ->
    history_in uri options (snd (closeTenantConnection tenantId st)) last
| history_in_closeAllConnections st last :
    history_in uri options st last ->
    history_in uri options (snd (closeAllConnections st)) last
| history_in_getMasterConnection st last :
    history_in uri options st last ->
    history_in uri options (snd (getMasterConnection st)) last.

(** Handle [c] was opened on the database named [tenant_] followed by [k]:
    its address is, to the character, the connection string the source
    builds for that name from the environment. *)
Definition tenant_database (uri options k : jsval) (c : Connection) : Prop :=
  conn_uri c = connection_string uri ("tenant_" ++ to_string k) options.

(** Handle [c] was opened on the database [master_tenant_db]. *)
Definition master_database (uri options : jsval) (c : Connection) : Prop :=
  conn_uri c = connection_string uri masterDbName options.

Definition entry_ok (uri options : jsval) (e : jsval * Connection) : Prop :=
  truthy (fst e) = true /\ tenant_database uri options (fst e) (snd e).

Definition registry_ok (uri options : jsval) (d : DatabaseManager) : Prop :=
  unique_keys (connections d)
  /\ List.Forall (entry_ok uri options) (connections d)
  /\ forall m, masterConnection d = Some m -> master_database uri options m.

(** A computation that leaves both fields of the registry as they are. *)
Definition keeps_registry {A} (m : M A) : Prop :=
  forall st, dbManager (snd (m st)) = dbManager st.

(** The [createIndex] calls of [initializeTenantCollections] on
    [connection], in the order of the table. *)
Definition index_events (connection : Connection) : list Event :=
  List.flat_map
    (fun entry =>
       List.map (fun ix => CreateIndex connection (fst entry) (fst ix) (snd ix))
                (snd entry))
    collections.

Definition is_close (e : Event) : bool :=
  match e with Close _ => true | _ => false end.

(** A run of driver calls whose results are not used, one per event. *)
Fixpoint issue_all (evs : list Event) : M unit :=
  match evs with
  | [] => ret tt
  | e :: more => driver_call e (fun _ _ => tt) ;; issue_all more
  end.

(** A computation that calls [close] on no handle. *)
Definition never_closes {A} (m : M A) : Prop :=
  forall st c,
    In (Close c) (trace (world (snd (m st)))) ->
    In (Close c) (trace (world st)).

(** A computation after which every handle that was cached is still cached
    under its key. *)
Definition cache_grows {A} (m : M A) : Prop :=
  forall st k h,
    JsMap.get (connections (dbManager st)) k = Some h ->
    JsMap.get (connections (dbManager (snd (m st)))) k = Some h.

(* ===================================================================== *)
(** * Subdomain names: [utils/helpers.js] and [createTenant] *)
(* ===================================================================== *)

(** [`${counter}`] for a counter: its decimal digits. *)
Definition decimal (n : nat) : string :=
  NilEmpty.string_of_uint (Nat.to_uint n).

Definition is_hyphen (c : ascii) : bool := Ascii.eqb c "-".

(** [.replace(/[^a-z0-9-]/g, '-')] *)
Fixpoint replace_non_slug (s : string) : string :=
  match s with
  | EmptyString => EmptyString
  | String c s' =>
      String (if slug_char c then c else "-"%char) (replace_non_slug s')
  end.

(** [.replace(/-+/g, '-')]: of every run of hyphens the last one stays. *)
Fixpoint collapse_hyphens (s : string) : string :=
  match s with
  | EmptyString => EmptyString
  | String c s' =>
      if is_hyphen c then
        match s' with
        | String d _ =>
            if is_hyphen d then collapse_hyphens s'
            else String c (collapse_hyphens s')
        | EmptyString => String c EmptyString
        end
      else String c (collapse_hyphens s')
  end.

(** [.replace(/^-|-$/g, '')]: a hyphen in first place goes, and so does a
    hyphen in last place. *)
Definition strip_leading_hyphen (s : string) : string :=
  match s with
  | String c s' => if is_hyphen c then s' else s
  | EmptyString => EmptyString
  end.

Fixpoint strip_trailing_hyphen (s : string) : string :=
  match s with
  | EmptyString => EmptyString
  | String c s' =>
      match s' with
      | EmptyString => if is_hyphen c then EmptyString else s
      | String _ _ => String c (strip_trailing_hyphen s')
      end
  end.

(** [sanitizeSubdomain].  [toLowerCase] is the method of the JavaScript
    string, taken as it is. *)
Definition sanitizeSubdomain (toLowerCase : string -> string) (str : string)
  : string :=
  String.substring 0 30
    (strip_trailing_hyphen
       (strip_leading_hyphen
          (collapse_hyphens (replace_non_slug (toLowerCase str))))).

(** [existingSubdomains.includes(subdomain)] *)
Definition includes (existing : list string) (s : string) : bool :=
  List.existsb (String.eqb s) existing.

(** The [while] loop of [generateUniqueSubdomain], for at most [fuel] tests
    of the condition; [None] when the loop has not ended by then. *)
Fixpoint unique_search (fuel : nat) (existingSubdomains : list string)
  (baseSubdomain subdomain : string) (counter : nat) : option string :=
  match fuel with
  | 0 => None
  | S fuel' =>
      if includes existingSubdomains subdomain then
        unique_search fuel' existingSubdomains baseSubdomain
          (baseSubdomain ++ "-" ++ decimal counter) (S counter)
      else Some subdomain
  end.

Definition generateUniqueSubdomain (toLowerCase : string -> string)
  (fuel : nat) (companyName : string) (existingSubdomains : list string)
  : option string :=
  let baseSubdomain := sanitizeSubdomain toLowerCase companyName in
  unique_search fuel existingSubdomains baseSubdomain baseSubdomain 1.

(** The candidates the loop goes through: the base, then the base with
    [-1], [-2], ... *)
Definition candidate (baseSubdomain : string) (i : nat) : string :=
  match i with
  | 0 => baseSubdomain
  | S _ => baseSubdomain ++ "-" ++ decimal i
  end.

Fixpoint no_double_hyphen (s : string) : bool :=
  match s with
  | EmptyString => true
  | String c s' =>
      match s' with
      | String d _ => negb (is_hyphen c && is_hyphen d) && no_double_hyphen s'
      | EmptyString => true
      end
  end.

Definition starts_with_hyphen (s : string) : bool :=
  match s with
  | String c _ => is_hyphen c
  | EmptyString => false
  end.

(** [if (s.length > 30) s = s.substring(0, 30)] *)
Definition at_most_30 (s : string) : string :=
  if Nat.ltb 30 (String.length s) then String.substring 0 30 s else s.

(** The search for a free subdomain in [createTenant], from the slug that
    [slugify] made of the company name.  [findBySubdomain] is the query
    [Tenant.findOne({ subdomain })] of the Tenant model; the loop is run
    for at most [fuel] queries and gives [None] when it has not ended by
    then. *)
Fixpoint subdomain_search (findBySubdomain : string -> M (option Tenant))
  (fuel : nat) (baseSubdomain subdomain : string) (counter : nat)
  : M (option string) :=
  match fuel with
  | 0 => ret None
  | S fuel' =>
      found <- findBySubdomain subdomain ;;
      match found with
      | Some _ =>
          subdomain_search findBySubdomain fuel' baseSubdomain
            (at_most_30 (baseSubdomain ++ "-" ++ decimal counter))
            (S counter)
      | None => ret (Some subdomain)
      end
  end.

Definition createTenant_subdomain
  (findBySubdomain : string -> M (option Tenant)) (fuel : nat) (slug : string)
  : M (option string) :=
  let baseSubdomain := at_most_30 slug in
  subdomain_search findBySubdomain fuel baseSubdomain baseSubdomain 1.

(** A query on the tenant collection of the world, for the examples; it
    compares the name as it is given, the names of the examples being in
    lower case already. *)
Definition find_in_world (s : string) : M (option Tenant) :=
  fun st =>
    (Return (List.find (fun t => subdomain t =? s) (tenants (world st))), st).

(* ===================================================================== *)
(** * Facts about strings, [split] and the matcher *)
(* ===================================================================== *)

Module StringFacts.

Lemma append_nil_r (s : string) : s ++ "" = s.
Proof. induction s as [|c s IH]; simpl; [reflexivity | now rewrite IH]. Qed.

Lemma append_assoc (a b c : string) : (a ++ b) ++ c = a ++ (b ++ c).
Proof. induction a as [|x a IH]; simpl; [reflexivity | now rewrite IH]. Qed.

Lemma append_empty (a b : string) : a ++ b = "" -> a = "" /\ b = "".
Proof. destruct a; simpl; [auto | discriminate]. Qed.

Lemma forall_append (p : ascii -> bool) (a b : string) :
  string_forall p (a ++ b) = string_forall p a && string_forall p b.
Proof.
  induction a as [|x a IH]; simpl; [reflexivity|].
  now rewrite IH, andb_assoc.
Qed.

Lemma forall_weaken (p q : ascii -> bool) (s : string) :
  (forall c, p c = true -> q c = true) ->
  string_forall p s = true -> string_forall q s = true.
Proof.
  intros Hpq; induction s as [|x s IH]; simpl; [reflexivity|].
  intros H; apply andb_true_iff in H as [Hx Hs].
  now rewrite (Hpq _ Hx), IH.
Qed.

End StringFacts.

Module SplitFacts.
Import StringFacts.

(** [split] never yields the empty array. *)
Lemma split_cons (sep : ascii) (s : string) :
  exists piece pieces, Js.split sep s = piece :: pieces.
Proof.
  induction s as [|c s [p [ps IH]]]; simpl; [now eexists; eexists|].
  destruct (Ascii.eqb c sep); [now eexists; eexists|].
  rewrite IH; now eexists; eexists.
Qed.

(** The first piece of a host with a port suffix is the host name. *)
Lemma first_before_port (name sfx : string) :
  string_forall (fun c => negb (Ascii.eqb c ":")) name = true ->
  port_suffix sfx = true ->
  Js.first (Js.split ":" (name ++ sfx)) = name.
Proof.
  intros Hname Hsfx; induction name as [|c name IH]; simpl in *.
  - destruct sfx as [|d sfx]; simpl in *; [reflexivity|].
    now rewrite Hsfx.
  - apply andb_true_iff in Hname as [Hc Hname].
    apply negb_true_iff in Hc; rewrite Hc.
    specialize (IH Hname).
    destruct (split_cons ":" (name ++ sfx)) as [p [ps E]].
    rewrite E in *; simpl in *; now subst.
Qed.

(** The first piece holds no colon, and only characters of the input. *)
Lemma first_no_colon (s : string) :
  string_forall (fun c => negb (Ascii.eqb c ":"))
                (Js.first (Js.split ":" s)) = true.
Proof.
  induction s as [|c s IH]; simpl; [reflexivity|].
  destruct (Ascii.eqb c ":") eqn:E; [reflexivity|].
  destruct (split_cons ":" s) as [p [ps Es]]; rewrite Es in *; simpl in *.
  now rewrite E, IH.
Qed.

Lemma first_keeps (p : ascii -> bool) (s : string) :
  string_forall p s = true ->
  string_forall p (Js.first (Js.split ":" s)) = true.
Proof.
  induction s as [|c s IH]; simpl; [reflexivity|].
  intros H; apply andb_true_iff in H as [Hc Hs].
  destruct (Ascii.eqb c ":"); [reflexivity|].
  destruct (split_cons ":" s) as [q [qs Es]]; rewrite Es in *; simpl in *.
  now rewrite Hc, IH.
Qed.

End SplitFacts.

Module RegexFacts.
Import StringFacts.

(** On an input [label.rest] with a dot-free [label], a pattern whose
    literal tail begins with the dot matches exactly when [rest] is the
    remainder of the tail, and then captures the label. *)
Lemma group1_label (lit' label : string) :
  string_forall Regex.not_dot label = true ->
  forall taken rest,
    taken ++ label <> "" ->
    Regex.group1 (String "." lit') taken (label ++ String "." rest)
    = if rest =? lit' then Some (taken ++ label) else None.
Proof.
  induction label as [|c label IH]; intros Hdots taken rest Hne.
  - rewrite append_nil_r in *; simpl.
    destruct (taken =? "") eqn:E; [apply String.eqb_eq in E; contradiction|].
    reflexivity.
  - simpl in Hdots; apply andb_true_iff in Hdots as [Hc Hdots].
    change (String c label ++ String "." rest)
      with (String c (label ++ String "." rest)).
    cbn [Regex.group1]; rewrite Hc.
    rewrite (IH Hdots (taken ++ String c "") rest).
    + rewrite append_assoc; simpl.
      destruct (rest =? lit'); [reflexivity|].
      unfold Regex.not_dot in Hc; apply negb_true_iff in Hc.
      rewrite Hc; simpl. now rewrite andb_false_r.
    + rewrite append_assoc; simpl.
      intros H; apply append_empty in H as [_ H]; discriminate.
Qed.

(** Whatever the matcher captures is a non-empty dot-free prefix of the
    input that is followed by the literal tail and nothing else. *)
Lemma group1_sound (lit rest : string) :
  forall taken m,
    Regex.group1 lit taken rest = Some m ->
    exists label,
      m = taken ++ label /\ rest = label ++ lit
      /\ string_forall Regex.not_dot label = true /\ m <> "".
Proof.
  assert (Hstop : forall taken r m,
    (if negb (taken =? "") && (r =? lit) then Some taken else None) = Some m ->
    m = taken ++ "" /\ r = "" ++ lit /\ m <> "").
  { intros taken r m H.
    destruct (taken =? "") eqn:Et; simpl in H; [discriminate|].
    destruct (r =? lit) eqn:Er; [|discriminate].
    injection H as <-. apply String.eqb_eq in Er. apply String.eqb_neq in Et.
    now rewrite append_nil_r. }
  induction rest as [|c rest IH]; intros taken m H; cbn [Regex.group1] in H.
  - apply Hstop in H as (-> & E & Hne). exists ""; auto.
  - destruct (Regex.not_dot c) eqn:Hc.
    + destruct (Regex.group1 lit (taken ++ String c "") rest) as [m'|] eqn:Hrec.
      * injection H as <-.
        apply IH in Hrec as (label & -> & -> & Hl & Hne).
        exists (String c label); rewrite append_assoc in *; simpl.
        now rewrite Hc, Hl.
      * apply Hstop in H as (-> & E & Hne). exists ""; auto.
    + apply Hstop in H as (-> & E & Hne). exists ""; auto.
Qed.

Lemma exec_label (lit' label rest : string) :
  is_label label = true ->
  Regex.exec (Regex.Anchored (String "." lit')) (label ++ String "." rest)
  = if rest =? lit' then Some label else None.
Proof.
  unfold is_label, Regex.exec; intros H; simpl.
  apply andb_true_iff in H as [Hne Hchars].
  apply negb_true_iff, String.eqb_neq in Hne.
  apply (group1_label lit' label); [|exact Hne].
  apply (forall_weaken label_char); [|exact Hchars].
  unfold label_char, Regex.not_dot; intros c Hc.
  now apply andb_true_iff in Hc as [-> _].
Qed.

Lemma exec_sound (re : Regex.t) (s m : string) :
  Regex.exec re s = Some m ->
  m <> "" /\ string_forall Regex.not_dot m = true /\ s = m ++ Regex.tail re.
Proof.
  unfold Regex.exec; intros H.
  apply group1_sound in H as (label & -> & -> & Hl & Hne); simpl in *; auto.
Qed.

(** No match on an input whose characters cannot spell the tail. *)
Lemma exec_none_by_chars (p : ascii -> bool) (re : Regex.t) (s : string) :
  string_forall p s = true ->
  string_forall p (Regex.tail re) = false ->
  Regex.exec re s = None.
Proof.
  intros Hs Ht; destruct (Regex.exec re s) as [m|] eqn:E; [|reflexivity].
  apply exec_sound in E as (_ & _ & ->).
  rewrite forall_append, Ht, andb_false_r in Hs; discriminate.
Qed.

End RegexFacts.

(* ===================================================================== *)
(** * Properties of the Tenant Resolver *)
(* ===================================================================== *)

Module ResolverFacts.
Import StringFacts SplitFacts RegexFacts.

Lemma extract_resolve (s : string) :
  s <> "" ->
  extractTenantFromHost (Str s) = resolve (Js.first (Js.split ":" s)).
Proof.
  intros Hs; unfold extractTenantFromHost; simpl.
  apply String.eqb_neq in Hs; now rewrite Hs.
Qed.

Lemma extract_name_port (name sfx : string) :
  name <> "" -> string_forall no_colon name = true ->
  port_suffix sfx = true ->
  extractTenantFromHost (Str (name ++ sfx)) = resolve name.
Proof.
  intros Hne Hc Hs; rewrite extract_resolve.
  - now rewrite first_before_port.
  - intros H; now apply append_empty in H as [H _].
Qed.

Lemma label_no_colon (label : string) :
  is_label label = true -> string_forall no_colon label = true.
Proof.
  unfold is_label; intros H; apply andb_true_iff in H as [_ H].
  apply (forall_weaken label_char); [|exact H].
  unfold label_char, no_colon; intros c Hc.
  now apply andb_true_iff in Hc as [_ ->].
Qed.

Lemma label_nonempty (label : string) : is_label label = true -> label <> "".
Proof.
  unfold is_label; intros H; apply andb_true_iff in H as [H _].
  now apply negb_true_iff, String.eqb_neq in H.
Qed.

(** A label followed by a dot and a colon-free domain, with any port. *)
Lemma extract_label_domain (label domain sfx : string) :
  is_label label = true ->
  string_forall no_colon domain = true ->
  port_suffix sfx = true ->
  extractTenantFromHost (Str (label ++ String "." domain ++ sfx))
  = resolve (label ++ String "." domain).
Proof.
  intros Hl Hd Hs.
  change (label ++ String "." domain ++ sfx)
    with (label ++ (String "." domain ++ sfx)).
  rewrite <- append_assoc.
  apply extract_name_port; [| |exact Hs].
  - intros H; apply append_empty in H as [_ H]; discriminate.
  - rewrite forall_append, (label_no_colon _ Hl); simpl; exact Hd.
Qed.

(** An input all of whose characters satisfy [p] resolves to no tenant
    when none of the three literal tails can be spelled with [p]. *)
Lemma resolve_none_by_chars (p : ascii -> bool) (s : string) :
  string_forall p s = true ->
  string_forall p ".localhost" = false ->
  string_forall p ".lvh.me" = false ->
  string_forall p ".myapp.com" = false ->
  resolve s = None.
Proof.
  intros Hs H1 H2 H3; unfold resolve, devPatterns, prodPattern; simpl.
  rewrite (exec_none_by_chars p (Regex.Anchored ".localhost") s Hs H1).
  rewrite (exec_none_by_chars p (Regex.Anchored ".lvh.me") s Hs H2).
  now rewrite (exec_none_by_chars p (Regex.Anchored ".myapp.com") s Hs H3).
Qed.

Lemma resolve_sound (s id : string) :
  resolve s = Some id ->
  id <> "" /\ id <> "www" /\ string_forall Regex.not_dot id = true
  /\ exists tail, s = id ++ tail.
Proof.
  assert (Hone : forall re k,
    (forall id, k = Some id ->
       id <> "" /\ id <> "www" /\ string_forall Regex.not_dot id = true
       /\ exists tail, s = id ++ tail) ->
    forall id,
      match Regex.exec re s with
      | Some m1 => if negb (m1 =? "www") then Some m1 else k
      | None => k
      end = Some id ->
      id <> "" /\ id <> "www" /\ string_forall Regex.not_dot id = true
      /\ exists tail, s = id ++ tail).
  { intros re k Hk id0 H.
    destruct (Regex.exec re s) as [m1|] eqn:E; [|now apply Hk].
    destruct (m1 =? "www") eqn:Ew; simpl in H; [now apply Hk|].
    injection H as <-. apply String.eqb_neq in Ew.
    apply exec_sound in E as (Hne & Hd & Hs). eauto. }
  unfold resolve, devPatterns; cbn [check_patterns].
  apply Hone. apply Hone. apply Hone. discriminate.
Qed.

End ResolverFacts.

(** C1.  A host made of a label (not empty, without dot or colon) other than
    [www], followed by [.localhost], [.lvh.me] or [.myapp.com] and then by
    nothing or by a colon and a port, resolves to exactly that label.  The
    hosts [www.localhost] and [www.myapp.com], bare [localhost] (each with
    or without a port), every address literal, the empty string, [null]
    and [undefined] resolve to no tenant. *)
Theorem extractTenantFromHost_resolves_label (label sfx : string) :
  is_label label = true ->
  label <> "www" ->
  port_suffix sfx = true ->
  extractTenantFromHost (Str (label ++ ".localhost" ++ sfx)) = Some label
  /\ extractTenantFromHost (Str (label ++ ".lvh.me" ++ sfx)) = Some label
  /\ extractTenantFromHost (Str (label ++ ".myapp.com" ++ sfx)) = Some label
  /\ extractTenantFromHost (Str ("www.localhost" ++ sfx)) = None
  /\ extractTenantFromHost (Str ("www.myapp.com" ++ sfx)) = None
  /\ extractTenantFromHost (Str ("localhost" ++ sfx)) = None
  /\ (forall ip, is_ip_literal ip = true ->
                 extractTenantFromHost (Str ip) = None)
  /\ extractTenantFromHost (Str "") = None
  /\ extractTenantFromHost Null = None
  /\ extractTenantFromHost Undefined = None.
Proof.
  intros Hl Hwww Hs.
  apply String.eqb_neq in Hwww.
  assert (Hlabel : forall domain,
    string_forall no_colon domain = true ->
    resolve (label ++ String "." domain)
    = check_patterns devPatterns (label ++ String "." domain)
        (match Regex.exec prodPattern (label ++ String "." domain) with
         | Some m1 => if negb (m1 =? "www") then Some m1 else None
         | None => None
         end)) by reflexivity.
  repeat split.
  - change ".localhost" with (String "." "localhost").
    rewrite ResolverFacts.extract_label_domain by (assumption || reflexivity).
    unfold resolve, devPatterns; cbn [check_patterns].
    rewrite RegexFacts.exec_label by assumption; simpl. now rewrite Hwww.
  - change ".lvh.me" with (String "." "lvh.me").
    rewrite ResolverFacts.extract_label_domain by (assumption || reflexivity).
    unfold resolve, devPatterns; cbn [check_patterns].
    rewrite !RegexFacts.exec_label by assumption; simpl. now rewrite Hwww.
  - change ".myapp.com" with (String "." "myapp.com").
    rewrite ResolverFacts.extract_label_domain by (assumption || reflexivity).
    unfold resolve, devPatterns, prodPattern;
      cbn [check_patterns].
    rewrite !RegexFacts.exec_label by assumption; simpl. now rewrite Hwww.
  - now rewrite ResolverFacts.extract_name_port.
  - now rewrite ResolverFacts.extract_name_port.
  - now rewrite ResolverFacts.extract_name_port.
  - intros ip Hip; unfold is_ip_literal in Hip.
    apply andb_true_iff in Hip as [Hne Hchars].
    apply negb_true_iff, String.eqb_neq in Hne.
    rewrite ResolverFacts.extract_resolve by assumption.
    apply (ResolverFacts.resolve_none_by_chars ip_char); try reflexivity.
    now apply SplitFacts.first_keeps.
Qed.

(** C1 at [acme] with port 3000. *)
Lemma extractTenantFromHost_resolves_label_witness :
  extractTenantFromHost (Str "acme.localhost:3000") = Some "acme"
  /\ extractTenantFromHost (Str "acme.lvh.me:3000") = Some "acme"
  /\ extractTenantFromHost (Str "acme.myapp.com:3000") = Some "acme"
  /\ extractTenantFromHost (Str "www.localhost:3000") = None
  /\ extractTenantFromHost (Str "127.0.0.1") = None.
Proof.
  assert (L : is_label "acme" = true) by reflexivity.
  assert (W : "acme" <> "www") by discriminate.
  assert (P : port_suffix ":3000" = true) by reflexivity.
  destruct (extractTenantFromHost_resolves_label "acme" ":3000" L W P)
    as (H1 & H2 & H3 & H4 & _ & _ & H7 & _).
  repeat split; assumption || (apply H7; reflexivity).
Defined.

(** C9, as the specification has it, fails: the resolver hands back a
    one-letter upper-case label, which is no identifier in the sense of the
    data model. *)
Lemma extractTenantFromHost_not_always_slug :
  extractTenantFromHost (Str "A.localhost") = Some "A"
  /\ spec_tenant_identifier "A" = false.
Proof. split; reflexivity. Qed.

(** C9, amended.  Every identifier the resolver returns is a non-empty
    string without a dot and without a colon, different from [www], and it
    is the leading part of the host it was given. *)
Theorem extractTenantFromHost_returns_label (host : jsval) (id : string) :
  extractTenantFromHost host = Some id ->
  is_label id = true /\ id <> "www"
  /\ exists tail, to_string host = id ++ tail.
Proof.
  intros H. destruct host as [| |s]; try discriminate.
  destruct (String.eqb_spec s "") as [->|Hs]; [discriminate|].
  rewrite ResolverFacts.extract_resolve in H by assumption.
  pose proof (SplitFacts.first_no_colon s) as Hcolon.
  apply ResolverFacts.resolve_sound in H as (Hne & Hwww & Hdots & tail & E).
  split; [|split; [exact Hwww|]].
  - unfold is_label. apply String.eqb_neq in Hne; rewrite Hne; simpl.
    rewrite E, StringFacts.forall_append in Hcolon.
    apply andb_true_iff in Hcolon as [Hcolon _].
    clear - Hdots Hcolon. induction id as [|c id IH]; simpl in *; [reflexivity|].
    apply andb_true_iff in Hdots as [Hd Hdots].
    apply andb_true_iff in Hcolon as [Hc Hcolon].
    rewrite (IH Hdots Hcolon), andb_true_r.
    unfold label_char; unfold Regex.not_dot in Hd. now rewrite Hd, Hc.
  - simpl.
    (* the host is the first piece followed by what [split] cut off *)
    assert (Hcut : forall t, exists rest, t = Js.first (Js.split ":" t) ++ rest).
    { induction t as [|c t [rest IH]]; simpl; [now exists ""|].
      destruct (Ascii.eqb c ":"); [now exists (String c t)|].
      destruct (SplitFacts.split_cons ":" t) as [p [ps Et]].
      rewrite Et in *; simpl in *. exists rest. now rewrite <- IH. }
    destruct (Hcut s) as [rest Hrest].
    exists (tail ++ rest). rewrite <- StringFacts.append_assoc, <- E. exact Hrest.
Qed.

(** C9 amended, at [acme.myapp.com:8080]. *)
Lemma extractTenantFromHost_returns_label_witness :
  is_label "acme" = true /\ "acme" <> "www"
  /\ exists tail, "acme.myapp.com:8080" = "acme" ++ tail.
Proof.
  exact (extractTenantFromHost_returns_label
           (Str "acme.myapp.com:8080") "acme" eq_refl).
Defined.

(* ===================================================================== *)
(** * Properties of the Connection Pool Registry *)
(* ===================================================================== *)

Module MapFacts.

Lemma same_value_refl (k : jsval) : same_value k k = true.
Proof. destruct k; simpl; auto using String.eqb_refl. Qed.

Lemma same_value_eq (a b : jsval) : same_value a b = true -> a = b.
Proof.
  destruct a, b; simpl; try discriminate; auto.
  intros H; apply String.eqb_eq in H; now subst.
Qed.

Lemma get_set_same {V} (m : JsMap.t V) (k : jsval) (v : V) :
  JsMap.get (JsMap.set m k v) k = Some v.
Proof.
  induction m as [|[k' v'] m IH]; simpl.
  - now rewrite same_value_refl.
  - destruct (same_value k' k) eqn:E; simpl; now rewrite E.
Qed.

Lemma get_set_other {V} (m : JsMap.t V) (k k' : jsval) (v : V) :
  same_value k k' = false ->
  JsMap.get (JsMap.set m k v) k' = JsMap.get m k'.
Proof.
  intros Hk; induction m as [|[k0 v0] m IH]; simpl.
  - now rewrite Hk.
  - destruct (same_value k0 k) eqn:E; simpl.
    + apply same_value_eq in E; subst k0. now rewrite Hk.
    + now rewrite IH.
Qed.

(** A miss followed by [set] makes the map one entry longer. *)
Lemma size_set_new {V} (m : JsMap.t V) (k : jsval) (v : V) :
  JsMap.get m k = None ->
  JsMap.size (JsMap.set m k v) = S (JsMap.size m).
Proof.
  unfold JsMap.size; induction m as [|[k' v'] m IH]; simpl; [reflexivity|].
  destruct (same_value k' k); [discriminate|].
  intros H; simpl; now rewrite IH.
Qed.

End MapFacts.


(** One step of symbolic execution of a method body. *)
Ltac run :=
  unfold bind, ret, throw, try_catch, called, console_log,
    console_error, emit, createConnection, close, findOne, createIndex,
    driver_call, process_env, this_connections, this_masterConnection,
    set_connections, set_masterConnection;
  cbn [record_event tick noted dbManager world clock fault trace tenants
       to_lower MONGODB_URI MONGODB_OPTIONS connections masterConnection
       fst snd negb].

Module RegistryFacts.
Import MapFacts.

(** ** [getTenantDB] case by case *)

Lemma getTenantDB_falsy (tenantId : jsval) (st : State) :
  truthy tenantId = false ->
  getTenantDB tenantId st
  = (Throw {| message := "Tenant ID is required" |},
     noted st (Call "getTenantDB" tenantId)).
Proof.
  intros H; unfold getTenantDB, bind, called, emit.
  now rewrite H.
Qed.

Lemma getTenantDB_hit (tenantId : jsval) (st : State) (h : Connection) :
  truthy tenantId = true ->
  JsMap.get (connections (dbManager st)) tenantId = Some h ->
  getTenantDB tenantId st = (Return h, noted st (Call "getTenantDB" tenantId)).
Proof.
  intros Ht Hget; unfold getTenantDB, bind, called, emit, this_connections.
  rewrite Ht; cbn [negb dbManager]; now rewrite Hget.
Qed.

Lemma getTenantDB_miss (tenantId : jsval) (st : State) :
  truthy tenantId = true ->
  JsMap.get (connections (dbManager st)) tenantId = None ->
  call_ok st 0 ->
  exists st1,
    getTenantDB tenantId st = (Return (fresh_tenant_handle tenantId st), st1)
    /\ connections (dbManager st1)
       = JsMap.set (connections (dbManager st)) tenantId
                   (fresh_tenant_handle tenantId st)
    /\ masterConnection (dbManager st1) = masterConnection (dbManager st)
    /\ clock (world st1) = S (clock (world st))
    /\ trace (world st1)
       = ConsoleLog ["✅ Tenant database connected: tenant_"
                       ++ to_string tenantId]
         :: CreateConnection (conn_uri (fresh_tenant_handle tenantId st))
              pool_options
         :: Call "getTenantDB" tenantId :: trace (world st).
Proof.
  unfold call_ok; rewrite Nat.add_0_r; intros Ht Hget Hok.
  unfold getTenantDB, bind, called, emit, this_connections, try_catch,
    process_env, createConnection, driver_call, set_connections, console_log.
  rewrite Ht; run; rewrite Hget; run; rewrite Hok.
  eexists; split; [reflexivity|]. simpl. repeat split.
Qed.

Lemma getTenantDB_miss_fault (tenantId : jsval) (st : State) (msg : string) :
  truthy tenantId = true ->
  JsMap.get (connections (dbManager st)) tenantId = None ->
  fault (world st) (clock (world st)) = Some msg ->
  exists st1,
    getTenantDB tenantId st = (Throw {| message := msg |}, st1)
    /\ dbManager st1 = dbManager st.
Proof.
  intros Ht Hget Hf.
  unfold getTenantDB, bind, called, emit, this_connections, try_catch,
    process_env, createConnection, driver_call, set_connections, console_log,
    console_error, throw.
  rewrite Ht; run; rewrite Hget; run; rewrite Hf.
  eexists; split; [reflexivity|]. reflexivity.
Qed.

(** After a call that returned [h], the cache holds [h] under the key. *)
Lemma getTenantDB_returned_is_cached (tenantId : jsval) (st st1 : State)
  (h : Connection) :
  getTenantDB tenantId st = (Return h, st1) ->
  truthy tenantId = true
  /\ JsMap.get (connections (dbManager st1)) tenantId = Some h.
Proof.
  intros H.
  destruct (truthy tenantId) eqn:Ht;
    [|rewrite getTenantDB_falsy in H by assumption; discriminate].
  split; [reflexivity|].
  destruct (JsMap.get (connections (dbManager st)) tenantId) as [h0|] eqn:Hget.
  - rewrite (getTenantDB_hit _ _ _ Ht Hget) in H.
    injection H as <- <-. exact Hget.
  - destruct (fault (world st) (clock (world st))) as [msg|] eqn:Hf.
    + destruct (getTenantDB_miss_fault _ _ _ Ht Hget Hf) as (st' & E & _).
      rewrite E in H; discriminate.
    + assert (Hok : call_ok st 0) by (unfold call_ok; now rewrite Nat.add_0_r).
      destruct (getTenantDB_miss _ _ Ht Hget Hok) as (st' & E & Hc & _).
      rewrite E in H; injection H as <- <-.
      rewrite Hc; apply get_set_same.
Qed.

End RegistryFacts.

(** C3.  For a non-empty identifier [id]: once [getTenantDB id] has returned
    a handle [h], calling it again returns the same [h] and leaves the state
    as it was but for the call marker, so the cache is not written and the
    driver is not called; and on a cache miss, with a connection attempt
    that succeeds, the handle returned is the new connection to the
    database named [tenant_] followed by [id], and the cache afterwards is
    the old one with that handle set under key [id].  That connection is
    the one the call itself opens: on a miss the driver is called exactly
    once, by [createConnection] on the address of the handle returned with
    the pool options of the source, the success is logged, and the master
    slot is not touched. *)
Theorem getTenantDB_reuses_handle (id : string) (st : State) :
  id <> "" ->
  (forall h st1,
      getTenantDB (Str id) st = (Return h, st1) ->
      getTenantDB (Str id) st1
      = (Return h, noted st1 (Call "getTenantDB" (Str id))))
  /\ (JsMap.get (connections (dbManager st)) (Str id) = None ->
      call_ok st 0 ->
      exists h st1,
        getTenantDB (Str id) st = (Return h, st1)
        /\ conn_id h = clock (world st)
        /\ conn_uri h = connection_string (MONGODB_URI (world st))
                          ("tenant_" ++ id) (MONGODB_OPTIONS (world st))
        /\ connections (dbManager st1)
           = JsMap.set (connections (dbManager st)) (Str id) h
        /\ JsMap.get (connections (dbManager st1)) (Str id) = Some h
        /\ JsMap.size (connections (dbManager st1))
           = S (JsMap.size (connections (dbManager st)))
        /\ masterConnection (dbManager st1) = masterConnection (dbManager st)
        /\ clock (world st1) = S (clock (world st))
        /\ trace (world st1)
           = ConsoleLog ["✅ Tenant database connected: tenant_" ++ id]
             :: CreateConnection (conn_uri h) pool_options
             :: Call "getTenantDB" (Str id) :: trace (world st)).
Proof.
  intros Hid.
  assert (Ht : truthy (Str id) = true)
    by (simpl; now apply negb_true_iff, String.eqb_neq).
  split.
  - intros h st1 H.
    apply RegistryFacts.getTenantDB_returned_is_cached in H as [_ Hget].
    now apply RegistryFacts.getTenantDB_hit.
  - intros Hmiss Hok.
    destruct (RegistryFacts.getTenantDB_miss _ _ Ht Hmiss Hok)
      as (st1 & E & Hc & Hm & Hk & Htr).
    exists (fresh_tenant_handle (Str id) st), st1.
    split; [exact E|]. split; [reflexivity|]. split; [reflexivity|].
    split; [exact Hc|].
    split; [rewrite Hc; apply MapFacts.get_set_same|].
    split; [rewrite Hc; now apply MapFacts.size_set_new|].
    split; [exact Hm|]. split; [exact Hk | exact Htr].
Qed.

(** C10.  With a falsy identifier ([null], [undefined] or the empty string)
    [getTenantDB] throws the error [Tenant ID is required]; the state it
    leaves is the one it found plus the call marker: the registry (cache
    and master slot) is unchanged, the driver was not called and no
    connection was created. *)
Theorem getTenantDB_rejects_falsy_id (tenantId : jsval) (st : State) :
  truthy tenantId = false ->
  getTenantDB tenantId st
  = (Throw {| message := "Tenant ID is required" |},
     noted st (Call "getTenantDB" tenantId))
  /\ connections (dbManager (snd (getTenantDB tenantId st)))
     = connections (dbManager st)
  /\ clock (world (snd (getTenantDB tenantId st))) = clock (world st)
  /\ (tenantId = Null \/ tenantId = Undefined \/ tenantId = Str "").
Proof.
  intros H; rewrite (RegistryFacts.getTenantDB_falsy _ _ H).
  repeat split.
  destruct tenantId as [| |s]; auto.
  simpl in H; apply negb_false_iff, String.eqb_eq in H; subst; auto.
Qed.

Module MasterFacts.

Create HintDb keeps discriminated.

Lemma keeps_ret {A} (a : A) : keeps_master (ret a).
Proof. now intros st. Qed.

Lemma keeps_throw {A} (e : Error) : keeps_master (@throw A e).
Proof. now intros st. Qed.

Lemma keeps_bind {A B} (m : M A) (k : A -> M B) :
  keeps_master m -> (forall a, keeps_master (k a)) -> keeps_master (bind m k).
Proof.
  intros Hm Hk st; unfold bind; specialize (Hm st).
  destruct (m st) as [[a|e] st']; simpl in *; [|exact Hm].
  now rewrite Hk.
Qed.

Lemma keeps_try_catch {A} (body : M A) (handler : Error -> M A) :
  keeps_master body -> (forall e, keeps_master (handler e)) ->
  keeps_master (try_catch body handler).
Proof.
  intros Hb Hh st; unfold try_catch; specialize (Hb st).
  destruct (body st) as [[a|e] st']; simpl in *; [exact Hb|].
  now rewrite Hh.
Qed.

Lemma keeps_emit (e : Event) : keeps_master (emit e).
Proof. now intros st. Qed.

Lemma keeps_driver_call {A} (e : Event) (result : nat -> World -> A) :
  keeps_master (driver_call e result).
Proof.
  intros st; unfold driver_call.
  now destruct (fault (world st) (clock (world st))).
Qed.

Lemma keeps_set_connections (m : JsMap.t Connection) :
  keeps_master (set_connections m).
Proof. now intros st. Qed.

Lemma keeps_this_connections : keeps_master this_connections.
Proof. now intros st. Qed.

Lemma keeps_this_masterConnection : keeps_master this_masterConnection.
Proof. now intros st. Qed.

Lemma keeps_process_env (var : World -> jsval) : keeps_master (process_env var).
Proof. now intros st. Qed.

#[export] Hint Resolve keeps_ret keeps_throw keeps_emit keeps_driver_call
  keeps_set_connections keeps_this_connections keeps_this_masterConnection
  keeps_process_env : keeps.

Ltac keeps :=
  repeat first
    [ progress (intros)
    | apply keeps_bind
    | apply keeps_try_catch
    | solve [unfold called, console_log, console_error, createConnection,
               close, createIndex, findOne; auto with keeps]
    | match goal with
      | |- keeps_master (match ?x with _ => _ end) => destruct x
      | |- keeps_master (if ?x then _ else _) => destruct x
      end ].

Lemma keeps_getTenantDB (tenantId : jsval) : keeps_master (getTenantDB tenantId).
Proof. unfold getTenantDB; keeps. Qed.

Lemma keeps_create_indexes c name indexes :
  keeps_master (create_indexes c name indexes).
Proof. induction indexes as [|[f o] more IH]; simpl; keeps; try exact IH. Qed.

Lemma keeps_for_collections c cs : keeps_master (for_collections c cs).
Proof.
  induction cs as [|[name ixs] more IH]; simpl; keeps;
    first [apply keeps_create_indexes | exact IH].
Qed.

Lemma keeps_initializeTenantCollections c :
  keeps_master (initializeTenantCollections c).
Proof.
  unfold initializeTenantCollections; keeps; try apply keeps_for_collections.
Qed.

Lemma keeps_createTenantDB (tenantId : jsval) :
  keeps_master (createTenantDB tenantId).
Proof.
  unfold createTenantDB; keeps;
    first [apply keeps_getTenantDB | apply keeps_initializeTenantCollections].
Qed.

Lemma keeps_closeTenantConnection (tenantId : jsval) :
  keeps_master (closeTenantConnection tenantId).
Proof. unfold closeTenantConnection; keeps. Qed.

Lemma keeps_close_each entries : keeps_master (close_each entries).
Proof. induction entries as [|[k c] more IH]; simpl; keeps; try exact IH. Qed.

Lemma keeps_closeAllConnections : keeps_master closeAllConnections.
Proof. unfold closeAllConnections; keeps; try apply keeps_close_each. Qed.

Lemma keeps_getMasterConnection : keeps_master getMasterConnection.
Proof. unfold getMasterConnection; keeps. Qed.

(** A successful initialization stores the handle it returns; a failed one
    leaves the slot as it was. *)
Lemma initializeMasterDB_slot (st st' : State) :
  (forall c, initializeMasterDB st = (Return c, st') ->
             masterConnection (dbManager st') = Some c)
  /\ (forall e, initializeMasterDB st = (Throw e, st') ->
                masterConnection (dbManager st')
                = masterConnection (dbManager st)).
Proof.
  unfold initializeMasterDB; run.
  destruct (fault (world st) (clock (world st))) as [msg|]; run;
    split; intros x H; inversion H; subst; reflexivity.
Qed.

(** The slot holds exactly what the latest successful initialization
    returned. *)
Lemma history_slot (st : State) (last : option Connection) :
  history st last -> masterConnection (dbManager st) = last.
Proof.
  induction 1 as [w | st last w _ IH | st last c st' _ _ Hinit
                 | st last e st' _ IH Hinit | st last id _ IH
                 | st last id _ IH | st last id _ IH | st last _ IH
                 | st last _ IH].
  - reflexivity.
  - exact IH.
  - now apply (proj1 (initializeMasterDB_slot st st')).
  - now rewrite (proj2 (initializeMasterDB_slot st st') e Hinit).
  - now rewrite keeps_getTenantDB.
  - now rewrite keeps_createTenantDB.
  - now rewrite keeps_closeTenantConnection.
  - now rewrite keeps_closeAllConnections.
  - now rewrite keeps_getMasterConnection.
Qed.


Lemma state_eta (st : State) :
  {| dbManager := dbManager st; world := world st |} = st.
Proof. now destruct st. Qed.

(** A state with the registry of a possible state is a possible state. *)
Lemma history_same_registry (st st' : State) (last : option Connection) :
  history st last -> dbManager st' = dbManager st -> history st' last.
Proof.
  intros H E; rewrite <- (state_eta st'), E.
  now apply history_world.
Qed.

(** The middleware reaches the registry through its methods only: a request
    served in a possible state leaves a possible state. *)
Lemma history_tenantMiddleware (req : Request) (st : State)
  (last : option Connection) :
  history st last ->
  exists last', history (snd (tenantMiddleware req st)) last'.
Proof.
  intros H.
  assert (Hrest : forall s l (k : Connection -> M Outcome),
    history s l ->
    (forall c s1 l1, history s1 l1 ->
       exists l', history (snd (try_catch (k c)
         (fun error =>
            console_error ["Tenant middleware error:"; message error] ;;
            ret tenant_resolution_error) s1)) l') ->
    exists l', history (snd (try_catch (bind getMasterConnection k)
         (fun error =>
            console_error ["Tenant middleware error:"; message error] ;;
            ret tenant_resolution_error) s)) l').
  { intros s l k Hs Hk.
    pose proof (history_getMasterConnection s l Hs) as Hg.
    unfold try_catch, bind at 1.
    destruct (getMasterConnection s) as [[c|e] s1] eqn:E; simpl in Hg.
    - specialize (Hk c s1 l Hg). unfold try_catch in Hk. exact Hk.
    - exists l. eapply history_same_registry; [exact Hg|reflexivity]. }
  assert (Hbranch : forall s l, history s l ->
    exists l', history (snd (try_catch
      (match falsy_opt (extractTenantFromHost (host_of req))
             || Js.startsWith (req_path req) admin_prefix,
             extractTenantFromHost (host_of req) with
       | false, Some sub =>
           model_db <- getMasterConnection ;;
           tenant <- findOne model_db sub true ;;
           match tenant with
           | None => ret tenant_not_found
           | Some t =>
               tenantDB <- getTenantDB (Str (subdomain t)) ;;
               ret (Next (write_tenantId
                            (write_db (write_tenant req (Some t)) tenantDB)
                            (subdomain t)))
           end
       | _, _ =>
           db <- getMasterConnection ;;
           ret (Next (write_tenant (write_db req db) None))
       end)
      (fun error =>
         console_error ["Tenant middleware error:"; message error] ;;
         ret tenant_resolution_error) s)) l').
  { intros s l Hs.
    assert (Hmaster : exists l', history (snd (try_catch
        (db <- getMasterConnection ;;
         ret (Next (write_tenant (write_db req db) None)))
        (fun error =>
           console_error ["Tenant middleware error:"; message error] ;;
           ret tenant_resolution_error) s)) l').
    { apply (Hrest s l); [exact Hs|].
      intros c s1 l1 H1; exists l1; exact H1. }
    destruct (extractTenantFromHost (host_of req)) as [sub|];
      destruct (_ || Js.startsWith (req_path req) admin_prefix);
      try exact Hmaster.
    apply (Hrest s l); [exact Hs|].
    intros c s1 l1 H1.
    unfold try_catch, bind at 1, findOne, driver_call.
    destruct (fault (world s1) (clock (world s1))).
    - exists l1. eapply history_same_registry; [exact H1|reflexivity].
    - destruct (find _ _) as [t|].
      + match goal with
        | |- context [bind (getTenantDB ?a) _ ?s2] =>
            pose proof (history_getTenantDB s2 l1 a
                          (history_same_registry s1 s2 l1 H1 eq_refl)) as Hg;
            unfold bind; destruct (getTenantDB a s2) as [[h|e] s3]
        end; simpl in Hg |- *.
        * exists l1; exact Hg.
        * exists l1. eapply history_same_registry; [exact Hg|reflexivity].
      + exists l1. eapply history_same_registry; [exact H1|reflexivity]. }
  unfold tenantMiddleware, tenantMiddleware_try.
  fold (host_of req).
  unfold bind at 1, this_masterConnection, try_catch at 1.
  destruct (masterConnection (dbManager st)) as [m|].
  - unfold bind at 1, ret at 1.
    specialize (Hbranch st last H). unfold try_catch in Hbranch. exact Hbranch.
  - unfold bind at 1 2.
    destruct (initializeMasterDB st) as [[c|e] s1] eqn:E.
    + pose proof (history_initialize_ok st last c s1 H E) as H1.
      unfold ret at 1.
      specialize (Hbranch s1 (Some c) H1). unfold try_catch in Hbranch.
      exact Hbranch.
    + exists last.
      eapply history_same_registry;
        [exact (history_initialize_failed st last e s1 H E)|reflexivity].
Qed.

End MasterFacts.

(** C8.  In every state the registry can be in, [getMasterConnection]
    returns the handle of the latest successful [initializeMasterDB] when
    there has been one, and throws [Master database not initialized] when
    there has been none; a failed [initializeMasterDB] leaves the slot as it
    was, so it changes nothing to that. *)
Theorem getMasterConnection_after_history (st : State)
  (last : option Connection) :
  history st last ->
  getMasterConnection st
  = (match last with
     | Some c => Return c
     | None => Throw {| message := "Master database not initialized" |}
     end,
     noted st (Call "getMasterConnection" Undefined))
  /\ (forall e st',
        initializeMasterDB st = (Throw e, st') ->
        history st' last
        /\ masterConnection (dbManager st') = masterConnection (dbManager st)).
Proof.
  intros H; split.
  - apply MasterFacts.history_slot in H.
    unfold getMasterConnection; run; rewrite H.
    now destruct last.
  - intros e st' Hinit; split.
    + exact (history_initialize_failed st last e st' H Hinit).
    + exact (proj2 (MasterFacts.initializeMasterDB_slot st st') e Hinit).
Qed.

Module TeardownFacts.

(** A [catch] whose handler always returns makes the whole block return. *)
Lemma try_catch_returns {A} (body : M A) (handler : Error -> M A) :
  (forall e st, exists a st', handler e st = (Return a, st')) ->
  forall st, exists a st', try_catch body handler st = (Return a, st').
Proof.
  intros Hh st; unfold try_catch.
  destruct (body st) as [[a|e] st']; [now exists a, st' | apply Hh].
Qed.

Lemma calls_ok_next (st st' : State) (n : nat) :
  calls_ok st (S n) ->
  fault (world st') = fault (world st) ->
  clock (world st') = S (clock (world st)) ->
  calls_ok st' n.
Proof.
  unfold calls_ok, call_ok; intros H Hf Hc i Hi.
  rewrite Hf, Hc. replace (S (clock (world st)) + i) with (clock (world st) + S i)
    by lia.
  apply H; lia.
Qed.

(** The loop when no [close] rejects: every entry is closed, in order. *)
Lemma close_each_ok (entries : JsMap.t Connection) :
  forall st,
    calls_ok st (List.length entries) ->
    exists st',
      close_each entries st = (Return tt, st')
      /\ dbManager st' = dbManager st
      /\ fault (world st') = fault (world st)
      /\ clock (world st') = clock (world st) + List.length entries
      /\ trace (world st') = (closed_events entries ++ trace (world st))%list.
Proof.
  induction entries as [|[k c] more IH]; intros st Hok.
  - exists st; simpl; repeat split; auto using Nat.add_0_r.
  - cbn [close_each]; run.
    assert (H0 : fault (world st) (clock (world st)) = None).
    { specialize (Hok 0); unfold call_ok in Hok; rewrite Nat.add_0_r in Hok.
      apply Hok; simpl; lia. }
    rewrite H0.
    match goal with
    | |- context [close_each more ?s] =>
        destruct (IH s) as (st' & E & Hdb & Hf & Hc & Ht)
    end.
    { apply (calls_ok_next st); [exact Hok | reflexivity | reflexivity]. }
    rewrite E. exists st'; split; [reflexivity|].
    cbn [dbManager world record_event tick clock fault trace] in *.
    repeat split; try assumption.
    + rewrite Hc; simpl; lia.
    + rewrite Ht; simpl. now rewrite <- List.app_assoc.
Qed.

(** The loop when the [close] of one entry rejects: the entries before it
    are closed, the loop ends there with the rejection. *)
Lemma close_each_fault (pre post : JsMap.t Connection) (k : jsval)
  (c : Connection) (msg : string) :
  forall st,
    calls_ok st (List.length pre) ->
    fault (world st) (clock (world st) + List.length pre) = Some msg ->
    exists st',
      close_each (pre ++ (k, c) :: post)%list st
      = (Throw {| message := msg |}, st')
      /\ dbManager st' = dbManager st
      /\ trace (world st')
         = (Close c :: closed_events pre ++ trace (world st))%list.
Proof.
  induction pre as [|[k0 c0] pre IH]; intros st Hok Hf.
  - simpl in *; rewrite Nat.add_0_r in Hf. run; rewrite Hf.
    eexists; split; [reflexivity|]. now split.
  - cbn [List.app close_each]; run.
    assert (H0 : fault (world st) (clock (world st)) = None).
    { specialize (Hok 0); unfold call_ok in Hok; rewrite Nat.add_0_r in Hok.
      apply Hok; simpl; lia. }
    rewrite H0.
    match goal with
    | |- context [close_each _ ?s] =>
        destruct (IH s) as (st' & E & Hdb & Ht)
    end.
    { apply (calls_ok_next st); [exact Hok | reflexivity | reflexivity]. }
    { cbn [world tick record_event clock fault].
      simpl in Hf. now rewrite <- Nat.add_succ_comm in Hf. }
    rewrite E. exists st'; split; [reflexivity|].
    cbn [dbManager world record_event tick clock fault trace] in *.
    split; [assumption|].
    rewrite Ht; simpl. now rewrite <- List.app_assoc.
Qed.

Lemma manager_eta (d : DatabaseManager) :
  {| connections := connections d; masterConnection := masterConnection d |}
  = d.
Proof. now destruct d. Qed.

(** [closeAllConnections] returns normally whatever happens. *)
Lemma closeAllConnections_returns (st : State) :
  fst (closeAllConnections st) = Return tt.
Proof.
  unfold closeAllConnections, bind at 1, called, emit.
  match goal with
  | |- fst (try_catch ?b ?h ?s) = _ =>
      unfold try_catch; destruct (b s) as [[[]|e] s']; reflexivity
  end.
Qed.

(** With an empty cache the call leaves the registry as it is, and the only
    handle it may close is the one in the master slot. *)
Lemma closeAllConnections_empty (st : State) :
  connections (dbManager st) = [] ->
  dbManager (snd (closeAllConnections st)) = dbManager st
  /\ forall c,
       In (Close c) (trace (world (snd (closeAllConnections st)))) ->
       In (Close c) (trace (world st))
       \/ masterConnection (dbManager st) = Some c.
Proof.
  intros Hempty.
  assert (Hd : {| connections := [];
                  masterConnection := masterConnection (dbManager st) |}
               = dbManager st)
    by (rewrite <- Hempty; apply manager_eta).
  unfold closeAllConnections; run; rewrite Hempty.
  cbn [close_each]; run. unfold JsMap.clear. rewrite Hd.
  destruct (masterConnection (dbManager st)) as [m|]; run.
  - destruct (fault (world st) (clock (world st))); run;
      (split; [reflexivity|]);
      intros c Hin; simpl in Hin;
      repeat (destruct Hin as [Hin|Hin]; try discriminate);
      try (injection Hin as <-); auto.
  - split; [reflexivity|].
    intros c Hin; simpl in Hin.
    repeat (destruct Hin as [Hin|Hin]; try discriminate); auto.
Qed.

End TeardownFacts.

(** C4, as the specification has it, fails.  After the master database was
    initialized, [closeAllConnections] leaves the master handle in its
    slot, and a second call closes that handle once more; and when the
    [close] of a cached tenant handle rejects, the cache keeps its
    entries. *)
Lemma closeAllConnections_keeps_master_slot :
  let st := snd (initializeMasterDB (initial (sample_world never []))) in
  let st1 := snd (closeAllConnections st) in
  let st2 := snd (closeAllConnections st1) in
  masterConnection (dbManager st1) <> None
  /\ List.length (List.filter
                    (fun e => match e with Close _ => true | _ => false end)
                    (trace (world st2))) = 2
  /\ JsMap.size
       (connections
          (dbManager
             (snd (closeAllConnections (serving (rejects_at 3 "ECONNRESET"))))))
     = 2.
Proof. repeat split; vm_compute; discriminate. Qed.

(** C4, amended.  When no [close] of a cached tenant handle rejects,
    [closeAllConnections] returns normally and leaves a cache with zero
    entries, while the master slot keeps what it held; a second call right
    after returns normally too, leaves the registry as it is and closes no
    handle other than the one still in the master slot. *)
Theorem closeAllConnections_clears_cache (st : State) :
  calls_ok st (JsMap.size (connections (dbManager st))) ->
  let st1 := snd (closeAllConnections st) in
  let st2 := snd (closeAllConnections st1) in
  fst (closeAllConnections st) = Return tt
  /\ JsMap.size (connections (dbManager st1)) = 0
  /\ masterConnection (dbManager st1) = masterConnection (dbManager st)
  /\ fst (closeAllConnections st1) = Return tt
  /\ dbManager st2 = dbManager st1
  /\ (forall c,
        In (Close c) (trace (world st2)) ->
        In (Close c) (trace (world st1))
        \/ masterConnection (dbManager st1) = Some c).
Proof.
  intros Hok st1 st2.
  assert (Hempty : connections (dbManager st1) = []).
  { subst st1; unfold closeAllConnections; run.
    destruct (TeardownFacts.close_each_ok (connections (dbManager st))
                (noted st (Call "closeAllConnections" Undefined)) Hok)
      as (st' & E & Hdb & Hf & Hc & Ht).
    unfold noted in E; rewrite E; run.
    destruct (masterConnection (dbManager st')); run;
      [destruct (fault (world st') (clock (world st')))|]; reflexivity. }
  split; [apply TeardownFacts.closeAllConnections_returns|].
  split; [now rewrite Hempty|].
  split; [apply MasterFacts.keeps_closeAllConnections|].
  split; [apply TeardownFacts.closeAllConnections_returns|].
  now apply TeardownFacts.closeAllConnections_empty.
Qed.

(** C4 amended, on the process that serves [acme] and [globex]. *)
Lemma closeAllConnections_clears_cache_witness :
  JsMap.size (connections (dbManager (snd (closeAllConnections (serving never)))))
  = 0.
Proof.
  assert (Hok : calls_ok (serving never)
                  (JsMap.size (connections (dbManager (serving never)))))
    by (intros i _; reflexivity).
  exact (proj1 (proj2 (closeAllConnections_clears_cache (serving never) Hok))).
Defined.

(** C5, as the specification has it, fails.  With [acme] and [globex]
    cached and the first [close] rejecting, [closeAllConnections] returns
    normally (nothing reaches the caller), and neither the handle of
    [globex] nor the master handle is closed or even attempted. *)
Lemma closeAllConnections_gives_up_at_first_failure :
  let st := serving (rejects_at 3 "ECONNRESET") in
  let st' := snd (closeAllConnections st) in
  fst (closeAllConnections st) = Return tt
  /\ JsMap.get (connections (dbManager st)) (Str "globex")
     = Some {| conn_id := 2;
               conn_uri :=
                 "mongodb://localhost:27017/tenant_globex?retryWrites=true" |}
  /\ masterConnection (dbManager st)
     = Some {| conn_id := 0;
               conn_uri :=
                 "mongodb://localhost:27017/master_tenant_db?retryWrites=true" |}
  /\ List.filter (fun e => match e with Close _ => true | _ => false end)
       (trace (world st'))
     = [Close {| conn_id := 1;
                 conn_uri :=
                   "mongodb://localhost:27017/tenant_acme?retryWrites=true" |}].
Proof. repeat split. Qed.

(** C5, amended.  When the [close] of a cached tenant handle rejects,
    [closeAllConnections] ends there: the handles cached before it have been
    closed, no handle cached after it and no master handle is closed, the
    registry (cache and master slot) is left as it was, the message of the
    rejection goes to [console.error] and the call returns normally. *)
Theorem closeAllConnections_stops_at_failure (st : State)
  (pre post : JsMap.t Connection) (k : jsval) (c : Connection) (msg : string) :
  connections (dbManager st) = (pre ++ (k, c) :: post)%list ->
  calls_ok st (List.length pre) ->
  fault (world st) (clock (world st) + List.length pre) = Some msg ->
  exists st',
    closeAllConnections st = (Return tt, st')
    /\ dbManager st' = dbManager st
    /\ trace (world st')
       = (ConsoleError ["❌ Error closing connections:"; msg]
            :: Close c
            :: closed_events pre
            ++ Call "closeAllConnections" Undefined :: trace (world st))%list.
Proof.
  intros Hconn Hok Hf.
  destruct (TeardownFacts.close_each_fault pre post k c msg
              (noted st (Call "closeAllConnections" Undefined)) Hok Hf)
    as (st' & E & Hdb & Ht).
  unfold closeAllConnections; run; rewrite Hconn.
  unfold noted in E; rewrite E; run.
  eexists; split; [reflexivity|]; run. split; [exact Hdb|].
  now rewrite Ht.
Qed.

(** C5 amended, on the process that serves [acme] and [globex], the second
    [close] rejecting. *)
Lemma closeAllConnections_stops_at_failure_witness :
  exists st',
    closeAllConnections (serving (rejects_at 4 "ECONNRESET")) = (Return tt, st')
    /\ dbManager st' = dbManager (serving (rejects_at 4 "ECONNRESET")).
Proof.
  destruct (closeAllConnections_stops_at_failure
              (serving (rejects_at 4 "ECONNRESET"))
              [(Str "acme", fresh_tenant_handle (Str "acme")
                  (snd (initializeMasterDB
                          (initial (sample_world (rejects_at 4 "ECONNRESET")
                                      [acme])))))]
              []
              (Str "globex")
              {| conn_id := 2;
                 conn_uri :=
                   "mongodb://localhost:27017/tenant_globex?retryWrites=true" |}
              "ECONNRESET" eq_refl)
    as (st' & E & Hdb & _).
  - intros i Hi. simpl in Hi.
    assert (i = 0) as -> by lia. reflexivity.
  - reflexivity.
  - exists st'; split; assumption.
Defined.

(* ===================================================================== *)
(** * Properties of the Request Context Binder *)
(* ===================================================================== *)

Module BinderFacts.

Lemma extract_nonempty (host : jsval) (id : string) :
  extractTenantFromHost host = Some id -> falsy_opt (Some id) = false.
Proof.
  intros H; destruct host as [| |s]; try discriminate.
  destruct (String.eqb_spec s "") as [->|Hs]; [discriminate|].
  rewrite ResolverFacts.extract_resolve in H by assumption.
  apply ResolverFacts.resolve_sound in H as (Hne & _).
  simpl; now apply String.eqb_neq.
Qed.

(** The master-only branch is taken when there is no tenant or the path is
    an administrative one. *)
Lemma master_only_branch (o : option string) (path : string) :
  o = None \/ Js.startsWith path admin_prefix = true ->
  match falsy_opt o || Js.startsWith path admin_prefix, o with
  | false, Some _ => false
  | _, _ => true
  end = true.
Proof.
  intros [->|H]; [reflexivity|].
  rewrite H, orb_true_r; reflexivity.
Qed.

Ltac run_binder :=
  unfold tenantMiddleware, tenantMiddleware_try, initializeMasterDB,
    getMasterConnection;
  run.

Ltac finish :=
  repeat match goal with
         | |- _ /\ _ => split
         | |- _ -> _ => intro
         | |- forall _, _ => intro
         end;
  first [reflexivity | congruence | (simpl; congruence)].

End BinderFacts.

(** C6.  For a request whose host resolves to no tenant, or whose path
    starts with [/api/super-admin], the middleware never queries the tenant
    collection, whatever else happens; and with the master handle
    available, that is, in its slot already or put there by an
    initialization that succeeds, the middleware calls [next()] with the
    master handle as [req.db] and [req.tenant] null, the handle stays in
    the master slot and the tenant cache is left as it was.  An
    initialization that rejects is the error path of the middleware: the
    answer is then [TENANT_RESOLUTION_ERROR]. *)
Theorem tenantMiddleware_binds_master (req : Request) (st : State) :
  extractTenantFromHost (host_of req) = None
  \/ Js.startsWith (req_path req) admin_prefix = true ->
  exists out st' evs,
    tenantMiddleware req st = (Return out, st')
    /\ events_since st st' evs
    /\ List.existsb is_findOne evs = false
    /\ (master_ready st ->
        out = Next (write_tenant (write_db req (master_handle_for st)) None)
        /\ masterConnection (dbManager st') = Some (master_handle_for st)
        /\ connections (dbManager st') = connections (dbManager st))
    /\ (forall msg,
          masterConnection (dbManager st) = None ->
          fault (world st) (clock (world st)) = Some msg ->
          out = tenant_resolution_error).
Proof.
  intros Hpath.
  apply BinderFacts.master_only_branch in Hpath.
  unfold events_since, master_ready, master_handle_for, call_ok, host_of in *.
  BinderFacts.run_binder.
  destruct (masterConnection (dbManager st)) as [m|] eqn:Hm; run.
  - destruct (falsy_opt _ || _) eqn:Hb;
      [|destruct (extractTenantFromHost _); [discriminate|]];
      run; rewrite Hm;
      (eexists; eexists;
       exists [Call "getMasterConnection" Undefined];
       BinderFacts.finish).
  - rewrite Nat.add_0_r.
    destruct (fault (world st) (clock (world st))) as [msg|] eqn:Hf; run.
    + eexists; eexists;
        exists [ConsoleError ["Tenant middleware error:"; msg];
                ConsoleError ["❌ Master database connection failed:"; msg];
                CreateConnection
                  (connection_string (MONGODB_URI (world st)) masterDbName
                     (MONGODB_OPTIONS (world st))) pool_options;
                Call "initializeMasterDB" Undefined].
      BinderFacts.finish.
    + destruct (falsy_opt _ || _) eqn:Hb;
        [|destruct (extractTenantFromHost _); [discriminate|]];
        run;
        (eexists; eexists;
         exists [Call "getMasterConnection" Undefined;
                 ConsoleLog ["✅ Master database connected: " ++ masterDbName];
                 CreateConnection
                   (connection_string (MONGODB_URI (world st)) masterDbName
                      (MONGODB_OPTIONS (world st))) pool_options;
                 Call "initializeMasterDB" Undefined];
         BinderFacts.finish).
Qed.

(** C6, on the administrative login of the apex host. *)
Lemma tenantMiddleware_binds_master_witness :
  exists st',
    tenantMiddleware (sample_request "localhost:5000" "/api/super-admin/login")
      (initial (sample_world never []))
    = (Return
         (Next {| req_get_host := Str "localhost:5000";
                  req_headers_host := Str "localhost:5000";
                  req_path := "/api/super-admin/login";
                  req_db :=
                    Some {| conn_id := 0;
                            conn_uri :=
                              "mongodb://localhost:27017/master_tenant_db?retryWrites=true" |};
                  req_tenant := None;
                  req_tenantId := None |}),
       st').
Proof.
  destruct (tenantMiddleware_binds_master
              (sample_request "localhost:5000" "/api/super-admin/login")
              (initial (sample_world never []))
              (or_introl eq_refl))
    as (out & st' & evs & E & _ & _ & Hready & _).
  destruct (Hready eq_refl) as (-> & _).
  exists st'. exact E.
Defined.

Module LookupFacts.

Lemma find_no_active (f : string -> string) (id : string) (ts : list Tenant) :
  (forall t, In t ts -> subdomain t = f id -> isActive t = false) ->
  List.find (matches f id true) ts = None.
Proof.
  induction ts as [|t ts IH]; intros H; simpl; [reflexivity|].
  destruct (matches f id true t) eqn:E.
  - unfold matches in E; apply andb_true_iff in E as [Es Ea].
    apply String.eqb_eq in Es. apply Bool.eqb_prop in Ea.
    rewrite (H t (or_introl eq_refl) Es) in Ea; discriminate.
  - apply IH; intros t' Hin; apply H; now right.
Qed.

Lemma find_never_existed (f : string -> string) (id : string)
  (ts : list Tenant) :
  never_existed (f id) ts -> List.find (matches f id true) ts = None.
Proof.
  intros H; apply find_no_active; intros t Hin Hs.
  now destruct (H t Hin).
Qed.

Lemma find_deactivated (f : string -> string) (id : string)
  (ts : list Tenant) :
  deactivated (f id) ts -> List.find (matches f id true) ts = None.
Proof. intros [_ H]; now apply find_no_active. Qed.

(** A record found by the lookup carries the identifier looked up, in
    lower case. *)
Lemma find_matches (f : string -> string) (id : string) (ts : list Tenant)
  (t : Tenant) :
  List.find (matches f id true) ts = Some t ->
  subdomain t = f id /\ isActive t = true.
Proof.
  intros H; apply List.find_some in H as [_ H].
  unfold matches in H; apply andb_true_iff in H as [Hs Ha].
  apply String.eqb_eq in Hs. now apply Bool.eqb_prop in Ha.
Qed.

End LookupFacts.

(** C2, as the specification has it, fails: a request to the subdomain
    [ghost], for which the master database holds no active record, is not
    answered with [TENANT_NOT_FOUND] when its path is under the
    administrative prefix; it is handed on with the master handle bound. *)
Lemma tenantMiddleware_ghost_on_admin_path :
  let req := sample_request "ghost.myapp.com" "/api/super-admin/tenants" in
  let st := initial (sample_world never [acme; ghost_inactive]) in
  extractTenantFromHost (host_of req) = Some "ghost"
  /\ List.find (matches (to_lower (world st)) "ghost" true)
       (tenants (world st)) = None
  /\ fst (tenantMiddleware req st) <> Return tenant_not_found
  /\ fst (tenantMiddleware req st)
     = Return
         (Next (write_tenant
                  (write_db req
                     {| conn_id := 0;
                        conn_uri :=
                          "mongodb://localhost:27017/master_tenant_db?retryWrites=true" |})
                  None)).
Proof. repeat split. discriminate. Qed.

(** C2, amended.  For a request whose host resolves to an identifier [id],
    which the query looks up in lower case as the schema of the tenant
    collection has it, take the master database once without any record of
    that lower-cased identifier and once with records of it that are all
    inactive.  The two runs of the middleware give the same outcome, leave
    the same registry and the same trace, and in neither is [getTenantDB]
    called.  When moreover the path is not under [/api/super-admin], the
    master handle is available and the lookup query does not reject, that
    common outcome is the [TENANT_NOT_FOUND] response with status 404. *)
Theorem tenantMiddleware_not_found_alike (req : Request) (st : State)
  (id : string) (absent inactive : list Tenant) :
  extractTenantFromHost (host_of req) = Some id ->
  never_existed (to_lower (world st) id) absent ->
  deactivated (to_lower (world st) id) inactive ->
  exists out st1 st2 evs,
    tenantMiddleware req (with_tenants absent st) = (Return out, st1)
    /\ tenantMiddleware req (with_tenants inactive st) = (Return out, st2)
    /\ dbManager st1 = dbManager st2
    /\ events_since st st1 evs
    /\ events_since st st2 evs
    /\ List.existsb (is_call_of "getTenantDB") evs = false
    /\ (Js.startsWith (req_path req) admin_prefix = false ->
        master_ready st ->
        call_ok st (lookup_call st) ->
        out = tenant_not_found).
Proof.
  intros Hx Habsent Hinactive.
  pose proof (BinderFacts.extract_nonempty _ _ Hx) as Hfalsy.
  apply LookupFacts.find_never_existed in Habsent.
  apply LookupFacts.find_deactivated in Hinactive.
  unfold events_since, master_ready, lookup_call, call_ok, host_of,
    with_tenants in *.
  BinderFacts.run_binder. rewrite Hx, Hfalsy. cbn [orb].
  destruct (masterConnection (dbManager st)) as [m|] eqn:Hm; run.
  - rewrite Nat.add_0_r.
    destruct (Js.startsWith (req_path req) admin_prefix); run; rewrite Hm; run.
    + do 3 eexists; exists [Call "getMasterConnection" Undefined].
      BinderFacts.finish.
    + rewrite Habsent, Hinactive.
      destruct (fault (world st) (clock (world st))) as [msg|]; run.
      * do 3 eexists;
          exists [ConsoleError ["Tenant middleware error:"; msg];
                  FindOne m id true;
                  Call "getMasterConnection" Undefined].
        BinderFacts.finish.
      * do 3 eexists;
          exists [FindOne m id true; Call "getMasterConnection" Undefined].
        BinderFacts.finish.
  - rewrite Nat.add_0_r, Nat.add_1_r.
    destruct (fault (world st) (clock (world st))) as [msg|]; run.
    + do 3 eexists;
        exists [ConsoleError ["Tenant middleware error:"; msg];
                ConsoleError ["❌ Master database connection failed:"; msg];
                CreateConnection
                  (connection_string (MONGODB_URI (world st)) masterDbName
                     (MONGODB_OPTIONS (world st))) pool_options;
                Call "initializeMasterDB" Undefined].
      BinderFacts.finish.
    + destruct (Js.startsWith (req_path req) admin_prefix); run.
      * do 3 eexists;
          exists [Call "getMasterConnection" Undefined;
                  ConsoleLog ["✅ Master database connected: " ++ masterDbName];
                  CreateConnection
                    (connection_string (MONGODB_URI (world st)) masterDbName
                       (MONGODB_OPTIONS (world st))) pool_options;
                  Call "initializeMasterDB" Undefined].
        BinderFacts.finish.
      * rewrite Habsent, Hinactive.
        destruct (fault (world st) (S (clock (world st)))) as [msg|]; run.
        -- do 3 eexists;
             exists [ConsoleError ["Tenant middleware error:"; msg];
                     FindOne (master_handle_for st) id true;
                     Call "getMasterConnection" Undefined;
                     ConsoleLog
                       ["✅ Master database connected: " ++ masterDbName];
                     CreateConnection
                       (connection_string (MONGODB_URI (world st))
                          masterDbName (MONGODB_OPTIONS (world st)))
                       pool_options;
                     Call "initializeMasterDB" Undefined].
           unfold master_handle_for; rewrite Hm. BinderFacts.finish.
        -- do 3 eexists;
             exists [FindOne (master_handle_for st) id true;
                     Call "getMasterConnection" Undefined;
                     ConsoleLog
                       ["✅ Master database connected: " ++ masterDbName];
                     CreateConnection
                       (connection_string (MONGODB_URI (world st))
                          masterDbName (MONGODB_OPTIONS (world st)))
                       pool_options;
                     Call "initializeMasterDB" Undefined].
           unfold master_handle_for; rewrite Hm. BinderFacts.finish.
Qed.

(** C2 amended, on the subdomain [ghost], reached under the host name
    [Ghost.myapp.com], and an ordinary path. *)
Lemma tenantMiddleware_not_found_alike_witness :
  fst (tenantMiddleware (sample_request "Ghost.myapp.com" "/api/users")
         (with_tenants [acme] (initial (sample_world never []))))
  = Return tenant_not_found
  /\ fst (tenantMiddleware (sample_request "Ghost.myapp.com" "/api/users")
            (with_tenants [acme; ghost_inactive]
               (initial (sample_world never []))))
     = Return tenant_not_found.
Proof.
  assert (Habsent : never_existed "ghost" [acme]).
  { intros t [<-|[]]; discriminate. }
  assert (Hinactive : deactivated "ghost" [acme; ghost_inactive]).
  { split.
    - exists ghost_inactive; split; [right; left|]; reflexivity.
    - intros t [<-|[<-|[]]]; [discriminate | reflexivity]. }
  destruct (tenantMiddleware_not_found_alike
              (sample_request "Ghost.myapp.com" "/api/users")
              (initial (sample_world never []))
              "Ghost" [acme] [acme; ghost_inactive]
              eq_refl Habsent Hinactive)
    as (out & st1 & st2 & evs & E1 & E2 & _ & _ & _ & _ & Hout).
  rewrite E1, E2, (Hout eq_refl eq_refl eq_refl). split; reflexivity.
Defined.

(** C7.  [tenantMiddleware] always returns: no error leaves it.  Whenever
    its [try] block throws, the error is logged and the answer is the
    [TENANT_RESOLUTION_ERROR] response with status 500; this is what
    happens when the initialization of the master database rejects, when
    the tenant lookup rejects, and when the connection to the tenant
    database rejects. *)
Theorem tenantMiddleware_catches_everything (req : Request) (st : State) :
  (exists out st', tenantMiddleware req st = (Return out, st'))
  /\ (forall e st1,
        tenantMiddleware_try req st = (Throw e, st1) ->
        tenantMiddleware req st
        = (Return tenant_resolution_error,
           noted st1 (ConsoleError ["Tenant middleware error:"; message e])))
  /\ (forall msg,
        masterConnection (dbManager st) = None ->
        fault (world st) (clock (world st)) = Some msg ->
        fst (tenantMiddleware req st) = Return tenant_resolution_error)
  /\ (forall id msg,
        extractTenantFromHost (host_of req) = Some id ->
        Js.startsWith (req_path req) admin_prefix = false ->
        master_ready st ->
        fault (world st) (clock (world st) + lookup_call st) = Some msg ->
        fst (tenantMiddleware req st) = Return tenant_resolution_error)
  /\ (forall id t msg,
        extractTenantFromHost (host_of req) = Some id ->
        Js.startsWith (req_path req) admin_prefix = false ->
        master_ready st ->
        call_ok st (lookup_call st) ->
        List.find (matches (to_lower (world st)) id true) (tenants (world st))
        = Some t ->
        JsMap.get (connections (dbManager st)) (Str (subdomain t)) = None ->
        fault (world st) (clock (world st) + lookup_call st + 1) = Some msg ->
        fst (tenantMiddleware req st) = Return tenant_resolution_error).
Proof.
  split; [|split; [|split; [|split]]].
  - apply TeardownFacts.try_catch_returns.
    intros e s; now do 2 eexists.
  - intros e st1 H; unfold tenantMiddleware, try_catch; now rewrite H.
  - intros msg Hm Hf. BinderFacts.run_binder. rewrite Hm; run.
    now rewrite Hf.
  - intros id msg Hx Hpath Hready Hf.
    pose proof (BinderFacts.extract_nonempty _ _ Hx) as Hfalsy.
    unfold master_ready, lookup_call, call_ok, host_of in *.
    BinderFacts.run_binder. rewrite Hx, Hfalsy, Hpath. cbn [orb].
    destruct (masterConnection (dbManager st)) as [m|] eqn:Hm; run.
    + rewrite Nat.add_0_r in Hf. rewrite Hm; run. now rewrite Hf.
    + rewrite Nat.add_0_r in Hready. rewrite Nat.add_1_r in Hf.
      rewrite Hready; run. now rewrite Hf.
  - intros id t msg Hx Hpath Hready Hok Hfind Hmiss Hf.
    pose proof (BinderFacts.extract_nonempty _ _ Hx) as Hfalsy.
    unfold master_ready, lookup_call, call_ok, host_of in *.
    BinderFacts.run_binder. rewrite Hx, Hfalsy, Hpath. cbn [orb].
    destruct (truthy (Str (subdomain t))) eqn:Ht;
      destruct (masterConnection (dbManager st)) as [m|] eqn:Hm; run.
    + rewrite Nat.add_0_r in *. rewrite Nat.add_1_r in Hf.
      rewrite Hm; run; rewrite Hok, Hfind.
      match goal with
      | |- context [getTenantDB ?a ?s] =>
          destruct (RegistryFacts.getTenantDB_miss_fault a s msg Ht)
            as (s1 & E & _); [exact Hmiss | exact Hf |]
      end.
      now rewrite E.
    + rewrite Nat.add_0_r in Hready. rewrite Nat.add_1_r in Hok.
      replace (clock (world st) + 1 + 1) with (S (S (clock (world st)))) in Hf
        by lia.
      rewrite Hready; run; rewrite Hok, Hfind.
      match goal with
      | |- context [getTenantDB ?a ?s] =>
          destruct (RegistryFacts.getTenantDB_miss_fault a s msg Ht)
            as (s1 & E & _); [exact Hmiss | exact Hf |]
      end.
      now rewrite E.
    + rewrite Nat.add_0_r in *.
      rewrite Hm; run; rewrite Hok, Hfind.
      now rewrite (RegistryFacts.getTenantDB_falsy _ _ Ht).
    + rewrite Nat.add_0_r in Hready. rewrite Nat.add_1_r in Hok.
      rewrite Hready; run; rewrite Hok, Hfind.
      now rewrite (RegistryFacts.getTenantDB_falsy _ _ Ht).
Qed.

(** C7, on a first request that finds the master database unreachable. *)
Lemma tenantMiddleware_catches_everything_witness :
  fst (tenantMiddleware (sample_request "acme.myapp.com" "/api/jobs")
         (initial (sample_world (rejects_at 0 "ECONNREFUSED") [acme])))
  = Return tenant_resolution_error
  /\ fst (tenantMiddleware (sample_request "acme.myapp.com" "/api/jobs")
            (initial (sample_world (rejects_at 1 "ETIMEDOUT") [acme])))
     = Return tenant_resolution_error
  /\ fst (tenantMiddleware (sample_request "acme.myapp.com" "/api/jobs")
            (initial (sample_world (rejects_at 2 "ECONNRESET") [acme])))
     = Return tenant_resolution_error.
Proof.
  split; [|split].
  - destruct (tenantMiddleware_catches_everything
                (sample_request "acme.myapp.com" "/api/jobs")
                (initial (sample_world (rejects_at 0 "ECONNREFUSED") [acme])))
      as (_ & _ & Hinit & _).
    exact (Hinit "ECONNREFUSED" eq_refl eq_refl).
  - destruct (tenantMiddleware_catches_everything
                (sample_request "acme.myapp.com" "/api/jobs")
                (initial (sample_world (rejects_at 1 "ETIMEDOUT") [acme])))
      as (_ & _ & _ & Hlookup & _).
    exact (Hlookup "acme" "ETIMEDOUT" eq_refl eq_refl eq_refl eq_refl).
  - destruct (tenantMiddleware_catches_everything
                (sample_request "acme.myapp.com" "/api/jobs")
                (initial (sample_world (rejects_at 2 "ECONNRESET") [acme])))
      as (_ & _ & _ & _ & Hconnect).
    exact (Hconnect "acme" acme "ECONNRESET"
             eq_refl eq_refl eq_refl eq_refl eq_refl eq_refl eq_refl).
Defined.

(** C3, on the first two calls for [acme] after start-up. *)
Lemma getTenantDB_reuses_handle_witness :
  exists h st1,
    getTenantDB (Str "acme") (initial (sample_world never [acme]))
    = (Return h, st1)
    /\ getTenantDB (Str "acme") st1
       = (Return h, noted st1 (Call "getTenantDB" (Str "acme")))
    /\ conn_uri h = "mongodb://localhost:27017/tenant_acme?retryWrites=true"
    /\ JsMap.get (connections (dbManager st1)) (Str "acme") = Some h
    /\ trace (world st1)
       = [ConsoleLog ["✅ Tenant database connected: tenant_acme"];
          CreateConnection (conn_uri h) pool_options;
          Call "getTenantDB" (Str "acme")].
Proof.
  assert (Hid : "acme" <> "") by discriminate.
  destruct (getTenantDB_reuses_handle "acme"
              (initial (sample_world never [acme])) Hid)
    as [Hhit Hmiss].
  destruct (Hmiss eq_refl eq_refl)
    as (h & st1 & E & _ & Huri & _ & Hget & _ & _ & _ & Htr).
  exists h, st1.
  split; [exact E|]. split; [exact (Hhit h st1 E)|].
  split; [exact Huri|]. split; [exact Hget | exact Htr].
Defined.

(** C10, on the three falsy identifiers. *)
Lemma getTenantDB_rejects_falsy_id_witness :
  fst (getTenantDB Null (serving never))
  = Throw {| message := "Tenant ID is required" |}
  /\ fst (getTenantDB Undefined (serving never))
     = Throw {| message := "Tenant ID is required" |}
  /\ fst (getTenantDB (Str "") (serving never))
     = Throw {| message := "Tenant ID is required" |}
  /\ connections (dbManager (snd (getTenantDB (Str "") (serving never))))
     = connections (dbManager (serving never)).
Proof.
  split; [|split; [|split]].
  - exact (f_equal fst
             (proj1 (getTenantDB_rejects_falsy_id Null (serving never)
                       eq_refl))).
  - exact (f_equal fst
             (proj1 (getTenantDB_rejects_falsy_id Undefined (serving never)
                       eq_refl))).
  - exact (f_equal fst
             (proj1 (getTenantDB_rejects_falsy_id (Str "") (serving never)
                       eq_refl))).
  - exact (proj1 (proj2 (getTenantDB_rejects_falsy_id (Str "") (serving never)
                           eq_refl))).
Defined.

(** C8, after a successful initialization, and after a failed one. *)
Lemma getMasterConnection_after_history_witness :
  fst (getMasterConnection
         (snd (initializeMasterDB (initial (sample_world never [])))))
  = Return {| conn_id := 0;
              conn_uri :=
                "mongodb://localhost:27017/master_tenant_db?retryWrites=true" |}
  /\ fst (getMasterConnection
            (snd (initializeMasterDB
                    (initial (sample_world (rejects_at 0 "ECONNREFUSED") [])))))
     = Throw {| message := "Master database not initialized" |}.
Proof.
  split.
  - exact (f_equal fst
             (proj1 (getMasterConnection_after_history
                       (snd (initializeMasterDB
                               (initial (sample_world never []))))
                       (Some {| conn_id := 0;
                                conn_uri :=
                                  "mongodb://localhost:27017/master_tenant_db?retryWrites=true" |})
                       (history_initialize_ok
                          (initial (sample_world never [])) None _ _
                          (history_new (sample_world never [])) eq_refl)))).
  - exact (f_equal fst
             (proj1 (getMasterConnection_after_history
                       (snd (initializeMasterDB
                               (initial (sample_world
                                           (rejects_at 0 "ECONNREFUSED") []))))
                       None
                       (history_initialize_failed
                          (initial (sample_world
                                      (rejects_at 0 "ECONNREFUSED") []))
                          None {| message := "ECONNREFUSED" |} _
                          (history_new
                             (sample_world (rejects_at 0 "ECONNREFUSED") []))
                          eq_refl)))).
Defined.

(* ===================================================================== *)
(** * More on the Tenant Resolver *)
(* ===================================================================== *)

Module ResolverMore.
Import StringFacts SplitFacts RegexFacts ResolverFacts.

Lemma not_dot_label (id : string) :
  id <> "" -> string_forall Regex.not_dot id = true ->
  string_forall no_colon id = true -> is_label id = true.
Proof.
  intros Hne Hd Hc; unfold is_label.
  apply String.eqb_neq in Hne; rewrite Hne; simpl.
  induction id as [|c id IH]; simpl in *; [reflexivity|].
  apply andb_true_iff in Hd as [Hd1 Hd]. apply andb_true_iff in Hc as [Hc1 Hc].
  destruct id as [|d id].
  - simpl. unfold label_char. unfold Regex.not_dot in Hd1; unfold no_colon in Hc1.
    now rewrite Hd1, Hc1.
  - rewrite IH by (assumption || reflexivity). unfold label_char.
    unfold Regex.not_dot in Hd1; unfold no_colon in Hc1. now rewrite Hd1, Hc1.
Qed.

(** What a successful resolution says of the cleaned host. *)
Lemma resolve_shape (s id : string) :
  resolve s = Some id ->
  id <> "" /\ id <> "www" /\ string_forall Regex.not_dot id = true
  /\ exists domain, In domain tenant_domains /\ s = id ++ String "." domain.
Proof.
  assert (Hone : forall re k domain,
    Regex.tail re = String "." domain -> In domain tenant_domains ->
    (forall id, k = Some id ->
       id <> "" /\ id <> "www" /\ string_forall Regex.not_dot id = true
       /\ exists domain, In domain tenant_domains
                         /\ s = id ++ String "." domain) ->
    forall id,
      match Regex.exec re s with
      | Some m1 => if negb (m1 =? "www") then Some m1 else k
      | None => k
      end = Some id ->
      id <> "" /\ id <> "www" /\ string_forall Regex.not_dot id = true
      /\ exists domain, In domain tenant_domains
                        /\ s = id ++ String "." domain).
  { intros re k domain Ht Hin Hk id0 H.
    destruct (Regex.exec re s) as [m1|] eqn:E; [|now apply Hk].
    destruct (m1 =? "www") eqn:Ew; simpl in H; [now apply Hk|].
    injection H as <-. apply String.eqb_neq in Ew.
    apply exec_sound in E as (Hne & Hd & Hs). rewrite Ht in Hs. eauto 6. }
  unfold resolve, devPatterns; cbn [check_patterns].
  apply (Hone _ _ "localhost"); [reflexivity | simpl; auto |].
  apply (Hone _ _ "lvh.me"); [reflexivity | simpl; auto |].
  apply (Hone _ _ "myapp.com"); [reflexivity | simpl; auto |].
  discriminate.
Qed.

(** A label in front of a dot and a domain resolves when the domain is one
    of the three, and only then. *)
Lemma resolve_label_domain (label domain : string) :
  is_label label = true ->
  resolve (label ++ String "." domain)
  = if ((domain =? "localhost") || (domain =? "lvh.me")
        || (domain =? "myapp.com")) && negb (label =? "www")
    then Some label else None.
Proof.
  intros Hl; unfold resolve, devPatterns, prodPattern; cbn [check_patterns].
  change ".localhost" with (String "." "localhost").
  change ".lvh.me" with (String "." "lvh.me").
  change ".myapp.com" with (String "." "myapp.com").
  rewrite !exec_label by assumption.
  destruct (String.eqb_spec domain "localhost") as [->|H1].
  - simpl. now destruct (label =? "www").
  - destruct (String.eqb_spec domain "lvh.me") as [->|H2].
    + simpl. now destruct (label =? "www").
    + destruct (String.eqb_spec domain "myapp.com") as [->|H3].
      * simpl. now destruct (label =? "www").
      * reflexivity.
Qed.

End ResolverMore.

(** X1.  The resolver returns [id] for a host string exactly when [id] is a
    label (not empty, no dot, no colon) other than [www] and the host, cut
    at its first colon, is [id] followed by a dot and one of [localhost],
    [lvh.me], [myapp.com]. *)
Theorem extractTenantFromHost_iff (s id : string) :
  extractTenantFromHost (Str s) = Some id
  <-> is_label id = true /\ id <> "www"
      /\ exists domain,
           In domain tenant_domains
           /\ clean_host s = id ++ String "." domain.
Proof.
  unfold clean_host; split.
  - intros H.
    destruct (String.eqb_spec s "") as [->|Hs]; [discriminate|].
    rewrite ResolverFacts.extract_resolve in H by assumption.
    pose proof (SplitFacts.first_no_colon s) as Hcolon.
    apply ResolverMore.resolve_shape in H
      as (Hne & Hwww & Hd & domain & Hin & E).
    split; [|split; [exact Hwww | now exists domain]].
    apply ResolverMore.not_dot_label; try assumption.
    rewrite E, StringFacts.forall_append in Hcolon.
    now apply andb_true_iff in Hcolon as [Hc _].
  - intros (Hl & Hwww & domain & Hin & E).
    assert (Hs : s <> "").
    { intros ->. simpl in E. destruct id; discriminate. }
    rewrite ResolverFacts.extract_resolve, E by assumption.
    rewrite ResolverMore.resolve_label_domain by assumption.
    apply String.eqb_neq in Hwww; rewrite Hwww.
    simpl in Hin.
    destruct Hin as [<-|[<-|[<-|[]]]]; reflexivity.
Qed.

(** X2.  A host whose first label is followed by anything but one of the
    three domains resolves to no tenant: deeper subdomains such as
    [api.acme.myapp.com], other domains, and the three domains written in
    another case. *)
Theorem extractTenantFromHost_other_domain (label domain sfx : string) :
  is_label label = true ->
  string_forall no_colon domain = true ->
  port_suffix sfx = true ->
  ~ In domain tenant_domains ->
  extractTenantFromHost (Str (label ++ String "." domain ++ sfx)) = None.
Proof.
  intros Hl Hd Hs Hout.
  rewrite ResolverFacts.extract_label_domain by assumption.
  rewrite ResolverMore.resolve_label_domain by assumption.
  destruct (String.eqb_spec domain "localhost") as [->|H1];
    [exfalso; apply Hout; simpl; auto|].
  destruct (String.eqb_spec domain "lvh.me") as [->|H2];
    [exfalso; apply Hout; simpl; auto|].
  destruct (String.eqb_spec domain "myapp.com") as [->|H3];
    [exfalso; apply Hout; simpl; auto|].
  reflexivity.
Qed.

(** X2 on a deeper subdomain, an upper-case domain and a foreign domain. *)
Lemma extractTenantFromHost_other_domain_witness :
  extractTenantFromHost (Str "api.acme.myapp.com:443") = None
  /\ extractTenantFromHost (Str "acme.LOCALHOST") = None
  /\ extractTenantFromHost (Str "acme.example.com") = None.
Proof.
  assert (Hout : forall d, (d =? "localhost") || (d =? "lvh.me")
                           || (d =? "myapp.com") = false ->
                           ~ In d tenant_domains).
  { intros d H [<-|[<-|[<-|[]]]]; discriminate. }
  split; [|split].
  - exact (extractTenantFromHost_other_domain "api" "acme.myapp.com" ":443"
             eq_refl eq_refl eq_refl (Hout "acme.myapp.com" eq_refl)).
  - exact (extractTenantFromHost_other_domain "acme" "LOCALHOST" ""
             eq_refl eq_refl eq_refl (Hout "LOCALHOST" eq_refl)).
  - exact (extractTenantFromHost_other_domain "acme" "example.com" ""
             eq_refl eq_refl eq_refl (Hout "example.com" eq_refl)).
Defined.

(** X1 on a development host with a port. *)
Lemma extractTenantFromHost_iff_witness :
  extractTenantFromHost (Str "acme.lvh.me:3000") = Some "acme".
Proof.
  apply (proj2 (extractTenantFromHost_iff "acme.lvh.me:3000" "acme")).
  split; [reflexivity|]. split; [discriminate|].
  exists "lvh.me"; split; [right; left|]; reflexivity.
Defined.

(* ===================================================================== *)
(** * More on the Connection Pool Registry *)
(* ===================================================================== *)

Module MapMore.
Import MapFacts.

Lemma same_value_sym (a b : jsval) : same_value a b = same_value b a.
Proof. destruct a, b; simpl; auto using String.eqb_sym. Qed.

Lemma get_some_differs {V} (m : JsMap.t V) (k k' : jsval) (v : V) :
  JsMap.get m k = None -> JsMap.get m k' = Some v -> same_value k k' = false.
Proof.
  intros Hk Hk'. destruct (same_value k k') eqn:E; [|reflexivity].
  apply same_value_eq in E; subst. rewrite Hk in Hk'; discriminate.
Qed.

Lemma get_delete_other {V} (m : JsMap.t V) (k k' : jsval) :
  same_value k k' = false ->
  JsMap.get (JsMap.delete m k) k' = JsMap.get m k'.
Proof.
  intros Hk; induction m as [|[k0 v0] m IH]; simpl; [reflexivity|].
  destruct (same_value k0 k) eqn:E; simpl.
  - apply same_value_eq in E; subst k0. now rewrite Hk.
  - now rewrite IH.
Qed.

Lemma get_delete_none {V} (m : JsMap.t V) (k k' : jsval) :
  JsMap.get m k' = None -> JsMap.get (JsMap.delete m k) k' = None.
Proof.
  induction m as [|[k0 v0] m IH]; simpl; [reflexivity|].
  destruct (same_value k0 k') eqn:E'; [discriminate|]. intros H.
  destruct (same_value k0 k); simpl; [exact H|]. now rewrite E', IH.
Qed.

Lemma get_delete_same {V} (m : JsMap.t V) (k : jsval) :
  unique_keys m -> JsMap.get (JsMap.delete m k) k = None.
Proof.
  induction m as [|[k0 v0] m IH]; simpl; [reflexivity|].
  intros [H0 Hu]. destruct (same_value k0 k) eqn:E; simpl.
  - apply same_value_eq in E; now subst.
  - rewrite E; now apply IH.
Qed.

Lemma unique_set {V} (m : JsMap.t V) (k : jsval) (v : V) :
  unique_keys m -> unique_keys (JsMap.set m k v).
Proof.
  induction m as [|[k0 v0] m IH]; simpl; [auto|].
  intros [H0 Hu]. destruct (same_value k0 k) eqn:E; simpl; [auto|].
  split; [|now apply IH].
  rewrite get_set_other; [exact H0|]. now rewrite same_value_sym.
Qed.

Lemma unique_delete {V} (m : JsMap.t V) (k : jsval) :
  unique_keys m -> unique_keys (JsMap.delete m k).
Proof.
  induction m as [|[k0 v0] m IH]; simpl; [auto|].
  intros [H0 Hu]. destruct (same_value k0 k); simpl; [exact Hu|].
  split; [now apply get_delete_none | now apply IH].
Qed.

Lemma forall_set {V} (P : jsval * V -> Prop) (m : JsMap.t V) (k : jsval)
  (v : V) :
  List.Forall P m -> P (k, v) -> List.Forall P (JsMap.set m k v).
Proof.
  intros Hm Hkv; induction Hm as [|[k0 v0] m H0 Hm IH]; simpl.
  - now constructor.
  - destruct (same_value k0 k) eqn:E.
    + apply same_value_eq in E; subst. now constructor.
    + now constructor.
Qed.

Lemma forall_delete {V} (P : jsval * V -> Prop) (m : JsMap.t V) (k : jsval) :
  List.Forall P m -> List.Forall P (JsMap.delete m k).
Proof.
  induction 1 as [|[k0 v0] m H0 Hm IH]; simpl; [constructor|].
  destruct (same_value k0 k); [exact Hm | now constructor].
Qed.

Lemma size_delete {V} (m : JsMap.t V) (k : jsval) (v : V) :
  JsMap.get m k = Some v ->
  S (JsMap.size (JsMap.delete m k)) = JsMap.size m.
Proof.
  unfold JsMap.size; induction m as [|[k0 v0] m IH]; simpl; [discriminate|].
  destruct (same_value k0 k); [reflexivity|].
  intros H; simpl; now rewrite IH.
Qed.

End MapMore.

Module RegistryMore.
Import MapFacts MapMore.

Lemma intact_ret {A} (a : A) : keeps_registry (ret a).
Proof. now intros st. Qed.

Lemma intact_throw {A} (e : Error) : keeps_registry (@throw A e).
Proof. now intros st. Qed.

Lemma intact_bind {A B} (m : M A) (k : A -> M B) :
  keeps_registry m -> (forall a, keeps_registry (k a)) ->
  keeps_registry (bind m k).
Proof.
  intros Hm Hk st; unfold bind; specialize (Hm st).
  destruct (m st) as [[a|e] st']; simpl in *; [|exact Hm].
  now rewrite Hk.
Qed.

Lemma intact_try_catch {A} (body : M A) (handler : Error -> M A) :
  keeps_registry body -> (forall e, keeps_registry (handler e)) ->
  keeps_registry (try_catch body handler).
Proof.
  intros Hb Hh st; unfold try_catch; specialize (Hb st).
  destruct (body st) as [[a|e] st']; simpl in *; [exact Hb|].
  now rewrite Hh.
Qed.

Lemma intact_emit (e : Event) : keeps_registry (emit e).
Proof. now intros st. Qed.

Lemma intact_driver_call {A} (e : Event) (result : nat -> World -> A) :
  keeps_registry (driver_call e result).
Proof.
  intros st; unfold driver_call.
  now destruct (fault (world st) (clock (world st))).
Qed.

Lemma intact_create_indexes c name indexes :
  keeps_registry (create_indexes c name indexes).
Proof.
  induction indexes as [|[f o] more IH]; simpl; [apply intact_ret|].
  apply intact_bind; [apply intact_driver_call | intros _; exact IH].
Qed.

Lemma intact_for_collections c cs : keeps_registry (for_collections c cs).
Proof.
  induction cs as [|[name ixs] more IH]; simpl; [apply intact_ret|].
  apply intact_bind; [apply intact_create_indexes | intros _; exact IH].
Qed.

Lemma intact_initializeTenantCollections c :
  keeps_registry (initializeTenantCollections c).
Proof.
  unfold initializeTenantCollections.
  apply intact_bind; [apply intact_emit | intros _].
  apply intact_try_catch.
  - apply intact_bind; [apply intact_for_collections | intros _; apply intact_emit].
  - intros e; apply intact_bind; [apply intact_emit | intros _; apply intact_throw].
Qed.

Lemma intact_getMasterConnection : keeps_registry getMasterConnection.
Proof.
  intros st; unfold getMasterConnection; run.
  now destruct (masterConnection (dbManager st)).
Qed.

Lemma intact_close_each entries : keeps_registry (close_each entries).
Proof.
  induction entries as [|[k c] more IH]; simpl; [apply intact_ret|].
  apply intact_bind; [apply intact_driver_call | intros _].
  apply intact_bind; [apply intact_emit | intros _; exact IH].
Qed.

Lemma manager_ext (d d' : DatabaseManager) :
  connections d' = connections d ->
  masterConnection d' = masterConnection d -> d' = d.
Proof. destruct d, d'; simpl; intros -> ->; reflexivity. Qed.

(** What [getTenantDB] can do to the registry: nothing, or set the new
    handle under the key that missed. *)
Lemma getTenantDB_registry (k : jsval) (st : State) :
  dbManager (snd (getTenantDB k st)) = dbManager st
  \/ (truthy k = true
      /\ JsMap.get (connections (dbManager st)) k = None
      /\ connections (dbManager (snd (getTenantDB k st)))
         = JsMap.set (connections (dbManager st)) k (fresh_tenant_handle k st)
      /\ masterConnection (dbManager (snd (getTenantDB k st)))
         = masterConnection (dbManager st)).
Proof.
  destruct (truthy k) eqn:Ht;
    [|left; now rewrite RegistryFacts.getTenantDB_falsy].
  destruct (JsMap.get (connections (dbManager st)) k) as [h|] eqn:Hget;
    [left; now rewrite (RegistryFacts.getTenantDB_hit _ _ _ Ht Hget)|].
  destruct (fault (world st) (clock (world st))) as [msg|] eqn:Hf.
  - destruct (RegistryFacts.getTenantDB_miss_fault _ _ _ Ht Hget Hf)
      as (st1 & E & Hdb).
    left; now rewrite E.
  - assert (Hok : call_ok st 0) by (unfold call_ok; now rewrite Nat.add_0_r).
    destruct (RegistryFacts.getTenantDB_miss _ _ Ht Hget Hok)
      as (st1 & E & Hc & Hm & _).
    right; rewrite E; simpl; auto.
Qed.

(** What [closeTenantConnection] can do to the registry: nothing, or delete
    the entry of the key. *)
Lemma closeTenantConnection_registry (k : jsval) (st : State) :
  dbManager (snd (closeTenantConnection k st)) = dbManager st
  \/ (connections (dbManager (snd (closeTenantConnection k st)))
      = JsMap.delete (connections (dbManager st)) k
      /\ masterConnection (dbManager (snd (closeTenantConnection k st)))
         = masterConnection (dbManager st)).
Proof.
  unfold closeTenantConnection; run.
  destruct (JsMap.get (connections (dbManager st)) k) as [h|]; run;
    [|now left].
  destruct (fault (world st) (clock (world st))); run; [now left|].
  right; split; reflexivity.
Qed.

(** What [closeAllConnections] can do to the registry: nothing, or empty
    the cache. *)
Lemma closeAllConnections_registry (st : State) :
  dbManager (snd (closeAllConnections st)) = dbManager st
  \/ (connections (dbManager (snd (closeAllConnections st))) = []
      /\ masterConnection (dbManager (snd (closeAllConnections st)))
         = masterConnection (dbManager st)).
Proof.
  unfold closeAllConnections; run.
  pose proof (intact_close_each (connections (dbManager st))
                (noted st (Call "closeAllConnections" Undefined))) as Hk.
  unfold noted in Hk.
  destruct (close_each (connections (dbManager st)) _) as [[[]|e] s1];
    cbn [snd fst dbManager] in *; [|now left].
  right.
  destruct (masterConnection (dbManager s1)) as [m|] eqn:Hm; run.
  - destruct (fault (world s1) (clock (world s1))); run;
      (split; [reflexivity|]); now rewrite <- Hk.
  - split; [reflexivity|]. now rewrite <- Hk.
Qed.

Lemma initializeMasterDB_registry (st : State) :
  connections (dbManager (snd (initializeMasterDB st)))
  = connections (dbManager st)
  /\ (masterConnection (dbManager (snd (initializeMasterDB st)))
      = masterConnection (dbManager st)
      \/ masterConnection (dbManager (snd (initializeMasterDB st)))
         = Some {| conn_id := clock (world st);
                   conn_uri := connection_string (MONGODB_URI (world st))
                                 masterDbName (MONGODB_OPTIONS (world st)) |}).
Proof.
  unfold initializeMasterDB; run.
  destruct (fault (world st) (clock (world st))); run; auto.
Qed.

Lemma createTenantDB_registry (k : jsval) (st : State) :
  dbManager (snd (createTenantDB k st))
  = dbManager (snd (getTenantDB k (noted st (Call "createTenantDB" k)))).
Proof.
  unfold createTenantDB, bind at 1, called, emit.
  fold (noted st (Call "createTenantDB" k)).
  unfold try_catch, bind at 1.
  destruct (getTenantDB k _) as [[h|e] s1]; [|reflexivity].
  unfold bind at 1.
  pose proof (intact_initializeTenantCollections h s1) as Hk.
  destruct (initializeTenantCollections h s1) as [[[]|e] s2]; simpl in *;
    exact Hk.
Qed.

End RegistryMore.

(** X3.  When the identifier is not cached and the connection attempt
    rejects, [getTenantDB] logs the failure and throws the driver's error
    on to its caller; nothing is cached under the identifier and the
    registry is as it was, so the next call tries again. *)
Theorem getTenantDB_failure_leaves_registry (k : jsval) (st : State)
  (msg : string) :
  truthy k = true ->
  JsMap.get (connections (dbManager st)) k = None ->
  fault (world st) (clock (world st)) = Some msg ->
  exists st1,
    getTenantDB k st = (Throw {| message := msg |}, st1)
    /\ dbManager st1 = dbManager st
    /\ JsMap.get (connections (dbManager st1)) k = None
    /\ clock (world st1) = S (clock (world st))
    /\ trace (world st1)
       = ConsoleError
           ["❌ Tenant database connection failed for " ++ to_string k ++ ":";
            msg]
         :: CreateConnection
              (connection_string (MONGODB_URI (world st))
                 ("tenant_" ++ to_string k) (MONGODB_OPTIONS (world st)))
              pool_options
         :: Call "getTenantDB" k :: trace (world st).
Proof.
  intros Ht Hget Hf.
  unfold getTenantDB; run.
  rewrite Ht; run; rewrite Hget; run; rewrite Hf.
  eexists; split; [reflexivity|]. run. repeat split. exact Hget.
Qed.

(** X3 on the first call for [acme] with the database unreachable. *)
Lemma getTenantDB_failure_leaves_registry_witness :
  exists st1,
    getTenantDB (Str "acme")
      (initial (sample_world (rejects_at 0 "ECONNREFUSED") []))
    = (Throw {| message := "ECONNREFUSED" |}, st1)
    /\ dbManager st1 = new_DatabaseManager.
Proof.
  destruct (getTenantDB_failure_leaves_registry (Str "acme")
              (initial (sample_world (rejects_at 0 "ECONNREFUSED") []))
              "ECONNREFUSED" eq_refl eq_refl eq_refl)
    as (st1 & E & Hdb & _).
  exists st1; split; assumption.
Defined.

(** X4.  [getTenantDB] never disturbs what is cached: a handle cached under
    any key before the call is cached under that key after it, whatever
    the identifier asked for and however the call ends; and the lookup of a
    key different from the identifier is unchanged. *)
Theorem getTenantDB_keeps_entries (k k' : jsval) (st : State) :
  (forall h,
      JsMap.get (connections (dbManager st)) k' = Some h ->
      JsMap.get (connections (dbManager (snd (getTenantDB k st)))) k' = Some h)
  /\ (same_value k k' = false ->
      JsMap.get (connections (dbManager (snd (getTenantDB k st)))) k'
      = JsMap.get (connections (dbManager st)) k')
  /\ masterConnection (dbManager (snd (getTenantDB k st)))
     = masterConnection (dbManager st).
Proof.
  destruct (RegistryMore.getTenantDB_registry k st)
    as [E|(Ht & Hmiss & Hc & Hm)].
  - rewrite E; repeat split; auto.
  - rewrite Hc, Hm; repeat split.
    + intros h Hh.
      rewrite MapFacts.get_set_other; [exact Hh|].
      exact (MapMore.get_some_differs _ _ _ _ Hmiss Hh).
    + intros Hd; now apply MapFacts.get_set_other.
Qed.

(** X4 on the process serving [acme] while [initech] connects. *)
Lemma getTenantDB_keeps_entries_witness :
  JsMap.get
    (connections (dbManager (snd (getTenantDB (Str "initech") (serving never)))))
    (Str "acme")
  = Some {| conn_id := 1;
            conn_uri :=
              "mongodb://localhost:27017/tenant_acme?retryWrites=true" |}.
Proof.
  exact (proj1 (getTenantDB_keeps_entries (Str "initech") (Str "acme")
                  (serving never)) _ eq_refl).
Defined.

(** X5.  With a handle cached under the identifier and a [close] that
    succeeds, [closeTenantConnection] closes that handle and evicts it: the
    identifier is no longer cached, the cache has one entry less, every
    other key and the master slot are as before. *)
Theorem closeTenantConnection_evicts (k : jsval) (st : State)
  (h : Connection) :
  unique_keys (connections (dbManager st)) ->
  JsMap.get (connections (dbManager st)) k = Some h ->
  call_ok st 0 ->
  exists st1,
    closeTenantConnection k st = (Return tt, st1)
    /\ JsMap.get (connections (dbManager st1)) k = None
    /\ (forall k', same_value k k' = false ->
                   JsMap.get (connections (dbManager st1)) k'
                   = JsMap.get (connections (dbManager st)) k')
    /\ S (JsMap.size (connections (dbManager st1)))
       = JsMap.size (connections (dbManager st))
    /\ masterConnection (dbManager st1) = masterConnection (dbManager st)
    /\ trace (world st1)
       = ConsoleLog ["✅ Tenant connection closed: " ++ to_string k]
         :: Close h :: Call "closeTenantConnection" k :: trace (world st).
Proof.
  unfold call_ok; rewrite Nat.add_0_r; intros Hu Hget Hok.
  unfold closeTenantConnection; run. rewrite Hget; run. rewrite Hok.
  eexists; split; [reflexivity|]. run. repeat split.
  - now apply MapMore.get_delete_same.
  - intros k' Hd; now apply MapMore.get_delete_other.
  - now apply (MapMore.size_delete _ _ h).
Qed.

(** X5 on the process serving [acme] and [globex]. *)
Lemma closeTenantConnection_evicts_witness :
  exists st1,
    closeTenantConnection (Str "acme") (serving never) = (Return tt, st1)
    /\ JsMap.get (connections (dbManager st1)) (Str "acme") = None
    /\ JsMap.size (connections (dbManager st1)) = 1.
Proof.
  assert (Hu : unique_keys (connections (dbManager (serving never))))
    by (simpl; auto).
  destruct (closeTenantConnection_evicts (Str "acme") (serving never) _
              Hu eq_refl eq_refl)
    as (st1 & E & Hget & _ & Hsize & _).
  exists st1. repeat split; [exact E | exact Hget |].
  now injection Hsize.
Defined.

(** X6.  [closeTenantConnection] leaves the registry as it is in two cases:
    when nothing is cached under the identifier, where it returns without
    calling the driver; and when the [close] rejects, where the error
    reaches the caller and the handle stays cached. *)
Theorem closeTenantConnection_unchanged (k : jsval) (st : State) :
  (JsMap.get (connections (dbManager st)) k = None ->
   closeTenantConnection k st
   = (Return tt, noted st (Call "closeTenantConnection" k)))
  /\ (forall h msg,
        JsMap.get (connections (dbManager st)) k = Some h ->
        fault (world st) (clock (world st)) = Some msg ->
        exists st1,
          closeTenantConnection k st = (Throw {| message := msg |}, st1)
          /\ dbManager st1 = dbManager st
          /\ trace (world st1)
             = Close h :: Call "closeTenantConnection" k :: trace (world st)).
Proof.
  split.
  - intros Hget. unfold closeTenantConnection; run. now rewrite Hget.
  - intros h msg Hget Hf.
    unfold closeTenantConnection; run. rewrite Hget; run. rewrite Hf.
    eexists; split; [reflexivity|]. now split.
Qed.

(** X6 on an identifier never connected, and on a rejecting [close]. *)
Lemma closeTenantConnection_unchanged_witness :
  closeTenantConnection (Str "initech") (serving never)
  = (Return tt,
     noted (serving never) (Call "closeTenantConnection" (Str "initech")))
  /\ exists st1,
       closeTenantConnection (Str "acme") (serving (rejects_at 3 "ECONNRESET"))
       = (Throw {| message := "ECONNRESET" |}, st1)
       /\ dbManager st1 = dbManager (serving (rejects_at 3 "ECONNRESET")).
Proof.
  split.
  - exact (proj1 (closeTenantConnection_unchanged (Str "initech")
                    (serving never)) eq_refl).
  - destruct (proj2 (closeTenantConnection_unchanged (Str "acme")
                       (serving (rejects_at 3 "ECONNRESET")))
                _ "ECONNRESET" eq_refl eq_refl)
      as (st1 & E & Hdb & _).
    exists st1; split; assumption.
Defined.

(** X7.  [initializeMasterDB] opens a new connection whatever the master
    slot holds: when the attempt succeeds the slot holds the new handle, on
    the database [master_tenant_db]; a handle that was in the slot is
    replaced without being closed, and the tenant cache is untouched. *)
Theorem initializeMasterDB_replaces_slot (st : State) :
  call_ok st 0 ->
  exists st1,
    initializeMasterDB st
    = (Return {| conn_id := clock (world st);
                 conn_uri := connection_string (MONGODB_URI (world st))
                               masterDbName (MONGODB_OPTIONS (world st)) |},
       st1)
    /\ masterConnection (dbManager st1)
       = Some {| conn_id := clock (world st);
                 conn_uri := connection_string (MONGODB_URI (world st))
                               masterDbName (MONGODB_OPTIONS (world st)) |}
    /\ connections (dbManager st1) = connections (dbManager st)
    /\ trace (world st1)
       = ConsoleLog ["✅ Master database connected: " ++ masterDbName]
         :: CreateConnection
              (connection_string (MONGODB_URI (world st)) masterDbName
                 (MONGODB_OPTIONS (world st)))
              pool_options
         :: Call "initializeMasterDB" Undefined :: trace (world st).
Proof.
  unfold call_ok; rewrite Nat.add_0_r; intros Hok.
  unfold initializeMasterDB; run. rewrite Hok.
  eexists; split; [reflexivity|]. now repeat split.
Qed.

(** X7 on a second initialization. *)
Lemma initializeMasterDB_replaces_slot_witness :
  masterConnection (dbManager (serving never))
  = Some {| conn_id := 0;
            conn_uri :=
              "mongodb://localhost:27017/master_tenant_db?retryWrites=true" |}
  /\ exists st1,
       masterConnection (dbManager st1)
       = Some {| conn_id := 3;
                 conn_uri :=
                   "mongodb://localhost:27017/master_tenant_db?retryWrites=true" |}
       /\ List.existsb is_close (trace (world st1)) = false
       /\ snd (initializeMasterDB (serving never)) = st1.
Proof.
  split; [reflexivity|].
  destruct (initializeMasterDB_replaces_slot (serving never) eq_refl)
    as (st1 & E & Hm & _ & Ht).
  exists st1. split; [exact Hm|]. split; [now rewrite Ht|].
  now rewrite E.
Defined.

Module EnvFacts.

Create HintDb env discriminated.

Lemma env_ret {A} (a : A) : keeps_env (ret a).
Proof. now intros uri options st. Qed.

Lemma env_throw {A} (e : Error) : keeps_env (@throw A e).
Proof. now intros uri options st. Qed.

Lemma env_bind {A B} (m : M A) (k : A -> M B) :
  keeps_env m -> (forall a, keeps_env (k a)) -> keeps_env (bind m k).
Proof.
  intros Hm Hk uri options st H; unfold bind.
  specialize (Hm uri options st H).
  destruct (m st) as [[a|e] st']; simpl in *; [|exact Hm].
  now apply Hk.
Qed.

Lemma env_try_catch {A} (body : M A) (handler : Error -> M A) :
  keeps_env body -> (forall e, keeps_env (handler e)) ->
  keeps_env (try_catch body handler).
Proof.
  intros Hb Hh uri options st H; unfold try_catch.
  specialize (Hb uri options st H).
  destruct (body st) as [[a|e] st']; simpl in *; [exact Hb|].
  now apply Hh.
Qed.

Lemma env_emit (e : Event) : keeps_env (emit e).
Proof. now intros uri options st. Qed.

Lemma env_driver_call {A} (e : Event) (result : nat -> World -> A) :
  keeps_env (driver_call e result).
Proof.
  intros uri options st H; unfold driver_call.
  now destruct (fault (world st) (clock (world st))).
Qed.

Lemma env_set_connections (m : JsMap.t Connection) :
  keeps_env (set_connections m).
Proof. now intros uri options st. Qed.

Lemma env_set_masterConnection (c : option Connection) :
  keeps_env (set_masterConnection c).
Proof. now intros uri options st. Qed.

Lemma env_this_connections : keeps_env this_connections.
Proof. now intros uri options st. Qed.

Lemma env_this_masterConnection : keeps_env this_masterConnection.
Proof. now intros uri options st. Qed.

Lemma env_process_env (var : World -> jsval) : keeps_env (process_env var).
Proof. now intros uri options st. Qed.

#[export] Hint Resolve env_ret env_throw env_emit env_driver_call
  env_set_connections env_set_masterConnection env_this_connections
  env_this_masterConnection env_process_env : env.

Ltac env :=
  repeat first
    [ progress (intros)
    | apply env_bind
    | apply env_try_catch
    | solve [unfold called, console_log, console_error, createConnection,
               close, createIndex, findOne; auto with env]
    | match goal with
      | |- keeps_env (match ?x with _ => _ end) => destruct x
      | |- keeps_env (if ?x then _ else _) => destruct x
      end ].

Lemma env_initializeMasterDB : keeps_env initializeMasterDB.
Proof. unfold initializeMasterDB; env. Qed.

Lemma env_getTenantDB (tenantId : jsval) : keeps_env (getTenantDB tenantId).
Proof. unfold getTenantDB; env. Qed.

Lemma env_create_indexes c name indexes :
  keeps_env (create_indexes c name indexes).
Proof. induction indexes as [|[f o] more IH]; simpl; env; try exact IH. Qed.

Lemma env_for_collections c cs : keeps_env (for_collections c cs).
Proof.
  induction cs as [|[name ixs] more IH]; simpl; env;
    first [apply env_create_indexes | exact IH].
Qed.

Lemma env_initializeTenantCollections c :
  keeps_env (initializeTenantCollections c).
Proof.
  unfold initializeTenantCollections; env; try apply env_for_collections.
Qed.

Lemma env_createTenantDB (tenantId : jsval) :
  keeps_env (createTenantDB tenantId).
Proof.
  unfold createTenantDB; env;
    first [apply env_getTenantDB | apply env_initializeTenantCollections].
Qed.

Lemma env_closeTenantConnection (tenantId : jsval) :
  keeps_env (closeTenantConnection tenantId).
Proof. unfold closeTenantConnection; env. Qed.

Lemma env_close_each entries : keeps_env (close_each entries).
Proof. induction entries as [|[k c] more IH]; simpl; env; try exact IH. Qed.

Lemma env_closeAllConnections : keeps_env closeAllConnections.
Proof. unfold closeAllConnections; env; try apply env_close_each. Qed.

Lemma env_getMasterConnection : keeps_env getMasterConnection.
Proof. unfold getMasterConnection; env. Qed.

(** The environment at the end of a history is the one it started with. *)
Lemma history_in_configured (uri options : jsval) (st : State)
  (last : option Connection) :
  history_in uri options st last -> configured uri options (world st).
Proof.
  induction 1 as [w Hw | st last w _ _ Hw | st last c st' _ IH Hinit
                 | st last e st' _ IH Hinit | st last id _ IH
                 | st last id _ IH | st last id _ IH | st last _ IH
                 | st last _ IH].
  - exact Hw.
  - exact Hw.
  - pose proof (env_initializeMasterDB _ _ _ IH) as H; now rewrite Hinit in H.
  - pose proof (env_initializeMasterDB _ _ _ IH) as H; now rewrite Hinit in H.
  - now apply env_getTenantDB.
  - now apply env_createTenantDB.
  - now apply env_closeTenantConnection.
  - now apply env_closeAllConnections.
  - now apply env_getMasterConnection.
Qed.

(** A history with a fixed environment is a history. *)
Lemma history_in_history (uri options : jsval) (st : State)
  (last : option Connection) :
  history_in uri options st last -> history st last.
Proof.
  induction 1; eauto using history.
Qed.

End EnvFacts.

Module InvariantFacts.
Import MapMore RegistryMore.

Lemma registry_ok_getTenantDB (uri options k : jsval) (st : State) :
  configured uri options (world st) ->
  registry_ok uri options (dbManager st) ->
  registry_ok uri options (dbManager (snd (getTenantDB k st))).
Proof.
  intros [Hu0 Ho0] (Hu & Hf & Hm).
  destruct (getTenantDB_registry k st) as [E|(Ht & Hmiss & Hc & Hmc)].
  - now rewrite E.
  - unfold registry_ok; rewrite Hc, Hmc; repeat split.
    + now apply unique_set.
    + apply forall_set; [exact Hf|]. split; [exact Ht|].
      unfold tenant_database; simpl. now rewrite Hu0, Ho0.
    + exact Hm.
Qed.

Lemma registry_ok_initializeMasterDB (uri options : jsval) (st : State) :
  configured uri options (world st) ->
  registry_ok uri options (dbManager st) ->
  registry_ok uri options (dbManager (snd (initializeMasterDB st))).
Proof.
  intros [Hu0 Ho0] (Hu & Hf & Hmo).
  destruct (initializeMasterDB_registry st) as [Hc Hm].
  unfold registry_ok; rewrite Hc; repeat split; try assumption.
  intros m Hs. destruct Hm as [Hm|Hm]; rewrite Hm in Hs.
  - now apply Hmo.
  - injection Hs as <-. unfold master_database; simpl. now rewrite Hu0, Ho0.
Qed.

(** X8 by induction on the history. *)
Lemma history_registry_ok_aux (uri options : jsval) (st : State)
  (last : option Connection) :
  history_in uri options st last -> registry_ok uri options (dbManager st).
Proof.
  induction 1 as [w Hw | st last w _ IH Hw | st last c st' Hh IH Hinit
                 | st last e st' Hh IH Hinit | st last id Hh IH
                 | st last id Hh IH | st last id _ IH | st last _ IH
                 | st last _ IH].
  - repeat split; [constructor | discriminate].
  - exact IH.
  - apply EnvFacts.history_in_configured in Hh.
    pose proof (registry_ok_initializeMasterDB _ _ _ Hh IH) as H.
    now rewrite Hinit in H.
  - apply EnvFacts.history_in_configured in Hh.
    pose proof (registry_ok_initializeMasterDB _ _ _ Hh IH) as H.
    now rewrite Hinit in H.
  - apply registry_ok_getTenantDB; [|exact IH].
    now apply EnvFacts.history_in_configured in Hh.
  - rewrite createTenantDB_registry.
    apply (registry_ok_getTenantDB uri options id
             (noted st (Call "createTenantDB" id))); [|exact IH].
    now apply EnvFacts.history_in_configured in Hh.
  - destruct IH as (Hu & Hf & Hmo).
    destruct (closeTenantConnection_registry id st) as [E|[Hc Hm]].
    + rewrite E; now repeat split.
    + unfold registry_ok; rewrite Hc, Hm; repeat split;
        [now apply unique_delete | now apply forall_delete | exact Hmo].
  - destruct IH as (Hu & Hf & Hmo).
    destruct (closeAllConnections_registry st) as [E|[Hc Hm]].
    + rewrite E; now repeat split.
    + unfold registry_ok; rewrite Hc, Hm; repeat split;
        [constructor | exact Hmo].
  - now rewrite intact_getMasterConnection.
Qed.

End InvariantFacts.

(** X8.  Take a process whose environment holds [uri] and [options], which
    the program never assigns.  In every state its registry can be in, the
    cache holds at most one entry per key, every key is a truthy
    identifier, the handle cached under a key [k] was opened on the
    database named [tenant_] followed by [k], its address being exactly
    [uri], [tenant_], [k], a question mark and [options], and a handle in
    the master slot was opened on [master_tenant_db], at exactly [uri],
    [master_tenant_db], a question mark and [options]. *)
Theorem history_registry_ok (uri options : jsval) (st : State)
  (last : option Connection) :
  history_in uri options st last ->
  unique_keys (connections (dbManager st))
  /\ (forall k h,
        JsMap.get (connections (dbManager st)) k = Some h ->
        truthy k = true
        /\ conn_uri h
           = to_string uri ++ "tenant_" ++ to_string k ++ "?"
             ++ to_string options)
  /\ (forall m,
        masterConnection (dbManager st) = Some m ->
        conn_uri m
        = to_string uri ++ "master_tenant_db" ++ "?" ++ to_string options).
Proof.
  intros H; apply InvariantFacts.history_registry_ok_aux in H
    as (Hu & Hf & Hm).
  split; [exact Hu|]. split; [|exact Hm].
  clear Hu Hm. induction Hf as [|[k0 v0] m [H0 H0'] Hf IH]; intros k h;
    simpl; [discriminate|].
  destruct (same_value k0 k) eqn:E; [|now apply IH].
  apply MapFacts.same_value_eq in E; subst k0.
  intros [= <-]. split; [exact H0|].
  exact H0'.
Qed.

(** X8 on the process serving [acme] and [globex]. *)
Lemma history_registry_ok_witness :
  conn_uri {| conn_id := 2;
              conn_uri :=
                "mongodb://localhost:27017/tenant_globex?retryWrites=true" |}
  = to_string (Str "mongodb://localhost:27017/") ++ "tenant_"
    ++ to_string (Str "globex") ++ "?" ++ to_string (Str "retryWrites=true").
Proof.
  assert (Hinit : initializeMasterDB (initial (sample_world never [acme]))
                  = (Return (master_handle_for
                               (initial (sample_world never [acme]))),
                     snd (initializeMasterDB
                            (initial (sample_world never [acme])))))
    by (vm_compute; reflexivity).
  assert (Hw : configured (Str "mongodb://localhost:27017/")
                 (Str "retryWrites=true") (sample_world never [acme]))
    by (split; reflexivity).
  assert (H : history_in (Str "mongodb://localhost:27017/")
                (Str "retryWrites=true") (serving never)
                (Some (master_handle_for
                         (initial (sample_world never [acme]))))).
  { unfold serving.
    apply history_in_getTenantDB, history_in_getTenantDB.
    exact (history_in_initialize_ok _ _ _ None _ _
             (history_in_new _ _ (sample_world never [acme]) Hw) Hinit). }
  assert (Hget : JsMap.get (connections (dbManager (serving never)))
                   (Str "globex")
                 = Some {| conn_id := 2;
                           conn_uri :=
                             "mongodb://localhost:27017/tenant_globex?retryWrites=true" |})
    by (vm_compute; reflexivity).
  exact (proj2 (proj1 (proj2 (history_registry_ok _ _ _ _ H))
                  (Str "globex") _ Hget)).
Defined.

Module IndexFacts.

Lemma issue_all_app (a b : list Event) (st : State) :
  issue_all (a ++ b)%list st = bind (issue_all a) (fun _ => issue_all b) st.
Proof.
  revert st; induction a as [|e a IH]; intros st; simpl.
  - unfold bind, ret; reflexivity.
  - unfold bind in *.
    destruct (driver_call e (fun _ _ => tt) st) as [[[]|err] s1];
      [apply IH | reflexivity].
Qed.

Lemma create_indexes_flat c name indexes st :
  create_indexes c name indexes st
  = issue_all (List.map (fun ix => CreateIndex c name (fst ix) (snd ix))
                 indexes) st.
Proof.
  revert st; induction indexes as [|[f o] more IH]; intros st; simpl;
    [reflexivity|].
  unfold bind, createIndex.
  destruct (driver_call _ _ st) as [[[]|err] s1]; [apply IH | reflexivity].
Qed.

Lemma for_collections_flat c cs st :
  for_collections c cs st
  = issue_all
      (List.flat_map
         (fun entry =>
            List.map (fun ix => CreateIndex c (fst entry) (fst ix) (snd ix))
                     (snd entry)) cs) st.
Proof.
  revert st; induction cs as [|[name ixs] more IH]; intros st; simpl;
    [reflexivity|].
  rewrite issue_all_app. unfold bind.
  rewrite create_indexes_flat.
  destruct (issue_all _ st) as [[[]|err] s1]; [apply IH | reflexivity].
Qed.

(** Driver calls that all succeed. *)
Lemma issue_all_ok (evs : list Event) :
  forall st,
    calls_ok st (List.length evs) ->
    exists st',
      issue_all evs st = (Return tt, st')
      /\ dbManager st' = dbManager st
      /\ fault (world st') = fault (world st)
      /\ clock (world st') = clock (world st) + List.length evs
      /\ trace (world st') = (List.rev evs ++ trace (world st))%list.
Proof.
  induction evs as [|e evs IH]; intros st Hok.
  - exists st; simpl; repeat split; auto using Nat.add_0_r.
  - cbn [issue_all]; run.
    assert (H0 : fault (world st) (clock (world st)) = None).
    { specialize (Hok 0); unfold call_ok in Hok; rewrite Nat.add_0_r in Hok.
      apply Hok; simpl; lia. }
    rewrite H0.
    match goal with
    | |- context [issue_all evs ?s] =>
        destruct (IH s) as (st' & E & Hdb & Hf & Hc & Ht)
    end.
    { apply (TeardownFacts.calls_ok_next st);
        [exact Hok | reflexivity | reflexivity]. }
    rewrite E. exists st'; split; [reflexivity|].
    cbn [dbManager world record_event tick clock fault trace] in *.
    repeat split; try assumption.
    + rewrite Hc; simpl; lia.
    + rewrite Ht; simpl. now rewrite <- List.app_assoc.
Qed.

(** Driver calls of which number [j] is the first to reject. *)
Lemma issue_all_fault (evs : list Event) :
  forall j st msg,
    j < List.length evs ->
    calls_ok st j ->
    fault (world st) (clock (world st) + j) = Some msg ->
    exists st',
      issue_all evs st = (Throw {| message := msg |}, st')
      /\ dbManager st' = dbManager st
      /\ clock (world st') = clock (world st) + S j
      /\ trace (world st')
         = (List.rev (List.firstn (S j) evs) ++ trace (world st))%list.
Proof.
  induction evs as [|e evs IH]; intros j st msg Hj Hok Hf; [simpl in Hj; lia|].
  cbn [issue_all]; run. destruct j as [|j].
  - rewrite Nat.add_0_r in Hf. rewrite Hf.
    eexists; split; [reflexivity|]. run. repeat split. lia.
  - assert (H0 : fault (world st) (clock (world st)) = None).
    { specialize (Hok 0); unfold call_ok in Hok; rewrite Nat.add_0_r in Hok.
      apply Hok; lia. }
    rewrite H0.
    match goal with
    | |- context [issue_all evs ?s] =>
        destruct (IH j s msg) as (st' & E & Hdb & Hc & Ht)
    end.
    { simpl in Hj; lia. }
    { apply (TeardownFacts.calls_ok_next st);
        [exact Hok | reflexivity | reflexivity]. }
    { cbn [world tick record_event clock fault].
      now rewrite <- Nat.add_succ_comm in Hf. }
    rewrite E. exists st'; split; [reflexivity|].
    cbn [dbManager world record_event tick clock fault trace] in *.
    repeat split; try assumption.
    + rewrite Hc; lia.
    + rewrite Ht. cbn [List.firstn List.rev]. now rewrite <- !List.app_assoc.
Qed.

Lemma index_events_length c : List.length (index_events c) = 23.
Proof. reflexivity. Qed.

Lemma collections_ok (c : Connection) (st : State) :
  calls_ok st 23 ->
  exists st1,
    initializeTenantCollections c st = (Return tt, st1)
    /\ dbManager st1 = dbManager st
    /\ clock (world st1) = clock (world st) + 23
    /\ trace (world st1)
       = (ConsoleLog ["✅ Tenant collections and indexes initialized"]
            :: List.rev (index_events c)
            ++ Call "initializeTenantCollections" Undefined
            :: trace (world st))%list.
Proof.
  intros Hok.
  destruct (issue_all_ok (index_events c)
              (noted st (Call "initializeTenantCollections" Undefined)) Hok)
    as (st' & E & Hdb & Hf & Hc & Ht).
  unfold initializeTenantCollections; run.
  rewrite for_collections_flat. fold (index_events c).
  unfold noted in E; rewrite E; run.
  eexists; split; [reflexivity|]. run.
  split; [exact Hdb|]. split; [exact Hc|]. now rewrite Ht.
Qed.

Lemma collections_fault (c : Connection)
  (st : State) (j : nat) (msg : string) :
  j < 23 ->
  calls_ok st j ->
  fault (world st) (clock (world st) + j) = Some msg ->
  exists st1,
    initializeTenantCollections c st = (Throw {| message := msg |}, st1)
    /\ dbManager st1 = dbManager st
    /\ clock (world st1) = clock (world st) + S j
    /\ trace (world st1)
       = (ConsoleError
            ["❌ Failed to initialize tenant collections:"; msg]
            :: List.rev (List.firstn (S j) (index_events c))
            ++ Call "initializeTenantCollections" Undefined
            :: trace (world st))%list.
Proof.
  intros Hj Hok Hf.
  destruct (issue_all_fault (index_events c) j
              (noted st (Call "initializeTenantCollections" Undefined)) msg
              Hj Hok Hf)
    as (st' & E & Hdb & Hc & Ht).
  unfold initializeTenantCollections; run.
  rewrite for_collections_flat. fold (index_events c).
  unfold noted in E; rewrite E; run.
  eexists; split; [reflexivity|]. run.
  split; [exact Hdb|]. split; [exact Hc|]. now rewrite Ht.
Qed.

End IndexFacts.

(** X9.  When none of its calls rejects, [initializeTenantCollections]
    issues the 23 [createIndex] calls of its table, in table order and all
    on the connection it was given, logs the success and returns; it does
    nothing to the registry. *)
Theorem initializeTenantCollections_creates_all (c : Connection) (st : State) :
  calls_ok st 23 ->
  exists st1,
    initializeTenantCollections c st = (Return tt, st1)
    /\ dbManager st1 = dbManager st
    /\ clock (world st1) = clock (world st) + 23
    /\ trace (world st1)
       = (ConsoleLog ["✅ Tenant collections and indexes initialized"]
            :: List.rev (index_events c)
            ++ Call "initializeTenantCollections" Undefined
            :: trace (world st))%list.
Proof.
  intros Hok.
  destruct (IndexFacts.issue_all_ok (index_events c)
              (noted st (Call "initializeTenantCollections" Undefined)) Hok)
    as (st' & E & Hdb & Hf & Hc & Ht).
  unfold initializeTenantCollections; run.
  rewrite IndexFacts.for_collections_flat. fold (index_events c).
  unfold noted in E; rewrite E; run.
  eexists; split; [reflexivity|]. run.
  split; [exact Hdb|]. split; [exact Hc|]. now rewrite Ht.
Qed.

(** X9 on a fresh connection in a world without rejections. *)
Lemma initializeTenantCollections_creates_all_witness :
  exists st1,
    initializeTenantCollections
      {| conn_id := 1; conn_uri := "mongodb://localhost:27017/tenant_acme?" |}
      (serving never)
    = (Return tt, st1)
    /\ clock (world st1) = 26.
Proof.
  destruct (initializeTenantCollections_creates_all
              {| conn_id := 1;
                 conn_uri := "mongodb://localhost:27017/tenant_acme?" |}
              (serving never) (fun i _ => eq_refl))
    as (st1 & E & _ & Hc & _).
  exists st1; split; [exact E | exact Hc].
Defined.

(** X10.  When one of its [createIndex] calls rejects,
    [initializeTenantCollections] stops there: the indexes after it in the
    table are not attempted, the failure is logged and the driver's error
    is thrown on to the caller. *)
Theorem initializeTenantCollections_stops_at_failure (c : Connection)
  (st : State) (j : nat) (msg : string) :
  j < 23 ->
  calls_ok st j ->
  fault (world st) (clock (world st) + j) = Some msg ->
  exists st1,
    initializeTenantCollections c st = (Throw {| message := msg |}, st1)
    /\ dbManager st1 = dbManager st
    /\ clock (world st1) = clock (world st) + S j
    /\ trace (world st1)
       = (ConsoleError
            ["❌ Failed to initialize tenant collections:"; msg]
            :: List.rev (List.firstn (S j) (index_events c))
            ++ Call "initializeTenantCollections" Undefined
            :: trace (world st))%list.
Proof.
  intros Hj Hok Hf.
  destruct (IndexFacts.issue_all_fault (index_events c) j
              (noted st (Call "initializeTenantCollections" Undefined)) msg
              Hj Hok Hf)
    as (st' & E & Hdb & Hc & Ht).
  unfold initializeTenantCollections; run.
  rewrite IndexFacts.for_collections_flat. fold (index_events c).
  unfold noted in E; rewrite E; run.
  eexists; split; [reflexivity|]. run.
  split; [exact Hdb|]. split; [exact Hc|]. now rewrite Ht.
Qed.

(** X10 with the third [createIndex] rejecting. *)
Lemma initializeTenantCollections_stops_at_failure_witness :
  exists st1,
    initializeTenantCollections
      {| conn_id := 1; conn_uri := "mongodb://localhost:27017/tenant_acme?" |}
      (serving (rejects_at 5 "ETIMEDOUT"))
    = (Throw {| message := "ETIMEDOUT" |}, st1)
    /\ clock (world st1) = 6.
Proof.
  assert (Hj : 2 < 23) by lia.
  assert (Hok : calls_ok (serving (rejects_at 5 "ETIMEDOUT")) 2).
  { intros i Hi. destruct i as [|[|i]]; [reflexivity | reflexivity | lia]. }
  destruct (initializeTenantCollections_stops_at_failure
              {| conn_id := 1;
                 conn_uri := "mongodb://localhost:27017/tenant_acme?" |}
              (serving (rejects_at 5 "ETIMEDOUT")) 2 "ETIMEDOUT"
              Hj Hok eq_refl)
    as (st1 & E & _ & Hc & _).
  exists st1; split; [exact E | exact Hc].
Defined.

Module CreateFacts.
Import RegistryMore.

Lemma calls_ok_shift (st st' : State) (n m : nat) :
  calls_ok st (n + m) ->
  fault (world st') = fault (world st) ->
  clock (world st') = clock (world st) + n ->
  calls_ok st' m.
Proof.
  unfold calls_ok, call_ok; intros H Hf Hc i Hi.
  rewrite Hf, Hc, <- Nat.add_assoc. apply H; lia.
Qed.

(** The state a cache miss of [getTenantDB] leaves when the connection
    attempt succeeds, as far as the world goes. *)
Lemma getTenantDB_miss_world (k : jsval) (st : State) :
  truthy k = true ->
  JsMap.get (connections (dbManager st)) k = None ->
  call_ok st 0 ->
  exists st1,
    getTenantDB k st = (Return (fresh_tenant_handle k st), st1)
    /\ JsMap.get (connections (dbManager st1)) k
       = Some (fresh_tenant_handle k st)
    /\ fault (world st1) = fault (world st)
    /\ clock (world st1) = clock (world st) + 1.
Proof.
  unfold call_ok; rewrite Nat.add_0_r; intros Ht Hget Hok.
  unfold getTenantDB; run.
  rewrite Ht; run; rewrite Hget; run; rewrite Hok.
  eexists; split; [reflexivity|]. run.
  split; [apply MapFacts.get_set_same|]. split; [reflexivity | lia].
Qed.

(** Whatever [createTenantDB] returns was returned by its call of
    [getTenantDB], and is cached when it ends. *)
Lemma createTenantDB_returned_is_cached (k : jsval) (st st1 : State)
  (h : Connection) :
  createTenantDB k st = (Return h, st1) ->
  truthy k = true /\ JsMap.get (connections (dbManager st1)) k = Some h.
Proof.
  unfold createTenantDB, bind at 1, called, emit.
  fold (noted st (Call "createTenantDB" k)).
  unfold try_catch, bind at 1.
  destruct (getTenantDB k _) as [[h0|e] s1] eqn:Eg; [|discriminate].
  apply RegistryFacts.getTenantDB_returned_is_cached in Eg as [Ht Hget].
  unfold bind at 1.
  pose proof (intact_initializeTenantCollections h0 s1) as Hk.
  destruct (initializeTenantCollections h0 s1) as [[[]|e] s2]; simpl in Hk;
    [|discriminate].
  run. intros [= <- <-]. split; [exact Ht|]. simpl. now rewrite Hk.
Qed.

End CreateFacts.

(** X11.  The handle [createTenantDB] returns is the cached one: a call of
    [getTenantDB] for the same identifier right after it returns that same
    handle without calling the driver.  For an identifier not yet cached,
    with the connection attempt and the 23 index creations succeeding,
    [createTenantDB] does return, and what it returns is the new handle on
    the database named [tenant_] followed by the identifier. *)
Theorem createTenantDB_then_getTenantDB (k : jsval) (st : State) :
  (forall h st1,
      createTenantDB k st = (Return h, st1) ->
      getTenantDB k st1 = (Return h, noted st1 (Call "getTenantDB" k)))
  /\ (truthy k = true ->
      JsMap.get (connections (dbManager st)) k = None ->
      calls_ok st 24 ->
      exists st1,
        createTenantDB k st = (Return (fresh_tenant_handle k st), st1)
        /\ JsMap.get (connections (dbManager st1)) k
           = Some (fresh_tenant_handle k st)
        /\ clock (world st1) = clock (world st) + 24).
Proof.
  split.
  - intros h st1 H.
    apply CreateFacts.createTenantDB_returned_is_cached in H as [Ht Hget].
    now apply RegistryFacts.getTenantDB_hit.
  - intros Ht Hget Hok.
    destruct (CreateFacts.getTenantDB_miss_world k
                (noted st (Call "createTenantDB" k)) Ht Hget)
      as (s1 & Eg & Hc1 & Hf1 & Hk1).
    { apply (Hok 0); lia. }
    destruct (IndexFacts.collections_ok
                (fresh_tenant_handle k (noted st (Call "createTenantDB" k))) s1)
      as (s2 & Ei & Hdb & Hk2 & _).
    { apply (CreateFacts.calls_ok_shift st s1 1 23);
        [exact Hok | exact Hf1 | exact Hk1]. }
    unfold createTenantDB, bind at 1, called, emit.
    fold (noted st (Call "createTenantDB" k)).
    unfold try_catch, bind at 1. rewrite Eg.
    unfold bind at 1. rewrite Ei. run.
    eexists; split; [reflexivity|]. run.
    rewrite Hdb, Hk2, Hk1. split; [exact Hc1 | simpl; lia].
Qed.

(** X11 on the creation of the tenant [initech]. *)
Lemma createTenantDB_then_getTenantDB_witness :
  exists h st1,
    createTenantDB (Str "initech") (serving never) = (Return h, st1)
    /\ getTenantDB (Str "initech") st1
       = (Return h, noted st1 (Call "getTenantDB" (Str "initech")))
    /\ conn_uri h = "mongodb://localhost:27017/tenant_initech?retryWrites=true".
Proof.
  destruct (createTenantDB_then_getTenantDB (Str "initech") (serving never))
    as [Hthen Hnew].
  destruct (Hnew eq_refl eq_refl (fun i _ => eq_refl)) as (st1 & E & _).
  exists (fresh_tenant_handle (Str "initech") (serving never)), st1.
  split; [exact E|]. split; [exact (Hthen _ _ E) | reflexivity].
Defined.

(** X12.  When the connection of a new tenant succeeds but one of the index
    creations rejects, [createTenantDB] throws the driver's error, and yet
    the new handle stays in the cache: a later [getTenantDB] for the
    identifier returns it, for a database whose indexes were not all
    created. *)
Theorem createTenantDB_failure_keeps_handle (k : jsval) (st : State)
  (j : nat) (msg : string) :
  truthy k = true ->
  JsMap.get (connections (dbManager st)) k = None ->
  j < 23 ->
  calls_ok st (S j) ->
  fault (world st) (clock (world st) + S j) = Some msg ->
  exists st1,
    createTenantDB k st = (Throw {| message := msg |}, st1)
    /\ JsMap.get (connections (dbManager st1)) k
       = Some (fresh_tenant_handle k st)
    /\ getTenantDB k st1
       = (Return (fresh_tenant_handle k st),
          noted st1 (Call "getTenantDB" k)).
Proof.
  intros Ht Hget Hj Hok Hf.
  destruct (CreateFacts.getTenantDB_miss_world k
              (noted st (Call "createTenantDB" k)) Ht Hget)
    as (s1 & Eg & Hc1 & Hf1 & Hk1).
  { apply (Hok 0); lia. }
  destruct (IndexFacts.collections_fault
              (fresh_tenant_handle k (noted st (Call "createTenantDB" k)))
              s1 j msg Hj)
    as (s2 & Ei & Hdb & _).
  { apply (CreateFacts.calls_ok_shift st s1 1 j);
      [exact Hok | exact Hf1 | exact Hk1]. }
  { rewrite Hf1, Hk1. simpl in Hk1 |- *.
    now replace (clock (world st) + 1 + j) with (clock (world st) + S j)
      by lia. }
  unfold createTenantDB, bind at 1, called, emit.
  fold (noted st (Call "createTenantDB" k)).
  unfold try_catch, bind at 1. rewrite Eg.
  unfold bind at 1. rewrite Ei. run.
  eexists; split; [reflexivity|]. run.
  assert (Hcached : JsMap.get (connections (dbManager s2)) k
                    = Some (fresh_tenant_handle k st))
    by (rewrite Hdb; exact Hc1).
  split; [exact Hcached|].
  now apply RegistryFacts.getTenantDB_hit.
Qed.

(** X12 with the first index creation of [initech] rejecting. *)
Lemma createTenantDB_failure_keeps_handle_witness :
  exists st1,
    createTenantDB (Str "initech") (serving (rejects_at 4 "ETIMEDOUT"))
    = (Throw {| message := "ETIMEDOUT" |}, st1)
    /\ JsMap.get (connections (dbManager st1)) (Str "initech")
       = Some {| conn_id := 3;
                 conn_uri :=
                   "mongodb://localhost:27017/tenant_initech?retryWrites=true" |}.
Proof.
  assert (Hj : 0 < 23) by lia.
  assert (Hok : calls_ok (serving (rejects_at 4 "ETIMEDOUT")) 1).
  { intros i Hi. destruct i as [|i]; [reflexivity | lia]. }
  destruct (createTenantDB_failure_keeps_handle (Str "initech")
              (serving (rejects_at 4 "ETIMEDOUT")) 0 "ETIMEDOUT"
              eq_refl eq_refl Hj Hok eq_refl)
    as (st1 & E & Hget & _).
  exists st1; split; [exact E | exact Hget].
Defined.

Module TeardownMore.

Lemma closed_events_closes (entries : JsMap.t Connection) (c : Connection) :
  In (Close c) (closed_events entries) <-> In c (JsMap.values entries).
Proof.
  unfold JsMap.values; induction entries as [|[k c0] more IH]; simpl;
    [tauto|].
  rewrite List.in_app_iff, IH; simpl. split.
  - intros [H|[H|[H|[]]]]; [now right | discriminate | left; congruence].
  - intros [<-|H]; [right; right; left; reflexivity | now left].
Qed.

End TeardownMore.

(** X13.  When the master slot holds a handle and no [close] rejects,
    [closeAllConnections] closes every cached tenant handle, in the order
    in which they were cached, then the master handle, each exactly once,
    and leaves an empty cache. *)
Theorem closeAllConnections_closes_all (st : State) (m : Connection) :
  masterConnection (dbManager st) = Some m ->
  calls_ok st (S (JsMap.size (connections (dbManager st)))) ->
  exists st1,
    closeAllConnections st = (Return tt, st1)
    /\ connections (dbManager st1) = []
    /\ clock (world st1)
       = clock (world st) + S (JsMap.size (connections (dbManager st)))
    /\ trace (world st1)
       = (ConsoleLog ["✅ Master connection closed"]
            :: Close m
            :: closed_events (connections (dbManager st))
            ++ Call "closeAllConnections" Undefined :: trace (world st))%list
    /\ (forall c, In (Close c) (closed_events (connections (dbManager st)))
                  <-> In c (JsMap.values (connections (dbManager st)))).
Proof.
  intros Hm Hok.
  destruct (TeardownFacts.close_each_ok (connections (dbManager st))
              (noted st (Call "closeAllConnections" Undefined)))
    as (s1 & E & Hdb & Hf & Hc & Ht).
  { intros i Hi; apply (Hok i). unfold JsMap.size; lia. }
  cbn [noted dbManager world record_event clock fault trace] in Hdb, Hf, Hc, Ht.
  assert (Hlast : fault (world s1) (clock (world s1)) = None).
  { rewrite Hf, Hc. apply (Hok (List.length (connections (dbManager st)))).
    unfold JsMap.size; lia. }
  unfold closeAllConnections; run.
  unfold noted in E; rewrite E; run.
  rewrite Hdb, Hm; run. rewrite Hlast.
  eexists; split; [reflexivity|]. run.
  split; [reflexivity|]. split; [rewrite Hc; simpl; unfold JsMap.size; lia|].
  split; [now rewrite Ht|]. apply TeardownMore.closed_events_closes.
Qed.

(** X13 on the process serving [acme] and [globex]. *)
Lemma closeAllConnections_closes_all_witness :
  exists st1,
    closeAllConnections (serving never) = (Return tt, st1)
    /\ List.filter is_close (trace (world st1))
       = [Close {| conn_id := 0;
                   conn_uri :=
                     "mongodb://localhost:27017/master_tenant_db?retryWrites=true" |};
          Close {| conn_id := 2;
                   conn_uri :=
                     "mongodb://localhost:27017/tenant_globex?retryWrites=true" |};
          Close {| conn_id := 1;
                   conn_uri :=
                     "mongodb://localhost:27017/tenant_acme?retryWrites=true" |}].
Proof.
  destruct (closeAllConnections_closes_all (serving never) _ eq_refl
              (fun i _ => eq_refl))
    as (st1 & E & _ & _ & Ht & _).
  exists st1; split; [exact E|]. now rewrite Ht.
Defined.

(* ===================================================================== *)
(** * More on the Request Context Binder *)
(* ===================================================================== *)

Module BinderMore.
Import RegistryMore.

(** ** Closing nothing, composed *)

Lemma never_closes_ret {A} (a : A) : never_closes (ret a).
Proof. now intros st c. Qed.

Lemma never_closes_throw {A} (e : Error) : never_closes (@throw A e).
Proof. now intros st c. Qed.

Lemma never_closes_bind {A B} (m : M A) (k : A -> M B) :
  never_closes m -> (forall a, never_closes (k a)) -> never_closes (bind m k).
Proof.
  intros Hm Hk st c; unfold bind; specialize (Hm st c).
  destruct (m st) as [[a|e] st']; simpl in *; [|exact Hm].
  intros H; apply Hm; now apply (Hk a).
Qed.

Lemma never_closes_try_catch {A} (body : M A) (handler : Error -> M A) :
  never_closes body -> (forall e, never_closes (handler e)) ->
  never_closes (try_catch body handler).
Proof.
  intros Hb Hh st c; unfold try_catch; specialize (Hb st c).
  destruct (body st) as [[a|e] st']; simpl in *; [exact Hb|].
  intros H; apply Hb; now apply (Hh e).
Qed.

Lemma never_closes_emit (e : Event) : is_close e = false -> never_closes (emit e).
Proof.
  intros He st c [H|H]; [subst e; discriminate | exact H].
Qed.

Lemma never_closes_driver_call {A} (e : Event) (result : nat -> World -> A) :
  is_close e = false -> never_closes (driver_call e result).
Proof.
  intros He st c; unfold driver_call.
  destruct (fault (world st) (clock (world st))); simpl;
    (intros [H|H]; [subst e; discriminate | exact H]).
Qed.

Lemma never_closes_read {A} (f : State -> A) :
  never_closes (fun st => (Return (f st), st)).
Proof. now intros st c. Qed.

Lemma never_closes_set_connections m : never_closes (set_connections m).
Proof. now intros st c. Qed.

Lemma never_closes_set_masterConnection m :
  never_closes (set_masterConnection m).
Proof. now intros st c. Qed.

Ltac no_close :=
  repeat first
    [ progress (intros)
    | apply never_closes_bind
    | apply never_closes_try_catch
    | apply never_closes_ret
    | apply never_closes_throw
    | apply never_closes_set_connections
    | apply never_closes_set_masterConnection
    | (apply never_closes_emit; reflexivity)
    | (apply never_closes_driver_call; reflexivity)
    | apply (never_closes_read (fun st => connections (dbManager st)))
    | apply (never_closes_read (fun st => masterConnection (dbManager st)))
    | match goal with
      | |- never_closes (process_env ?v) =>
          apply (never_closes_read (fun st => v (world st)))
      | |- never_closes (match ?x with _ => _ end) => destruct x
      | |- never_closes (if ?x then _ else _) => destruct x
      end ].

Lemma never_closes_initializeMasterDB : never_closes initializeMasterDB.
Proof.
  unfold initializeMasterDB, called, console_log, console_error,
    createConnection; no_close.
Qed.

Lemma never_closes_getMasterConnection : never_closes getMasterConnection.
Proof.
  unfold getMasterConnection, called, this_masterConnection; no_close.
Qed.

Lemma never_closes_getTenantDB k : never_closes (getTenantDB k).
Proof.
  unfold getTenantDB, called, console_log, console_error, createConnection,
    this_connections; no_close.
Qed.

Lemma never_closes_tenantMiddleware req : never_closes (tenantMiddleware req).
Proof.
  unfold tenantMiddleware, tenantMiddleware_try, console_error, findOne,
    this_masterConnection.
  no_close;
    first [ apply never_closes_initializeMasterDB
          | apply never_closes_getMasterConnection
          | apply never_closes_getTenantDB ].
Qed.

(** ** A cache that only grows, composed *)

Lemma grows_of_keeps {A} (m : M A) : keeps_registry m -> cache_grows m.
Proof. intros Hk st k h H; now rewrite Hk. Qed.

Lemma grows_bind {A B} (m : M A) (k : A -> M B) :
  cache_grows m -> (forall a, cache_grows (k a)) -> cache_grows (bind m k).
Proof.
  intros Hm Hk st key h H; unfold bind; specialize (Hm st key h H).
  destruct (m st) as [[a|e] st']; simpl in *; [|exact Hm].
  now apply Hk.
Qed.

Lemma grows_try_catch {A} (body : M A) (handler : Error -> M A) :
  cache_grows body -> (forall e, cache_grows (handler e)) ->
  cache_grows (try_catch body handler).
Proof.
  intros Hb Hh st key h H; unfold try_catch; specialize (Hb st key h H).
  destruct (body st) as [[a|e] st']; simpl in *; [exact Hb|].
  now apply Hh.
Qed.

Lemma grows_getTenantDB k : cache_grows (getTenantDB k).
Proof.
  intros st k' h Hh.
  destruct (getTenantDB_registry k st) as [E|(Ht & Hmiss & Hc & Hm)].
  - now rewrite E.
  - rewrite Hc, MapFacts.get_set_other; [exact Hh|].
    exact (MapMore.get_some_differs _ _ _ _ Hmiss Hh).
Qed.

Lemma grows_initializeMasterDB : cache_grows initializeMasterDB.
Proof.
  intros st k h H.
  now rewrite (proj1 (initializeMasterDB_registry st)).
Qed.

Lemma grows_tenantMiddleware req : cache_grows (tenantMiddleware req).
Proof.
  unfold tenantMiddleware, tenantMiddleware_try.
  apply grows_try_catch.
  - apply grows_bind; [apply grows_of_keeps; now intros st|intros master].
    apply grows_bind.
    + destruct master; [apply grows_of_keeps, intact_ret|].
      apply grows_bind; [apply grows_initializeMasterDB|intros _].
      apply grows_of_keeps, intact_ret.
    + intros _.
      destruct (falsy_opt _ || _); [|destruct (extractTenantFromHost _)].
      * apply grows_bind;
          [apply grows_of_keeps, intact_getMasterConnection | intros db].
        apply grows_of_keeps, intact_ret.
      * apply grows_bind;
          [apply grows_of_keeps, intact_getMasterConnection | intros db].
        apply grows_bind;
          [apply grows_of_keeps, intact_driver_call | intros [t|]].
        -- apply grows_bind; [apply grows_getTenantDB | intros h].
           apply grows_of_keeps, intact_ret.
        -- apply grows_of_keeps, intact_ret.
      * apply grows_bind;
          [apply grows_of_keeps, intact_getMasterConnection | intros db].
        apply grows_of_keeps, intact_ret.
  - intros e. apply grows_of_keeps.
    apply intact_bind; [apply intact_emit | intros _; apply intact_ret].
Qed.

End BinderMore.

(** X14.  Serving a request never takes anything away from the registry:
    the middleware calls [close] on no handle, and every handle that was
    cached before the request is cached under the same key after it,
    however the request ends. *)
Theorem tenantMiddleware_takes_nothing_away (req : Request) (st : State) :
  (forall c,
      In (Close c) (trace (world (snd (tenantMiddleware req st)))) ->
      In (Close c) (trace (world st)))
  /\ (forall k h,
        JsMap.get (connections (dbManager st)) k = Some h ->
        JsMap.get (connections (dbManager (snd (tenantMiddleware req st)))) k
        = Some h).
Proof.
  split.
  - exact (BinderMore.never_closes_tenantMiddleware req st).
  - exact (BinderMore.grows_tenantMiddleware req st).
Qed.

(** X14 on a request for a new tenant arriving at a serving process. *)
Lemma tenantMiddleware_takes_nothing_away_witness :
  JsMap.get
    (connections
       (dbManager
          (snd (tenantMiddleware (sample_request "initech.myapp.com" "/api/jobs")
                  (serving never)))))
    (Str "globex")
  = Some {| conn_id := 2;
            conn_uri :=
              "mongodb://localhost:27017/tenant_globex?retryWrites=true" |}.
Proof.
  assert (Hget : JsMap.get (connections (dbManager (serving never)))
                   (Str "globex")
                 = Some {| conn_id := 2;
                           conn_uri :=
                             "mongodb://localhost:27017/tenant_globex?retryWrites=true" |})
    by (vm_compute; reflexivity).
  exact (proj2 (tenantMiddleware_takes_nothing_away
                  (sample_request "initech.myapp.com" "/api/jobs")
                  (serving never))
               (Str "globex") _ Hget).
Defined.

(** X15.  For a request on an ordinary path whose host resolves to [id],
    with the master handle available, a lookup that does not reject and
    finds the record [t] (whose subdomain, as every stored one, is not
    empty) and, when that subdomain is not cached yet, a connection attempt
    that succeeds: [t] is active and its subdomain is [id] in lower case;
    the middleware queries the tenant collection exactly once, with [id] as
    the host gave it; it calls [getTenantDB] exactly once, with the
    subdomain of the record; and it calls [next()] with the record as
    [req.tenant], the record's subdomain as [req.tenantId], and as [req.db]
    the handle that is cached under that subdomain afterwards, which is the
    handle that was cached before when there was one, and a new connection
    to the database [tenant_] followed by that subdomain otherwise. *)
Theorem tenantMiddleware_binds_tenant (req : Request) (st : State)
  (id : string) (t : Tenant) :
  extractTenantFromHost (host_of req) = Some id ->
  Js.startsWith (req_path req) admin_prefix = false ->
  master_ready st ->
  call_ok st (lookup_call st) ->
  List.find (matches (to_lower (world st)) id true) (tenants (world st))
  = Some t ->
  subdomain t <> "" ->
  (JsMap.get (connections (dbManager st)) (Str (subdomain t)) = None ->
   call_ok st (lookup_call st + 1)) ->
  exists db st1 evs,
    tenantMiddleware req st
    = (Return (Next (write_tenantId
                       (write_db (write_tenant req (Some t)) db)
                       (subdomain t))),
       st1)
    /\ subdomain t = to_lower (world st) id /\ isActive t = true
    /\ JsMap.get (connections (dbManager st1)) (Str (subdomain t)) = Some db
    /\ (forall h,
          JsMap.get (connections (dbManager st)) (Str (subdomain t)) = Some h ->
          db = h)
    /\ (JsMap.get (connections (dbManager st)) (Str (subdomain t)) = None ->
        conn_uri db = connection_string (MONGODB_URI (world st))
                        ("tenant_" ++ subdomain t)
                        (MONGODB_OPTIONS (world st)))
    /\ events_since st st1 evs
    /\ List.filter (is_call_of "getTenantDB") evs
       = [Call "getTenantDB" (Str (subdomain t))]
    /\ List.filter is_findOne evs = [FindOne (master_handle_for st) id true].
Proof.
  intros Hx Hpath Hready Hok Hfind Hne Hconn.
  pose proof (BinderFacts.extract_nonempty _ _ Hx) as Hfalsy.
  destruct (LookupFacts.find_matches _ _ _ _ Hfind) as [Hsub Hact].
  assert (Ht : truthy (Str (subdomain t)) = true).
  { simpl; now apply negb_true_iff, String.eqb_neq. }
  unfold events_since, master_ready, master_handle_for, lookup_call, call_ok,
    host_of in *.
  BinderFacts.run_binder. rewrite Hx, Hfalsy, Hpath. cbn [orb].
  destruct (masterConnection (dbManager st)) as [m|] eqn:Hm; run.
  - rewrite Nat.add_0_r in *.
    rewrite Hm; run; rewrite Hok, Hfind.
    destruct (JsMap.get (connections (dbManager st)) (Str (subdomain t))) as [h|] eqn:Hget.
    + match goal with
      | |- context [getTenantDB ?a ?s] =>
          rewrite (RegistryFacts.getTenantDB_hit a s h Ht Hget)
      end.
      exists h. eexists.
      exists [Call "getTenantDB" (Str (subdomain t)); FindOne m id true;
              Call "getMasterConnection" Undefined].
      split; [reflexivity|]. run.
      repeat split; try assumption; try reflexivity; congruence.
    + match goal with
      | |- context [getTenantDB ?a ?s] =>
          destruct (RegistryFacts.getTenantDB_miss a s Ht Hget)
            as (s1 & E & Hc & _ & _ & Htr)
      end.
      { unfold call_ok; cbn [world tick record_event clock fault].
        rewrite Nat.add_0_r. specialize (Hconn eq_refl).
        now rewrite Nat.add_1_r in Hconn. }
      rewrite E.
      eexists. exists s1.
      exists [ConsoleLog ["✅ Tenant database connected: tenant_" ++ subdomain t];
              CreateConnection
                (connection_string (MONGODB_URI (world st)) ("tenant_" ++ subdomain t)
                   (MONGODB_OPTIONS (world st))) pool_options;
              Call "getTenantDB" (Str (subdomain t)); FindOne m id true;
              Call "getMasterConnection" Undefined].
      split; [reflexivity|]. rewrite Hc, Htr.
      repeat split; try assumption; try reflexivity;
        [apply MapFacts.get_set_same | discriminate].
  - rewrite Nat.add_0_r in Hready. rewrite Nat.add_1_r in Hok.
    rewrite Hready; run; rewrite Hok, Hfind.
    destruct (JsMap.get (connections (dbManager st)) (Str (subdomain t))) as [h|] eqn:Hget.
    + match goal with
      | |- context [getTenantDB ?a ?s] =>
          rewrite (RegistryFacts.getTenantDB_hit a s h Ht Hget)
      end.
      exists h. eexists.
      exists [Call "getTenantDB" (Str (subdomain t));
              FindOne {| conn_id := clock (world st);
                         conn_uri :=
                           connection_string (MONGODB_URI (world st))
                             masterDbName (MONGODB_OPTIONS (world st)) |}
                id true;
              Call "getMasterConnection" Undefined;
              ConsoleLog ["✅ Master database connected: " ++ masterDbName];
              CreateConnection
                (connection_string (MONGODB_URI (world st)) masterDbName
                   (MONGODB_OPTIONS (world st))) pool_options;
              Call "initializeMasterDB" Undefined].
      split; [reflexivity|]. run.
      repeat split; try assumption; try reflexivity; congruence.
    + match goal with
      | |- context [getTenantDB ?a ?s] =>
          destruct (RegistryFacts.getTenantDB_miss a s Ht Hget)
            as (s1 & E & Hc & _ & _ & Htr)
      end.
      { unfold call_ok; cbn [world tick record_event clock fault].
        rewrite Nat.add_0_r. specialize (Hconn eq_refl).
        now replace (clock (world st) + (1 + 1))
          with (S (S (clock (world st)))) in Hconn by lia. }
      rewrite E.
      eexists. exists s1.
      exists [ConsoleLog ["✅ Tenant database connected: tenant_" ++ subdomain t];
              CreateConnection
                (connection_string (MONGODB_URI (world st)) ("tenant_" ++ subdomain t)
                   (MONGODB_OPTIONS (world st))) pool_options;
              Call "getTenantDB" (Str (subdomain t));
              FindOne {| conn_id := clock (world st);
                         conn_uri :=
                           connection_string (MONGODB_URI (world st))
                             masterDbName (MONGODB_OPTIONS (world st)) |}
                id true;
              Call "getMasterConnection" Undefined;
              ConsoleLog ["✅ Master database connected: " ++ masterDbName];
              CreateConnection
                (connection_string (MONGODB_URI (world st)) masterDbName
                   (MONGODB_OPTIONS (world st))) pool_options;
              Call "initializeMasterDB" Undefined].
      split; [reflexivity|]. rewrite Hc, Htr.
      repeat split; try assumption; try reflexivity;
        [apply MapFacts.get_set_same | discriminate].
Qed.

(** X15 on a first request for the active tenant [acme], reached under
    the host name [ACME.myapp.com]. *)
Lemma tenantMiddleware_binds_tenant_witness :
  exists db st1,
    tenantMiddleware (sample_request "ACME.myapp.com:443" "/api/jobs")
      (initial (sample_world never [ghost_inactive; acme]))
    = (Return
         (Next (write_tenantId
                  (write_db
                     (write_tenant
                        (sample_request "ACME.myapp.com:443" "/api/jobs")
                        (Some acme))
                     db)
                  "acme")),
       st1)
    /\ conn_uri db = "mongodb://localhost:27017/tenant_acme?retryWrites=true"
    /\ JsMap.get (connections (dbManager st1)) (Str "acme") = Some db.
Proof.
  assert (Hne : subdomain acme <> "") by discriminate.
  destruct (tenantMiddleware_binds_tenant
              (sample_request "ACME.myapp.com:443" "/api/jobs")
              (initial (sample_world never [ghost_inactive; acme]))
              "ACME" acme eq_refl eq_refl eq_refl eq_refl eq_refl Hne
              (fun _ => eq_refl))
    as (db & st1 & evs & E & _ & _ & Hget & _ & Huri & _).
  exists db, st1. split; [exact E|]. split; [exact (Huri eq_refl) | exact Hget].
Defined.

(** X16.  Whatever the request and the state, a request that the middleware
    hands on with a tenant bound is bound to a record of the tenant
    collection that is active and whose subdomain is, in lower case, the
    identifier resolved from the request's host, on a path outside
    [/api/super-admin], with [req.tenantId] the subdomain of the record and
    [req.db] the handle cached under it; a request handed on without a
    tenant has the handle of the master slot as [req.db] and either
    resolves to no tenant or is on an administrative path; the 404 answer
    is given only when the collection holds no active record whose
    subdomain is the resolved identifier in lower case; and the only other
    answer is the 500 one. *)
Theorem tenantMiddleware_outcomes (req : Request) (st st1 : State)
  (out : Outcome) :
  tenantMiddleware req st = (Return out, st1) ->
  match out with
  | Next r =>
      (req_tenant r = None
       /\ req_db r = masterConnection (dbManager st1)
       /\ req_db r <> None
       /\ (extractTenantFromHost (host_of req) = None
           \/ Js.startsWith (req_path req) admin_prefix = true))
      \/ (exists t id,
            req_tenant r = Some t
            /\ In t (tenants (world st))
            /\ isActive t = true
            /\ extractTenantFromHost (host_of req) = Some id
            /\ subdomain t = to_lower (world st) id
            /\ Js.startsWith (req_path req) admin_prefix = false
            /\ req_tenantId r = Some (subdomain t)
            /\ req_db r
               = JsMap.get (connections (dbManager st1)) (Str (subdomain t))
            /\ req_db r <> None)
  | Json _ _ =>
      (out = tenant_not_found
       /\ exists id,
            extractTenantFromHost (host_of req) = Some id
            /\ Js.startsWith (req_path req) admin_prefix = false
            /\ List.find (matches (to_lower (world st)) id true)
                 (tenants (world st)) = None)
      \/ out = tenant_resolution_error
  end.
Proof.
  unfold host_of.
  assert (Hmaster : forall s s' o,
    try_catch
      (db <- getMasterConnection ;;
       ret (Next (write_tenant (write_db req db) None)))
      (fun error =>
         console_error ["Tenant middleware error:"; message error] ;;
         ret tenant_resolution_error) s = (Return o, s') ->
    match o with
    | Next r =>
        req_tenant r = None /\ req_db r = masterConnection (dbManager s')
        /\ req_db r <> None
    | Json _ _ => o = tenant_resolution_error
    end).
  { intros s s' o. unfold getMasterConnection; run.
    destruct (masterConnection (dbManager s)) as [m|] eqn:Hm; run;
      intros [= <- <-]; simpl; [|reflexivity].
    repeat split; [now rewrite Hm | discriminate]. }
  assert (Htenant : forall id s s' o,
    tenants (world s) = tenants (world st) ->
    to_lower (world s) = to_lower (world st) ->
    try_catch
      (model_db <- getMasterConnection ;;
       tenant <- findOne model_db id true ;;
       match tenant with
       | None => ret tenant_not_found
       | Some t =>
           tenantDB <- getTenantDB (Str (subdomain t)) ;;
           ret (Next (write_tenantId
                        (write_db (write_tenant req (Some t)) tenantDB)
                        (subdomain t)))
       end)
      (fun error =>
         console_error ["Tenant middleware error:"; message error] ;;
         ret tenant_resolution_error) s = (Return o, s') ->
    match o with
    | Next r =>
        exists t,
          req_tenant r = Some t /\ In t (tenants (world st))
          /\ isActive t = true /\ subdomain t = to_lower (world st) id
          /\ req_tenantId r = Some (subdomain t)
          /\ req_db r
             = JsMap.get (connections (dbManager s')) (Str (subdomain t))
          /\ req_db r <> None
    | Json _ _ =>
        (o = tenant_not_found
         /\ List.find (matches (to_lower (world st)) id true)
              (tenants (world st)) = None)
        \/ o = tenant_resolution_error
    end).
  { intros id s s' o Hts Hlow. unfold getMasterConnection; run.
    destruct (masterConnection (dbManager s)) as [m|]; run;
      [|intros [= <- <-]; now right].
    destruct (fault (world s) (clock (world s))); run;
      [intros [= <- <-]; now right|].
    rewrite Hts, Hlow.
    destruct (List.find (matches (to_lower (world st)) id true)
                (tenants (world st))) as [t|] eqn:Hf;
      [|intros [= <- <-]; left; now split].
    destruct (LookupFacts.find_matches _ _ _ _ Hf) as [Hsub Hact].
    apply List.find_some in Hf as [Hin _].
    match goal with
    | |- context [getTenantDB ?a ?s0] =>
        destruct (getTenantDB a s0) as [[h|e] s2] eqn:Eg
    end; run; intros [= <- <-]; [|now right].
    apply RegistryFacts.getTenantDB_returned_is_cached in Eg as [_ Hget].
    exists t; simpl. rewrite Hget.
    repeat split; try assumption; discriminate. }
  unfold tenantMiddleware, tenantMiddleware_try.
  unfold bind at 1, this_masterConnection, try_catch at 1.
  assert (Hbranch : forall s s' o,
    tenants (world s) = tenants (world st) ->
    to_lower (world s) = to_lower (world st) ->
    try_catch
      (match
         falsy_opt
           (extractTenantFromHost
              (js_or (req_get_host req) (req_headers_host req)))
         || Js.startsWith (req_path req) admin_prefix,
         extractTenantFromHost
           (js_or (req_get_host req) (req_headers_host req))
       with
       | false, Some sub =>
           model_db <- getMasterConnection ;;
           tenant <- findOne model_db sub true ;;
           match tenant with
           | None => ret tenant_not_found
           | Some t =>
               tenantDB <- getTenantDB (Str (subdomain t)) ;;
               ret (Next (write_tenantId
                            (write_db (write_tenant req (Some t)) tenantDB)
                            (subdomain t)))
           end
       | _, _ =>
           db <- getMasterConnection ;;
           ret (Next (write_tenant (write_db req db) None))
       end)
      (fun error =>
         console_error ["Tenant middleware error:"; message error] ;;
         ret tenant_resolution_error) s = (Return o, s') ->
    match o with
    | Next r =>
        (req_tenant r = None
         /\ req_db r = masterConnection (dbManager s')
         /\ req_db r <> None
         /\ (extractTenantFromHost
               (js_or (req_get_host req) (req_headers_host req)) = None
             \/ Js.startsWith (req_path req) admin_prefix = true))
        \/ (exists t id,
              req_tenant r = Some t
              /\ In t (tenants (world st))
              /\ isActive t = true
              /\ extractTenantFromHost
                   (js_or (req_get_host req) (req_headers_host req))
                 = Some id
              /\ subdomain t = to_lower (world st) id
              /\ Js.startsWith (req_path req) admin_prefix = false
              /\ req_tenantId r = Some (subdomain t)
              /\ req_db r
                 = JsMap.get (connections (dbManager s')) (Str (subdomain t))
              /\ req_db r <> None)
    | Json _ _ =>
        (o = tenant_not_found
         /\ exists id,
              extractTenantFromHost
                (js_or (req_get_host req) (req_headers_host req)) = Some id
              /\ Js.startsWith (req_path req) admin_prefix = false
              /\ List.find (matches (to_lower (world st)) id true)
                   (tenants (world st)) = None)
        \/ o = tenant_resolution_error
    end).
  { intros s s' o Hts Hlow.
    destruct (extractTenantFromHost
                (js_or (req_get_host req) (req_headers_host req)))
      as [id|] eqn:Hx.
    - rewrite (BinderFacts.extract_nonempty _ _ Hx). cbn [orb].
      destruct (Js.startsWith (req_path req) admin_prefix) eqn:Hp.
      + intros H; apply Hmaster in H. destruct o as [r|status body].
        * left; destruct H as (H1 & H2 & H3); auto.
        * now right.
      + intros H; apply (Htenant id s s' o Hts Hlow) in H.
        destruct o as [r|status body].
        * right. destruct H as (t & H1 & H2 & H3 & H4 & H5 & H6 & H7).
          exists t, id. repeat split; try assumption; reflexivity.
        * destruct H as [[H1 H2]|H]; [left|now right].
          split; [exact H1|]. now exists id.
    - cbn [falsy_opt orb].
      intros H; apply Hmaster in H. destruct o as [r|status body].
      + left; destruct H as (H1 & H2 & H3); auto.
      + now right. }
  destruct (masterConnection (dbManager st)) as [m|].
  - unfold bind at 1, ret at 1.
    intros H. apply (Hbranch st st1 out eq_refl eq_refl). exact H.
  - unfold bind at 1 2.
    destruct (initializeMasterDB st) as [[c|e] s1] eqn:Einit.
    + unfold ret at 1. intros H.
      apply (Hbranch s1 st1 out); [| |exact H];
        revert Einit; unfold initializeMasterDB; run;
        destruct (fault (world st) (clock (world st))); run;
        intros [= <- <-]; reflexivity.
    + run. intros [= <- <-]. now right.
Qed.

(** X16 on the request of X15: the record bound is active, and its
    subdomain is the label of the host in lower case. *)
Lemma tenantMiddleware_outcomes_witness :
  exists t id,
    In t [ghost_inactive; acme] /\ isActive t = true
    /\ extractTenantFromHost (Str "ACME.myapp.com:443") = Some id
    /\ subdomain t = lower id.
Proof.
  assert (E : tenantMiddleware
                (sample_request "ACME.myapp.com:443" "/api/jobs")
                (initial (sample_world never [ghost_inactive; acme]))
              = (Return
                   (Next (write_tenantId
                            (write_db
                               (write_tenant
                                  (sample_request "ACME.myapp.com:443"
                                     "/api/jobs")
                                  (Some acme))
                               {| conn_id := 2;
                                  conn_uri :=
                                    "mongodb://localhost:27017/tenant_acme?retryWrites=true" |})
                            "acme")),
                 snd (tenantMiddleware
                        (sample_request "ACME.myapp.com:443" "/api/jobs")
                        (initial (sample_world never [ghost_inactive; acme])))))
    by (vm_compute; reflexivity).
  destruct (tenantMiddleware_outcomes _ _ _ _ E)
    as [(H & _)|(t & id & _ & Hin & Hact & Hx & Hsub & _)]; [discriminate|].
  exists t, id; repeat split; assumption.
Defined.

(* ===================================================================== *)
(** * Subdomain names *)
(* ===================================================================== *)

Module SlugFacts.

Lemma slug_hyphen : slug_char "-" = true.
Proof. reflexivity. Qed.

Lemma replace_all_slug (s : string) :
  string_forall slug_char (replace_non_slug s) = true.
Proof.
  induction s as [|c s IH]; simpl; [reflexivity|].
  rewrite IH, andb_true_r.
  destruct (slug_char c) eqn:E; [exact E | reflexivity].
Qed.

Lemma collapse_forall (p : ascii -> bool) (s : string) :
  string_forall p s = true -> string_forall p (collapse_hyphens s) = true.
Proof.
  induction s as [|c s IH]; [reflexivity|].
  intros H; simpl in H; apply andb_true_iff in H as [Hc Hs].
  cbn [collapse_hyphens].
  destruct (is_hyphen c); [destruct s as [|d s']|].
  - simpl; now rewrite Hc.
  - destruct (is_hyphen d); [now apply IH|].
    change (p c && string_forall p (collapse_hyphens (String d s')) = true).
    now rewrite Hc, IH.
  - change (p c && string_forall p (collapse_hyphens s) = true).
    now rewrite Hc, IH.
Qed.

(** The head of a collapsed string is the head of the string, unless the
    string is empty. *)
Lemma collapse_head (s : string) :
  starts_with_hyphen (collapse_hyphens s) = starts_with_hyphen s.
Proof.
  induction s as [|c s IH]; [reflexivity|].
  cbn [collapse_hyphens].
  destruct (is_hyphen c) eqn:Ec; [destruct s as [|d s']|].
  - reflexivity.
  - destruct (is_hyphen d) eqn:Ed.
    + rewrite IH; simpl. now rewrite Ec, Ed.
    + reflexivity.
  - reflexivity.
Qed.

Lemma no_double_cons (c : ascii) (s : string) :
  no_double_hyphen (String c s)
  = negb (is_hyphen c && starts_with_hyphen s) && no_double_hyphen s.
Proof.
  destruct s as [|d s]; simpl; [|reflexivity].
  now rewrite andb_false_r.
Qed.

Lemma collapse_no_double (s : string) :
  no_double_hyphen (collapse_hyphens s) = true.
Proof.
  induction s as [|c s IH]; [reflexivity|].
  cbn [collapse_hyphens].
  destruct (is_hyphen c) eqn:Ec; [destruct s as [|d s']|].
  - reflexivity.
  - destruct (is_hyphen d) eqn:Ed; [exact IH|].
    rewrite no_double_cons, IH, collapse_head; simpl.
    now rewrite Ed, andb_false_r.
  - rewrite no_double_cons, IH, Ec. reflexivity.
Qed.

Lemma strip_leading_forall (p : ascii -> bool) (s : string) :
  string_forall p s = true -> string_forall p (strip_leading_hyphen s) = true.
Proof.
  destruct s as [|c s]; [reflexivity|]. simpl.
  intros H; destruct (is_hyphen c); [|exact H].
  now apply andb_true_iff in H as [_ H].
Qed.

Lemma strip_leading_shape (s : string) :
  no_double_hyphen s = true ->
  no_double_hyphen (strip_leading_hyphen s) = true
  /\ starts_with_hyphen (strip_leading_hyphen s) = false.
Proof.
  destruct s as [|c s]; [now split|].
  intros H. cbn [strip_leading_hyphen].
  destruct (is_hyphen c) eqn:Ec.
  - rewrite no_double_cons, Ec in H.
    apply andb_true_iff in H as [H1 H2].
    apply negb_true_iff in H1. now split.
  - split; [exact H | exact Ec].
Qed.

Lemma strip_trailing_forall (p : ascii -> bool) (s : string) :
  string_forall p s = true -> string_forall p (strip_trailing_hyphen s) = true.
Proof.
  induction s as [|c s IH]; [reflexivity|].
  intros H; simpl in H; apply andb_true_iff in H as [Hc Hs].
  cbn [strip_trailing_hyphen]. destruct s as [|d s'].
  - destruct (is_hyphen c); simpl; [reflexivity | now rewrite Hc].
  - change (p c && string_forall p (strip_trailing_hyphen (String d s')) = true).
    now rewrite Hc, IH.
Qed.

Lemma strip_trailing_head (s : string) :
  starts_with_hyphen s = false ->
  starts_with_hyphen (strip_trailing_hyphen s) = false.
Proof.
  destruct s as [|c s]; [reflexivity|]. cbn [strip_trailing_hyphen].
  destruct s as [|d s']; simpl; intros H; [now rewrite H | exact H].
Qed.


Lemma strip_trailing_no_double (s : string) :
  no_double_hyphen s = true -> no_double_hyphen (strip_trailing_hyphen s) = true.
Proof.
  induction s as [|c s IH]; [reflexivity|].
  rewrite no_double_cons; intros H; apply andb_true_iff in H as [H1 H2].
  cbn [strip_trailing_hyphen]. destruct s as [|d s'].
  - now destruct (is_hyphen c).
  - rewrite no_double_cons, (IH H2), andb_true_r.
    destruct (is_hyphen c); [|reflexivity].
    cbn [andb] in *. apply negb_true_iff in H1.
    now rewrite (strip_trailing_head _ H1).
Qed.

Lemma substring_forall (p : ascii -> bool) (n : nat) (s : string) :
  string_forall p s = true -> string_forall p (String.substring 0 n s) = true.
Proof.
  revert s; induction n as [|n IH]; intros [|c s]; simpl; auto.
  intros H; apply andb_true_iff in H as [Hc Hs]. now rewrite Hc, IH.
Qed.

Lemma substring_head (n : nat) (s : string) :
  starts_with_hyphen s = false ->
  starts_with_hyphen (String.substring 0 n s) = false.
Proof. destruct n, s; simpl; auto. Qed.

Lemma substring_no_double (n : nat) (s : string) :
  no_double_hyphen s = true ->
  no_double_hyphen (String.substring 0 n s) = true.
Proof.
  revert s; induction n as [|n IH]; intros [|c s]; try reflexivity.
  rewrite no_double_cons; intros H; apply andb_true_iff in H as [H1 H2].
  cbn [String.substring]. rewrite no_double_cons, (IH _ H2), andb_true_r.
  destruct (is_hyphen c); [|reflexivity].
  cbn [andb] in *. apply negb_true_iff in H1.
  now rewrite (substring_head n _ H1).
Qed.

Lemma substring_length (n : nat) (s : string) :
  String.length (String.substring 0 n s) <= n.
Proof.
  revert s; induction n as [|n IH]; intros [|c s]; simpl; try lia.
  specialize (IH s); lia.
Qed.

End SlugFacts.

(** X17.  Whatever the input, [sanitizeSubdomain] returns at most 30
    characters, all of them lower-case letters, digits or hyphens, with no
    hyphen in first place and no two hyphens in a row. *)
Theorem sanitizeSubdomain_shape (toLowerCase : string -> string)
  (str : string) :
  String.length (sanitizeSubdomain toLowerCase str) <= 30
  /\ string_forall slug_char (sanitizeSubdomain toLowerCase str) = true
  /\ starts_with_hyphen (sanitizeSubdomain toLowerCase str) = false
  /\ no_double_hyphen (sanitizeSubdomain toLowerCase str) = true.
Proof.
  unfold sanitizeSubdomain.
  pose proof (SlugFacts.replace_all_slug (toLowerCase str)) as Hall.
  apply (SlugFacts.collapse_forall slug_char) in Hall.
  pose proof (SlugFacts.collapse_no_double
                (replace_non_slug (toLowerCase str))) as Hnd.
  destruct (SlugFacts.strip_leading_shape _ Hnd) as [Hnd1 Hhead].
  split; [apply SlugFacts.substring_length|]. split; [|split].
  - now apply SlugFacts.substring_forall, SlugFacts.strip_trailing_forall,
      SlugFacts.strip_leading_forall.
  - now apply SlugFacts.substring_head, SlugFacts.strip_trailing_head.
  - now apply SlugFacts.substring_no_double, SlugFacts.strip_trailing_no_double.
Qed.

Module UniqueFacts.
Import StringFacts.

Lemma decimal_inj (a b : nat) : decimal a = decimal b -> a = b.
Proof.
  unfold decimal; intros H. apply Unsigned.to_uint_inj.
  apply (f_equal NilEmpty.uint_of_string) in H.
  rewrite !NilEmpty.usu in H. now injection H.
Qed.

Lemma decimal_nonempty (n : nat) : decimal n <> "".
Proof.
  unfold decimal.
  assert (Hn : Nat.to_uint n <> Decimal.Nil).
  { rewrite <- (Unsigned.of_to n) at 1. rewrite Unsigned.to_of.
    unfold Decimal.unorm. now destruct (Decimal.nzhead (Nat.to_uint n)). }
  destruct (Nat.to_uint n); [contradiction | discriminate ..].
Qed.

Lemma append_inj_l (a x y : string) : a ++ x = a ++ y -> x = y.
Proof.
  induction a as [|c a IH]; simpl; [auto|].
  intros H; injection H as H; auto.
Qed.

Lemma append_length (a b : string) :
  String.length (a ++ b) = String.length a + String.length b.
Proof. induction a as [|c a IH]; simpl; [reflexivity | now rewrite IH]. Qed.

Lemma candidate_inj (base : string) (i j : nat) :
  candidate base i = candidate base j -> i = j.
Proof.
  destruct i as [|i], j as [|j]; cbn [candidate]; intros H; [reflexivity | | |].
  - apply (f_equal String.length) in H.
    rewrite append_length in H. cbn [String.append String.length] in H. lia.
  - apply (f_equal String.length) in H.
    rewrite append_length in H. cbn [String.append String.length] in H. lia.
  - apply append_inj_l in H. cbn [String.append] in H.
    injection H as H. now apply decimal_inj in H.
Qed.

Lemma includes_In (existing : list string) (s : string) :
  includes existing s = true <-> In s existing.
Proof.
  unfold includes; rewrite List.existsb_exists; split.
  - intros (x & Hin & E). apply String.eqb_eq in E; now subst.
  - intros H; exists s; split; [exact H | apply String.eqb_refl].
Qed.

(** The loop, from candidate [i], returns the first candidate from [i] on
    that is not in the list, if the fuel reaches it. *)
Lemma search_finds (existing : list string) (base : string) (fuel : nat) :
  forall i j,
    i <= j -> j < i + fuel ->
    (forall k, i <= k -> k < j -> In (candidate base k) existing) ->
    ~ In (candidate base j) existing ->
    unique_search fuel existing base (candidate base i) (S i)
    = Some (candidate base j).
Proof.
  induction fuel as [|fuel IH]; intros i j Hij Hj Hbelow Hfree; [lia|].
  cbn [unique_search].
  destruct (includes existing (candidate base i)) eqn:E.
  - apply includes_In in E.
    assert (i <> j) by (intros ->; contradiction).
    apply (IH (S i) j);
      [lia | lia | intros k Hk1 Hk2; apply Hbelow; lia | exact Hfree].
  - assert (i = j) as ->; [|reflexivity].
    destruct (Nat.eq_dec i j) as [|Hne]; [assumption|].
    assert (Hin : In (candidate base i) existing) by (apply Hbelow; lia).
    apply includes_In in Hin. congruence.
Qed.

Lemma NoDup_map_inj {A B} (f : A -> B) (l : list A) :
  (forall x y, f x = f y -> x = y) -> List.NoDup l -> List.NoDup (List.map f l).
Proof.
  intros Hinj; induction 1 as [|x l Hx Hl IH]; simpl; constructor; [|exact IH].
  intros Hin; apply List.in_map_iff in Hin as (y & E & Hy).
  apply Hinj in E; now subst.
Qed.

(** Among the first candidates, one more than the list has entries, one is
    not in the list; take the first such. *)
Lemma first_free (existing : list string) (base : string) :
  exists j,
    j <= List.length existing
    /\ ~ In (candidate base j) existing
    /\ forall k, k < j -> In (candidate base k) existing.
Proof.
  assert (Hscan : forall m,
    (forall k, k < m -> In (candidate base k) existing)
    \/ exists j, j < m /\ ~ In (candidate base j) existing
                 /\ forall k, k < j -> In (candidate base k) existing).
  { induction m as [|m [Hall|(j & Hj & Hfree & Hbelow)]].
    - left; intros k Hk; lia.
    - destruct (List.in_dec string_dec (candidate base m) existing) as [Hin|Hout].
      + left; intros k Hk. destruct (Nat.eq_dec k m) as [->|]; [exact Hin|].
        apply Hall; lia.
      + right; exists m; repeat split; [lia | exact Hout | exact Hall].
    - right; exists j; repeat split; [lia | exact Hfree | exact Hbelow]. }
  destruct (Hscan (S (List.length existing)))
    as [Hall|(j & Hj & Hfree & Hbelow)].
  - exfalso.
    assert (Hincl : List.incl
              (List.map (candidate base) (List.seq 0 (S (List.length existing))))
              existing).
    { intros x Hx; apply List.in_map_iff in Hx as (k & <- & Hk).
      apply List.in_seq in Hk. apply Hall; lia. }
    apply List.NoDup_incl_length in Hincl.
    + rewrite List.length_map, List.length_seq in Hincl. lia.
    + apply NoDup_map_inj; [apply candidate_inj | apply List.seq_NoDup].
  - exists j; repeat split; [lia | exact Hfree | exact Hbelow].
Qed.

End UniqueFacts.

(** X18.  With more iterations allowed than the list has entries, the loop
    of [generateUniqueSubdomain] ends, and what it returns is not in the
    list: it is the sanitized company name when that is not in the list,
    and otherwise the first of the names made of it with [-1], [-2], ...
    that is not in the list. *)
Theorem generateUniqueSubdomain_fresh (toLowerCase : string -> string)
  (fuel : nat) (companyName : string) (existingSubdomains : list string) :
  List.length existingSubdomains < fuel ->
  exists j,
    generateUniqueSubdomain toLowerCase fuel companyName existingSubdomains
    = Some (candidate (sanitizeSubdomain toLowerCase companyName) j)
    /\ ~ In (candidate (sanitizeSubdomain toLowerCase companyName) j)
            existingSubdomains
    /\ j <= List.length existingSubdomains
    /\ forall k, k < j ->
         In (candidate (sanitizeSubdomain toLowerCase companyName) k)
            existingSubdomains.
Proof.
  intros Hfuel.
  destruct (UniqueFacts.first_free existingSubdomains
              (sanitizeSubdomain toLowerCase companyName))
    as (j & Hj & Hfree & Hbelow).
  exists j; repeat split; try assumption.
  unfold generateUniqueSubdomain.
  apply (UniqueFacts.search_finds existingSubdomains _ fuel 0 j);
    [lia | lia | intros k _ Hk; now apply Hbelow | exact Hfree].
Qed.

(** X18 on a name taken twice. *)
Lemma generateUniqueSubdomain_fresh_witness :
  exists s,
    generateUniqueSubdomain lower 4 "Acme Corp" ["acme-corp"; "x"; "acme-corp-1"]
    = Some s
    /\ ~ In s ["acme-corp"; "x"; "acme-corp-1"].
Proof.
  assert (Hfuel : List.length ["acme-corp"; "x"; "acme-corp-1"] < 4)
    by (simpl; lia).
  destruct (generateUniqueSubdomain_fresh lower 4 "Acme Corp"
              ["acme-corp"; "x"; "acme-corp-1"] Hfuel)
    as (j & E & Hfree & _).
  eexists; split; [exact E | exact Hfree].
Defined.

Module SearchFacts.
Import StringFacts UniqueFacts.

Lemma at_most_30_length (s : string) : String.length (at_most_30 s) <= 30.
Proof.
  unfold at_most_30. destruct (Nat.ltb 30 (String.length s)) eqn:E.
  - apply SlugFacts.substring_length.
  - apply Nat.ltb_ge in E; exact E.
Qed.

Lemma substring_app_long (n : nat) (a b : string) :
  n <= String.length a ->
  String.substring 0 n (a ++ b) = String.substring 0 n a.
Proof.
  revert a; induction n as [|n IH]; intros [|c a] H; simpl in *;
    try reflexivity; try lia.
  - now destruct b.
  - rewrite IH by lia; reflexivity.
Qed.

(** From a base of 29 or 30 characters every numbered candidate is cut
    down to the same 30 characters. *)
Lemma numbered_candidate_stuck (base : string) (n : nat) :
  29 <= String.length base ->
  at_most_30 (base ++ "-" ++ decimal n) = String.substring 0 30 (base ++ "-").
Proof.
  intros Hlen. unfold at_most_30.
  assert (Hd : 1 <= String.length (decimal n)).
  { pose proof (decimal_nonempty n). destruct (decimal n); [contradiction|].
    simpl; lia. }
  replace (base ++ "-" ++ decimal n) with ((base ++ "-") ++ decimal n)
    by (now rewrite append_assoc).
  assert (Hl : String.length (base ++ "-") = String.length base + 1)
    by (rewrite append_length; reflexivity).
  assert (E : Nat.ltb 30 (String.length ((base ++ "-") ++ decimal n)) = true).
  { apply Nat.ltb_lt. rewrite append_length. lia. }
  rewrite E. apply substring_app_long. lia.
Qed.

(** The loop does not end while the name it holds stays taken and is the
    name every further candidate is cut down to. *)
Lemma search_stuck (query : string -> M (option Tenant))
  (I : State -> Prop) (base stuck : string) :
  (forall n, at_most_30 (base ++ "-" ++ decimal n) = stuck) ->
  (forall s, I s -> exists t s', query stuck s = (Return (Some t), s') /\ I s') ->
  forall fuel counter st,
    I st ->
    fst (subdomain_search query fuel base stuck counter st) = Return None.
Proof.
  intros Hcut Htaken; induction fuel as [|fuel IH]; intros counter st Hst;
    [reflexivity|].
  cbn [subdomain_search]. unfold bind.
  destruct (Htaken st Hst) as (t & s' & E & Hs'). rewrite E, Hcut.
  now apply IH.
Qed.

End SearchFacts.

(** X19.  The search of [createTenant] for a free subdomain never ends when
    the slug of the company name has 29 characters or more and both the
    slug cut to 30 characters and the name the numbered candidates are cut
    to (the first 30 characters of the cut slug followed by a hyphen) are
    taken for as long as the loop runs: every numbered candidate is that
    same name, so however many queries are allowed the loop is still
    running. *)
Theorem createTenant_subdomain_never_ends
  (findBySubdomain : string -> M (option Tenant)) (I : State -> Prop)
  (slug : string) (st : State) :
  29 <= String.length slug ->
  I st ->
  (forall s, I s ->
     exists t s', findBySubdomain (at_most_30 slug) s = (Return (Some t), s')
                  /\ I s') ->
  (forall s, I s ->
     exists t s',
       findBySubdomain (String.substring 0 30 (at_most_30 slug ++ "-")) s
       = (Return (Some t), s') /\ I s') ->
  forall fuel,
    fst (createTenant_subdomain findBySubdomain fuel slug st) = Return None.
Proof.
  intros Hlen Hst Hbase Hstuck fuel.
  assert (Hlen' : 29 <= String.length (at_most_30 slug)).
  { unfold at_most_30. destruct (Nat.ltb 30 (String.length slug)) eqn:E;
      [|exact Hlen].
    apply Nat.ltb_lt in E.
    assert (Hsub : forall n s, n <= String.length s ->
                     String.length (String.substring 0 n s) = n).
    { induction n as [|n IH]; intros [|c s] H; simpl in *; try lia.
      rewrite IH; lia. }
    rewrite Hsub; lia. }
  unfold createTenant_subdomain.
  destruct fuel as [|fuel]; [reflexivity|].
  cbn [subdomain_search]. unfold bind.
  destruct (Hbase st Hst) as (t & s' & E & Hs'). rewrite E.
  rewrite (SearchFacts.numbered_candidate_stuck _ 1 Hlen').
  apply (SearchFacts.search_stuck findBySubdomain I (at_most_30 slug));
    [|exact Hstuck | exact Hs'].
  intros n; now apply SearchFacts.numbered_candidate_stuck.
Qed.

(** X19 on a company whose 30-character slug is already a tenant, after a
    thousand queries. *)
Lemma createTenant_subdomain_never_ends_witness :
  fst (createTenant_subdomain find_in_world 1000
         "international-business-machine"
         (initial (sample_world never
                     [{| subdomain := "international-business-machine";
                         isActive := true;
                         companyName := "International Business Machine" |}])))
  = Return None.
Proof.
  assert (Hlen : 29 <= String.length "international-business-machine")
    by (simpl; lia).
  apply (createTenant_subdomain_never_ends find_in_world
           (fun s => tenants (world s)
                     = [{| subdomain := "international-business-machine";
                           isActive := true;
                           companyName := "International Business Machine" |}])
           "international-business-machine"
           (initial (sample_world never
                       [{| subdomain := "international-business-machine";
                           isActive := true;
                           companyName := "International Business Machine" |}]))
           Hlen eq_refl).
  - intros s Hs. do 2 eexists. unfold find_in_world. rewrite Hs.
    split; [reflexivity | exact Hs].
  - intros s Hs. do 2 eexists. unfold find_in_world. rewrite Hs.
    split; [reflexivity | exact Hs].
Defined.

(** X20.  When the search of [createTenant] ends, the subdomain it gives
    has at most 30 characters and is the name its last query found no
    tenant for; and when the slug, cut to 30 characters, is free, the
    search ends with it after one query. *)
Theorem createTenant_subdomain_is_free
  (findBySubdomain : string -> M (option Tenant)) (slug : string)
  (st : State) :
  (forall fuel s st1,
      createTenant_subdomain findBySubdomain fuel slug st
      = (Return (Some s), st1) ->
      String.length s <= 30
      /\ exists st0, findBySubdomain s st0 = (Return None, st1))
  /\ (forall fuel st1,
        findBySubdomain (at_most_30 slug) st = (Return None, st1) ->
        createTenant_subdomain findBySubdomain (S fuel) slug st
        = (Return (Some (at_most_30 slug)), st1)).
Proof.
  split.
  - assert (Hloop : forall fuel base subdomain counter st0 s st1,
      String.length subdomain <= 30 ->
      subdomain_search findBySubdomain fuel base subdomain counter st0
      = (Return (Some s), st1) ->
      String.length s <= 30
      /\ exists st', findBySubdomain s st' = (Return None, st1)).
    { induction fuel as [|fuel IH]; intros base subdomain counter st0 s st1 Hl;
        [discriminate|].
      cbn [subdomain_search]. unfold bind.
      destruct (findBySubdomain subdomain st0) as [[[t|]|e] s'] eqn:E;
        [| |discriminate].
      - apply IH, SearchFacts.at_most_30_length.
      - intros [= <- <-]. split; [exact Hl | now exists st0]. }
    intros fuel s st1. apply Hloop, SearchFacts.at_most_30_length.
  - intros fuel st1 E. unfold createTenant_subdomain.
    cbn [subdomain_search]. unfold bind. now rewrite E.
Qed.

(** X20 on a company whose slug is free. *)
Lemma createTenant_subdomain_is_free_witness :
  createTenant_subdomain find_in_world 1 "initech"
    (initial (sample_world never [acme]))
  = (Return (Some "initech"), initial (sample_world never [acme])).
Proof.
  exact (proj2 (createTenant_subdomain_is_free find_in_world "initech"
                  (initial (sample_world never [acme])))
               0 _ eq_refl).
Defined.
